(** * Travel-post bot: rotation, schedule resolver, publish pipeline

    A shallow embedding of [telegram_bot.py]: the settings store, the post
    log, the publish pipeline with its delivery fallback, the rubric
    rotator, the scheduled-run orchestration and the scheduler set-up.

    Conventions of the embedding.
    - JSON data loaded by [json.load] is a [value]; numbers are integers.
    - A Python string is the [string] of its UTF-8 bytes. Slices and
      lengths count code points: a code point starts at every byte that
      is not a UTF-8 continuation byte. [strip], [lower], [upper], [int]
      and the regular-expression classes [\s] and [\d] follow Python on
      the ASCII range.
    - A Python call that can raise returns a [result]; a [try ... except
      Exception] is a [match] on it.
    - Collaborators living outside the module (generators, HTTP, the
      publishers, the clock) answer through an [oracle]: one fixed outcome
      per call site, each call site being reached at most once per run.
    - Writes to the data directory are taken to succeed. *)

From Stdlib Require Import ZArith Lia Ascii String.
From stdpp Require Import gmap strings list fin_maps pretty sorting.

Set Warnings "-register-all".
Open Scope Z_scope.

(** ** Python values, exceptions, results *)

Inductive value :=
| VNone
| VBool (b : bool)
| VInt (n : Z)
| VStr (s : string)
| VList (l : list value)
| VDict (d : gmap string value).

Abbreviation dict := (gmap string value).

Inductive exn :=
| TypeError
| AttributeError
| ValueError
| IndexError
| JobLookupError
| ConflictingIdError
| UnknownTimeZoneError
| Exception (msg : string).

Inductive result (A : Type) :=
| Ok (a : A)
| Raise (e : exn).
Arguments Ok {A} a.
Arguments Raise {A} e.

#[global] Instance result_ret : MRet result := λ A a, Ok a.
#[global] Instance result_bind : MBind result := λ A B f m,
  match m with
  | Ok a => f a
  | Raise e => Raise e
  end.

#[global] Instance result_fmap : FMap result := λ A B f m,
  match m with
  | Ok a => Ok (f a)
  | Raise e => Raise e
  end.

(** Truth value testing: [None], [False], zero, and empty containers are
    false. *)
Definition truthy (v : value) : bool :=
  match v with
  | VNone => false
  | VBool b => b
  | VInt n => negb (n =? 0)
  | VStr s => negb (bool_decide (s = ""))
  | VList l => match l with [] => false | _ => true end
  | VDict d => negb (bool_decide (d = ∅))
  end.

(** [a or b] *)
Definition py_or (a b : value) : value := if truthy a then a else b.

(** [d.get(k)] on a dict object. *)
Definition dict_get (d : dict) (k : string) : value := default VNone (d !! k).

(** [v.get(k)]: only dicts have the method. *)
Definition py_get (v : value) (k : string) : result value :=
  match v with
  | VDict d => Ok (dict_get d k)
  | _ => Raise AttributeError
  end.

(** [v[k] = x] with a string key. *)
Definition py_setitem (v : value) (k : string) (x : value) : result value :=
  match v with
  | VDict d => Ok (VDict (<[k := x]> d))
  | _ => Raise TypeError
  end.

(** [s == v] for a Python [str] on the left. *)
Definition str_eq (s : string) (v : value) : bool :=
  match v with
  | VStr t => bool_decide (s = t)
  | _ => false
  end.

(** ** String methods *)

(** [c.isspace()] for a character of a [str]. *)
Definition py_isspace (c : ascii) : bool :=
  let n := nat_of_ascii c in
  ((9 <=? n)%nat && (n <=? 13)%nat) || ((28 <=? n)%nat && (n <=? 32)%nat).

(** The blanks [int] skips around an ASCII numeral: the C locale's
    [isspace]. *)
Definition c_isspace (c : ascii) : bool :=
  let n := nat_of_ascii c in
  ((9 <=? n)%nat && (n <=? 13)%nat) || (n =? 32)%nat.

Fixpoint lstrip_by (blank : ascii → bool) (s : string) : string :=
  match s with
  | "" => ""
  | String c r => if blank c then lstrip_by blank r else s
  end.

Definition strip_by (blank : ascii → bool) (s : string) : string :=
  String.rev (lstrip_by blank (String.rev (lstrip_by blank s))).

(** [s.strip()] *)
Definition strip : string → string := strip_by py_isspace.

Definition lower_char (c : ascii) : ascii :=
  let n := nat_of_ascii c in
  if ((65 <=? n)%nat && (n <=? 90)%nat) then ascii_of_nat (n + 32) else c.

Definition upper_char (c : ascii) : ascii :=
  let n := nat_of_ascii c in
  if ((97 <=? n)%nat && (n <=? 122)%nat) then ascii_of_nat (n - 32) else c.

Fixpoint str_map (f : ascii → ascii) (s : string) : string :=
  match s with
  | "" => ""
  | String c r => String (f c) (str_map f r)
  end.

(** [s.lower()], [s.upper()] *)
Definition lower : string → string := str_map lower_char.
Definition upper : string → string := str_map upper_char.

(** [s.replace(old, new)] for one-character [old] and [new]. *)
Definition str_replace (old new : ascii) : string → string :=
  str_map (λ c, if Ascii.eqb c old then new else c).

(** A UTF-8 continuation byte, [10xxxxxx]: it belongs to the code point
    begun before it. *)
Definition is_continuation (c : ascii) : bool :=
  let n := nat_of_ascii c in (128 <=? n)%nat && (n <? 192)%nat.

(** [s[:n]]: the first [n] code points of the text. *)
Fixpoint str_take (n : nat) (s : string) : string :=
  match s with
  | "" => ""
  | String c r =>
      if is_continuation c then String c (str_take n r)
      else
        match n with
        | O => ""
        | S n' => String c (str_take n' r)
        end
  end.

(** [len(s)]: the number of code points of the text. *)
Fixpoint str_len (s : string) : nat :=
  match s with
  | "" => 0
  | String c r => if is_continuation c then str_len r else S (str_len r)
  end.

(** [s.split(sep)] for a one-character separator: every occurrence
    splits, empty pieces are kept. *)
Fixpoint split_go (sep : ascii) (cur : string) (s : string) : list string :=
  match s with
  | "" => [String.rev cur]
  | String c r =>
      if Ascii.eqb c sep then String.rev cur :: split_go sep "" r
      else split_go sep (String c cur) r
  end.
Definition str_split (sep : ascii) (s : string) : list string := split_go sep "" s.

(** The character class [[\s,]]. *)
Definition is_delim (c : ascii) : bool := py_isspace c || Ascii.eqb c ",".

(** [re.split(r"[\s,]+", s)]: the pieces between maximal runs of
    delimiters; a run at either end leaves an empty piece there. [d] tells
    that the previous character belonged to a run. *)
Fixpoint re_split_go (cur : string) (d : bool) (s : string) : list string :=
  match s with
  | "" => [String.rev cur]
  | String c r =>
      if is_delim c then
        if d then re_split_go cur true r
        else String.rev cur :: re_split_go "" true r
      else re_split_go (String c cur) false r
  end.
Definition re_split (s : string) : list string := re_split_go "" false s.

Definition digit_of (c : ascii) : option Z :=
  let n := nat_of_ascii c in
  if ((48 <=? n)%nat && (n <=? 57)%nat) then Some (Z.of_nat (n - 48)) else None.

(** Decimal digits with single underscores between digits; [prev] tells
    that the previous character was a digit. *)
Fixpoint int_digits (acc : Z) (prev : bool) (s : string) : option Z :=
  match s with
  | "" => if prev then Some acc else None
  | String c r =>
      match digit_of c with
      | Some k => int_digits (10 * acc + k) true r
      | None => if Ascii.eqb c "_" && prev then int_digits acc false r else None
      end
  end.

(** [int(s)] on a string: surrounding blanks, an optional sign, digits. *)
Definition int_of_str (s : string) : result Z :=
  let body :=
    match strip_by c_isspace s with
    | String "+" r => int_digits 0 false r
    | String "-" r => Z.opp <$> int_digits 0 false r
    | r => int_digits 0 false r
    end in
  match body with
  | Some n => Ok n
  | None => Raise ValueError
  end.

(** [int(v)] *)
Definition py_int (v : value) : result Z :=
  match v with
  | VInt n => Ok n
  | VBool b => Ok (if b then 1 else 0)
  | VStr s => int_of_str s
  | _ => Raise TypeError
  end.

(** [s[:n]] on a value: strings and lists can be sliced. (Slicing a dict
    or a number raises; the kind of the exception is never observed.) *)
Definition py_take (n : nat) (v : value) : result value :=
  match v with
  | VStr s => Ok (VStr (str_take n s))
  | VList l => Ok (VList (take n l))
  | _ => Raise TypeError
  end.

(** [v.strip()] *)
Definition py_strip (v : value) : result string :=
  match v with
  | VStr s => Ok (strip s)
  | _ => Raise AttributeError
  end.

Fixpoint is_prefix (p s : string) : bool :=
  match p, s with
  | "", _ => true
  | String a p', String b s' => Ascii.eqb a b && is_prefix p' s'
  | _, _ => false
  end.

Fixpoint is_substring (p s : string) : bool :=
  is_prefix p s ||
  match s with
  | "" => false
  | String _ s' => is_substring p s'
  end.

(** [k in v] for a string [k]: key of a dict, element of a list, substring
    of a string. *)
Definition py_contains (v : value) (k : string) : result bool :=
  match v with
  | VDict d => Ok (bool_decide (is_Some (d !! k)))
  | VList l => Ok (existsb (str_eq k) l)
  | VStr s => Ok (is_substring k s)
  | _ => Raise TypeError
  end.

(** An optional string as the value Python sees. *)
Definition of_opt_str (o : option string) : value :=
  match o with
  | Some s => VStr s
  | None => VNone
  end.

(** ** Environment read at import time *)

Record config := {
  TELEGRAM_BOT_TOKEN : option string;
  TELEGRAM_CHAT_ID : option string;
  OPENAI_API_KEY : option string;
  TIMEZONE : string;
  VK_API_KEY : option string;
  VK_GROUP_ID : option string;
}.

(** ** Files of the data directory *)

Inductive file (A : Type) :=
| Absent
| Garbled
| Holds (a : A).
Arguments Absent {A}.
Arguments Garbled {A}.
Arguments Holds {A} a.

(** ** Settings store *)

Definition DEFAULT_SETTINGS (cfg : config) : dict :=
  list_to_map [
    ("target_chat_id", VNone);
    ("timezone", VStr (TIMEZONE cfg));
    ("rubric", VStr "TIPS");
    ("destination", VStr "Стамбул");
    ("season", VNone);
    ("tone", VStr "FRIENDLY");
    ("audience", VNone);
    ("constraints", VList []);
    ("schedule", VDict (list_to_map [
        ("enabled", VBool false); ("time", VStr "09:30");
        ("frequency", VStr "daily")]));
    ("crosspost_vk", VBool true);
    ("last_used", VDict (list_to_map [
        ("rubric", VNone); ("destination", VNone); ("date", VNone)]))
  ].

Definition DEFAULT_DESTINATIONS : list string := [
  "Стамбул"; "Тбилиси"; "Сочи"; "Бали"; "Барселона"; "Прага"; "Рим"; "Лиссабон";
  "Киев"; "Ереван"; "Баку"; "Алматы"; "Ташкент"; "Бангкок"; "Токио"; "Дубай";
  "Вена"; "Будапешт"; "Краков"; "Таллин"; "Рига"; "Вильнюс"; "Хельсинки"; "Осло"
].

Definition WEEKDAY_RUBRIC : list string := [
  "TIPS"; "ROUTE_1DAY"; "FOOD"; "FACT_DAY"; "WEEKEND"; "ROUTE_3DAYS"; "CHECKLIST"
].

(** One turn of [for k, v in DEFAULT_SETTINGS.items(): if k not in data:
    data[k] = v]. *)
Definition backfill_step (data : value) (kv : string * value) : result value :=
  has ← py_contains data kv.1;
  if has : bool then Ok data else py_setitem data kv.1 kv.2.

Fixpoint backfill (items : list (string * value)) (data : value) : result value :=
  match items with
  | [] => Ok data
  | kv :: rest => data' ← backfill_step data kv; backfill rest data'
  end.

(** [load_settings]. [defaults] is the module-level [DEFAULT_SETTINGS]
    object as it stands when the function is called: the object is handed
    out by reference (a shallow copy, or its values), so a caller that
    edits a nested default edits it for every later load. *)
Definition load_settings (defaults : dict) (f : file value) : value :=
  match f with
  | Absent => VDict defaults
  | Garbled => VDict defaults
  | Holds data =>
      match backfill (map_to_list defaults) data with
      | Ok data' => data'
      | Raise _ => VDict defaults
      end
  end.

(** [save_settings]; the write itself is taken to succeed. *)
Definition save_settings (settings : value) : file value := Holds settings.

(** ** Post log *)

(** An entry as [append_log] writes it. The three keys read back with
    [.get] may be missing from an entry. *)
Record entry := {
  log_datetime_iso : string;
  log_chat_id : option Z;
  log_tg_message_id : option Z;
  log_rubric : value;
  log_destination : string;
  log_tone : value;
  log_vk_post_id : option string;
  log_replies_count : option Z;
}.

Definition set_replies_count (n : Z) (e : entry) : entry :=
  {| log_datetime_iso := log_datetime_iso e;
     log_chat_id := log_chat_id e;
     log_tg_message_id := log_tg_message_id e;
     log_rubric := log_rubric e;
     log_destination := log_destination e;
     log_tone := log_tone e;
     log_vk_post_id := log_vk_post_id e;
     log_replies_count := Some n |}.

Definition set_vk_post_id (p : string) (e : entry) : entry :=
  {| log_datetime_iso := log_datetime_iso e;
     log_chat_id := log_chat_id e;
     log_tg_message_id := log_tg_message_id e;
     log_rubric := log_rubric e;
     log_destination := log_destination e;
     log_tone := log_tone e;
     log_vk_post_id := Some p;
     log_replies_count := log_replies_count e |}.

Definition load_post_log (f : file (list entry)) : list entry :=
  match f with
  | Holds log => log
  | _ => []
  end.

(** [save_post_log]; the write itself is taken to succeed. *)
Definition save_post_log (log : list entry) : file (list entry) := Holds log.

Definition append_log (utcnow_iso : string) (chat_id tg_message_id : Z)
    (rubric : value) (destination : string) (tone : value)
    (vk_post_id : option string) (f : file (list entry)) : file (list entry) :=
  let log := load_post_log f in
  save_post_log (log ++ [
    {| log_datetime_iso := utcnow_iso +:+ "Z";
       log_chat_id := Some chat_id;
       log_tg_message_id := Some tg_message_id;
       log_rubric := rubric;
       log_destination := destination;
       log_tone := tone;
       log_vk_post_id := vk_post_id;
       log_replies_count := Some 0 |}]).

(** [entry.get("chat_id") == chat_id and entry.get("tg_message_id") ==
    tg_message_id] *)
Definition entry_matches (chat_id tg_message_id : Z) (e : entry) : bool :=
  bool_decide (log_chat_id e = Some chat_id)
  && bool_decide (log_tg_message_id e = Some tg_message_id).

(** [entry["replies_count"] = entry.get("replies_count", 0) + 1] *)
Definition bump (e : entry) : entry :=
  set_replies_count (default 0 (log_replies_count e) + 1) e.

(** The loop over [reversed(log)]: the first entry that matches is
    updated in place and the loop ends; [None] when the loop runs out. *)
Fixpoint bump_first (chat_id tg_message_id : Z) (rlog : list entry)
    : option (list entry) :=
  match rlog with
  | [] => None
  | e :: rest =>
      if entry_matches chat_id tg_message_id e then Some (bump e :: rest)
      else cons e <$> bump_first chat_id tg_message_id rest
  end.

Definition increment_replies_for_message (chat_id tg_message_id : Z)
    (f : file (list entry)) : file (list entry) :=
  let log := load_post_log f in
  match bump_first chat_id tg_message_id (rev log) with
  | Some rlog' => save_post_log (rev rlog')
  | None => f
  end.

(** ** Collaborators *)

(** What [generate_travel_post] returns: a dict read at two keys. *)
Record gen_out := {
  out_post_text : option string;
  out_image_prompt : option string;
}.

(** The body of a Bot API answer, as far as it is read. *)
Record tg_reply := {
  tg_ok : bool;
  tg_result_message_id : option Z;
  tg_description : option string;
}.

(** A [requests] response. *)
Record response := {
  resp_ok : bool;
  resp_json : result tg_reply;
  resp_text : string;
}.

(** A calendar date of the local clock; [datetime] keeps the year within
    1..9999. *)
Record date := {
  year : nat;
  month : nat;
  day : nat;
}.

Record oracle := {
  generate_travel_post : result gen_out;
  generate_images : result (list string);
  publisher_init : result unit;
  send_photo_url : result response;
  download_image : result unit;
  send_photo_file : result response;
  publish_post : result (option tg_reply);
  vk_publish_post : result (option Z);
  now : date;
  now_weekday : Z;
  utcnow_iso : string;
  random_choice : nat;
}.

(** What the [error] key holds: a fixed message, or [str(e)] of the
    exception caught, kept as the exception itself. *)
Inductive failure :=
| Message (msg : string)
| Caught (e : exn).

(** Calls that leave the process, in the order they are made. *)
Inductive event :=
| GenerateText (rubric : value) (destination : string) (season tone audience : value)
    (constraints : value)
| GenerateImages (prompt : string)
| SendPhotoUrl (photo caption : string)
| DownloadImage (url : string)
| SendPhotoFile (caption : string)
| PublishText (text : string)
| VkPublish (text : string) (image_url : option string)
| SendErrorNotice (error : option failure).

Definition digit_char (n : nat) : ascii := ascii_of_nat (48 + n mod 10).

Definition two_digits (n : nat) : string :=
  String (digit_char (n / 10)) (String (digit_char n) "").

Definition four_digits (n : nat) : string :=
  String (digit_char (n / 1000)) (String (digit_char (n / 100)) (two_digits n)).

(** [d.strftime("%Y-%m-%d")] *)
Definition strftime_Ymd (d : date) : string :=
  four_digits (year d) +:+ "-" +:+ two_digits (month d) +:+ "-" +:+ two_digits (day d).

(** ** Publish pipeline *)

Record publish_result := {
  ok : bool;
  tg_message_id : option Z;
  vk_post_id : option string;
  error : option failure;
}.

Definition truthy_str (s : string) : bool := negb (bool_decide (s = "")).

Definition truthy_opt (o : option string) : bool :=
  match o with
  | Some s => truthy_str s
  | None => false
  end.

(** The check made on the answer of [sendPhoto]: [if resp.ok and
    resp.json().get("ok"): <message id> else: raise Exception(...)]. *)
Definition photo_answer (fallback : string) (resp : response) : result (option Z) :=
  if resp_ok resp then
    j ← resp_json resp;
    if tg_ok j then Ok (tg_result_message_id j)
    else Raise (Exception (default fallback (tg_description j)))
  else
    j ← resp_json resp;
    Raise (Exception (default fallback (tg_description j))).

(** Tier (a): the photo by remote URL, the text as caption. *)
Definition send_by_url (o : oracle) (image_url post_text : string)
    : list event * result (option Z) :=
  ([SendPhotoUrl image_url (str_take 1024 post_text)],
   resp ← send_photo_url o;
   photo_answer (str_take 200 (resp_text resp)) resp).

(** Tier (b): fetch the bytes, send them as an attached file. *)
Definition send_by_file (o : oracle) (image_url post_text : string)
    : list event * result (option Z) :=
  match download_image o with
  | Raise e => ([DownloadImage image_url], Raise e)
  | Ok _ =>
      ([DownloadImage image_url; SendPhotoFile (str_take 1024 post_text)],
       resp ← send_photo_file o;
       photo_answer "sendPhoto failed" resp)
  end.

(** [publisher.publish_post(post_text, image_url=None)] and the message id
    read from [(pub_resp or {}).get("result", {}).get("message_id")]. *)
Definition send_text (o : oracle) (post_text : string)
    : list event * result (option Z) :=
  ([PublishText post_text],
   pub_resp ← publish_post o;
   Ok (r ← pub_resp; tg_result_message_id r)).

(** Lines 199-234: delivery to the primary channel. *)
Definition deliver (o : oracle) (image_url : option string) (post_text : string)
    : list event * result (option Z) :=
  if truthy_opt image_url then
    let url := default "" image_url in
    let '(t1, r1) := send_by_url o url post_text in
    match r1 with
    | Ok mid => (t1, Ok mid)
    | Raise _ =>
        let '(t2, r2) := send_by_file o url post_text in
        match r2 with
        | Ok mid => (t1 ++ t2, Ok mid)
        | Raise _ =>
            let '(t3, r3) := send_text o post_text in
            (t1 ++ t2 ++ t3, r3)
        end
    end
  else send_text o post_text.

Definition set_last_vk_post_id (p : string) (log : list entry) : list entry :=
  match rev log with
  | [] => log
  | e :: rest => rev (set_vk_post_id p e :: rest)
  end.

(** Lines 245-258: the mirror to VK. Returns the [vk_post_id] of the
    result and the log file. *)
Definition crosspost (cfg : config) (o : oracle) (settings : dict)
    (post_text : string) (image_url : option string) (f : file (list entry))
    : list event * option string * file (list entry) :=
  if truthy (dict_get settings "crosspost_vk")
     && truthy_opt (VK_API_KEY cfg) && truthy_opt (VK_GROUP_ID cfg) then
    match vk_publish_post o with
    | Ok (Some vk_post_id) =>
        let p := pretty vk_post_id in
        let log := load_post_log f in
        ([VkPublish post_text image_url], Some p,
         match log with
         | [] => f
         | _ => save_post_log (set_last_vk_post_id p log)
         end)
    | _ => ([VkPublish post_text image_url], None, f)
    end
  else ([], None, f).

(** The files of the data directory. *)
Record disk := {
  settings_file : file value;
  post_log_file : file (list entry);
}.

(** What a run leaves behind: the result dict, the caller's settings
    object, the files, the calls made. *)
Record outcome := {
  run_result : publish_result;
  run_settings : value;
  run_disk : disk;
  run_trace : list event;
}.

Definition failed (tg : option Z) (e : exn) : publish_result :=
  {| ok := false; tg_message_id := tg; vk_post_id := None; error := Some (Caught e) |}.

Definition refused (msg : string) : publish_result :=
  {| ok := false; tg_message_id := None; vk_post_id := None; error := Some (Message msg) |}.

Definition first_url (urls : list string) : option string :=
  match urls with
  | [] => None
  | u :: _ => Some u
  end.

(** [post_text = (out.get("post_text") or "")[:4000]] *)
Definition generated_text (out : gen_out) : string :=
  str_take 4000 (default "" (out_post_text out)).

(** Lines 189-196: the image URL, [None] when the generator raises or
    returns nothing. *)
Definition generated_image (o : oracle) : option string :=
  match generate_images o with
  | Ok urls => first_url urls
  | Raise _ => None
  end.

(** [settings["last_used"] = {...}] *)
Definition record_last_used (o : oracle) (rubric : value) (dest : string)
    (settings : dict) : dict :=
  <["last_used" := VDict (list_to_map [
      ("rubric", rubric); ("destination", VStr dest);
      ("date", VStr (strftime_Ymd (now o)))])]> settings.

(** Lines 174-267: the [try] block, with [target], [dest], [rubric] and
    the rest already read from the settings. *)
Definition publish_body (cfg : config) (o : oracle) (settings : dict)
    (target : value) (dest : string) (rubric tone season audience constraints : value)
    (dk : disk) : outcome :=
  let ev_text := GenerateText rubric dest season tone audience
    (match constraints with VList _ => constraints | _ => VList [] end) in
  let stop tg e tr :=
    {| run_result := failed tg e; run_settings := VDict settings;
       run_disk := dk; run_trace := tr |} in
  match generate_travel_post o with
  | Raise e => stop None e [ev_text]
  | Ok out =>
      let post_text := generated_text out in
      let image_prompt := default "" (out_image_prompt out) in
      let image_url := generated_image o in
      let tr1 := [ev_text; GenerateImages image_prompt] in
      match publisher_init o with
      | Raise e => stop None e tr1
      | Ok _ =>
          let '(tr2, sent) := deliver o image_url post_text in
          match sent with
          | Raise e => stop None e (tr1 ++ tr2)
          | Ok mid =>
              match py_int target with
              | Raise e => stop mid e (tr1 ++ tr2)
              | Ok chat =>
                  let log1 := append_log (utcnow_iso o) chat (default 0 mid)
                    rubric dest tone None (post_log_file dk) in
                  let '(tr3, vk, log2) :=
                    crosspost cfg o settings post_text image_url log1 in
                  let settings' := record_last_used o rubric dest settings in
                  {| run_result := {| ok := true; tg_message_id := mid;
                                      vk_post_id := vk; error := None |};
                     run_settings := VDict settings';
                     run_disk := {| settings_file := save_settings (VDict settings');
                                    post_log_file := log2 |};
                     run_trace := tr1 ++ tr2 ++ tr3 |}
              end
          end
      end
  end.

(** [run_generate_and_publish(chat_id, settings, destination_override)] *)
Definition run_generate_and_publish (cfg : config) (o : oracle) (chat_id : Z)
    (settings : value) (destination_override : option string) (dk : disk)
    : result outcome :=
  target ← py_get settings "target_chat_id";
  match settings with
  | VDict d =>
      if negb (truthy target) then
        Ok {| run_result := refused "Не задан целевой чат. Вызови /set_target в группе/канале.";
              run_settings := settings; run_disk := dk; run_trace := [] |}
      else
        dest ← py_strip (py_or (of_opt_str destination_override)
                          (py_or (dict_get d "destination") (VStr "Стамбул")));
        let rubric := py_or (dict_get d "rubric") (VStr "TIPS") in
        let tone := py_or (dict_get d "tone") (VStr "FRIENDLY") in
        let season := dict_get d "season" in
        let audience := dict_get d "audience" in
        let constraints := py_or (dict_get d "constraints") (VList []) in
        if negb (truthy_opt (OPENAI_API_KEY cfg)) then
          Ok {| run_result := refused "OPENAI_API_KEY не задан в .env";
                run_settings := settings; run_disk := dk; run_trace := [] |}
        else Ok (publish_body cfg o d target dest rubric tone season audience constraints dk)
  | _ => Raise AttributeError
  end.

(** ** Rubric rotator and scheduled run *)

Section Rotation.

(** [str(v)] of a list or a dict is Python's [repr]; it depends on the
    insertion order of the keys and is left open here. *)
Variable container_repr : value → string.

(** [str(v)] *)
Definition py_str (v : value) : string :=
  match v with
  | VNone => "None"
  | VBool b => if b then "True" else "False"
  | VInt n => pretty n
  | VStr s => s
  | _ => container_repr v
  end.

(** The block both branches of [get_rubric_for_weekday] end with: a
    checklist already used today gives way to the seasonal rubric. *)
Definition checklist_guard (today : string) (last_used : value) (r : string)
    : result string :=
  if bool_decide (r = "CHECKLIST") && truthy last_used then
    d ← py_get last_used "date";
    last_date ← py_take 10 (py_or d (VStr ""));
    if str_eq today last_date then Ok "SEASON" else Ok r
  else Ok r.

(** The rubric the content plan or the weekday table gives, before the
    checklist rule. *)
Definition resolved_rubric (weekday : Z) (content_plan : value) : result string :=
  let from_table :=
    match WEEKDAY_RUBRIC !! Z.to_nat (weekday `mod` 7) with
    | Some r => Ok r
    | None => Raise IndexError
    end in
  match content_plan with
  | VDict cp =>
      if truthy content_plan then
        match cp !! pretty (weekday `mod` 7) with
        | Some v => if truthy v then Ok (upper (strip (py_str v))) else from_table
        | None => from_table
        end
      else from_table
  | _ => from_table
  end.

(** [get_rubric_for_weekday(weekday, last_used, content_plan)]; [today] is
    the clock's date. *)
Definition get_rubric_for_weekday (today : date) (weekday : Z)
    (last_used content_plan : value) : result string :=
  r ← resolved_rubric weekday content_plan;
  checklist_guard (strftime_Ymd today) last_used r.

(** [if rubric == prev_rubric: rubric = "TIPS" if rubric != "TIPS" else
    "FOOD"] *)
Definition avoid_repeat (rubric : string) (prev_rubric : value) : string :=
  if str_eq rubric prev_rubric then
    if negb (bool_decide (rubric = "TIPS")) then "TIPS" else "FOOD"
  else rubric.

(** Lines 311-319: the rubric the scheduled run settles on. *)
Definition choose_rubric (o : oracle) (settings : dict) : result string :=
  let last := py_or (dict_get settings "last_used") (VDict ∅) in
  let content_plan := py_or (dict_get settings "content_plan") (VDict ∅) in
  rubric ← get_rubric_for_weekday (now o) (now_weekday o) last content_plan;
  prev_rubric ← py_get last "rubric";
  Ok (avoid_repeat rubric prev_rubric).

(** Lines 310-322: the [try] block; a failure leaves the settings as they
    were. *)
Definition resolve_context (o : oracle) (settings : dict) (dk : disk) : dict * disk :=
  match choose_rubric o settings with
  | Ok rubric =>
      let settings' := <["rubric" := VStr rubric]> settings in
      (settings', {| settings_file := save_settings (VDict settings');
                     post_log_file := post_log_file dk |})
  | Raise _ => (settings, dk)
  end.

(** The rubric a run works with: [settings.get("rubric") or "TIPS"]. *)
Definition rubric_in_use (settings : dict) : value :=
  py_or (dict_get settings "rubric") (VStr "TIPS").

(** [chat_id] of the scheduled job: the settings' target, else the
    environment's. *)
Definition job_chat_id (cfg : config) (target : value) : value :=
  if negb (truthy target) && truthy_opt (TELEGRAM_CHAT_ID cfg) then
    match int_of_str (default "" (TELEGRAM_CHAT_ID cfg)) with
    | Ok n => VInt n
    | Raise _ => target
    end
  else target.

(** [scheduled_job_standalone()] *)
Definition scheduled_job_standalone (cfg : config) (o : oracle) (defaults : dict)
    (dk : disk) : result (disk * list event) :=
  let settings := load_settings defaults (settings_file dk) in
  target ← py_get settings "target_chat_id";
  let chat_id := job_chat_id cfg target in
  if negb (truthy chat_id) then Ok (dk, [])
  else
    match settings with
    | VDict d =>
        dest ← py_strip (py_or (dict_get d "destination") (VStr ""));
        let d1 :=
          match DEFAULT_DESTINATIONS !! (random_choice o `mod` length DEFAULT_DESTINATIONS)%nat with
          | Some pick => if negb (truthy_str dest) then <["destination" := VStr pick]> d else d
          | None => d
          end in
        let '(d2, dk2) := resolve_context o d1 dk in
        chat ← py_int chat_id;
        out ← run_generate_and_publish cfg o chat (VDict d2) None dk2;
        if negb (ok (run_result out)) then
          Ok (run_disk out, run_trace out ++ [SendErrorNotice (error (run_result out))])
        else Ok (run_disk out, run_trace out)
    | _ => Raise AttributeError
    end.

End Rotation.

(** ** Schedule resolver *)

(** A cron trigger as [CronTrigger] is given it; [day_of_week] is absent
    for a daily trigger. *)
Record trigger := {
  day_of_week : option string;
  hour : Z;
  minute : Z;
  timezone : string;
}.

Record job := {
  job_id : string;
  job_trigger : trigger;
}.

(** The [BackgroundScheduler] behind the module-level [_scheduler]. *)
Record scheduler := {
  scheduler_timezone : string;
  scheduler_jobs : list job;
}.

Definition has_job (id : string) (sc : scheduler) : bool :=
  existsb (λ j, bool_decide (job_id j = id)) (scheduler_jobs sc).

(** [sc.remove_job(id)]: an unknown id is an error. *)
Definition remove_job (id : string) (sc : scheduler) : result scheduler :=
  if has_job id sc then
    Ok {| scheduler_timezone := scheduler_timezone sc;
          scheduler_jobs :=
            filter (λ j, job_id j ≠ id) (scheduler_jobs sc) |}
  else Raise JobLookupError.

(** [sc.add_job(func, trigger, id=id)]: an id already in the store is an
    error. *)
Definition add_job (trig : trigger) (id : string) (sc : scheduler) : result scheduler :=
  if has_job id sc then Raise ConflictingIdError
  else
    Ok {| scheduler_timezone := scheduler_timezone sc;
          scheduler_jobs := scheduler_jobs sc ++ [{| job_id := id; job_trigger := trig |}] |}.

(** [CronTrigger(day_of_week=..., hour=h, minute=m, timezone=tz)]: the
    constructor checks the fields against their ranges. *)
Definition CronTrigger (dow : option string) (h m : Z) (tz : string) : result trigger :=
  if (0 <=? h) && (h <=? 23) && (0 <=? m) && (m <=? 59) then
    Ok {| day_of_week := dow; hour := h; minute := m; timezone := tz |}
  else Raise ValueError.

(** Lines 373-376: [h, m = map(int, time_str.replace(".", ":").split(":")[:2])],
    with 9, 30 on any exception. *)
Definition parse_time (time_str : value) : Z * Z :=
  match time_str with
  | VStr s =>
      match take 2 (str_split ":" (str_replace "." ":" s)) with
      | [a; b] =>
          match int_of_str a, int_of_str b with
          | Ok h, Ok m => (h, m)
          | _, _ => (9, 30)
          end
      | _ => (9, 30)
      end
  | _ => (9, 30)
  end.

Definition day_map : gmap string Z :=
  list_to_map [("mon", 0); ("tue", 1); ("wed", 2); ("thu", 3); ("fri", 4);
               ("sat", 5); ("sun", 6)].

(** One turn of [for p in parts: if p in day_map and day_map[p] not in
    days: days.append(day_map[p])]. *)
Definition add_day (days : list Z) (p : string) : list Z :=
  match day_map !! p with
  | Some d => if bool_decide (d ∈ days) then days else days ++ [d]
  | None => days
  end.

(** Lines 382-389: the days of a frequency that is not ["daily"]. *)
Definition parse_days (freq : string) : list Z :=
  let parts := re_split (lower freq) in
  let days := foldl add_day [] parts in
  match days with
  | [] => [0; 2; 4]
  | _ => days
  end.

(** [",".join(str(d) for d in ds)] *)
Fixpoint join_days (ds : list Z) : string :=
  match ds with
  | [] => ""
  | [d] => pretty d
  | d :: rest => pretty d +:+ "," +:+ join_days rest
  end.

(** [time_str] and [freq] as read from the schedule dict. *)
Definition schedule_time (schedule : dict) : value :=
  py_or (dict_get schedule "time") (VStr "09:30").

Definition schedule_frequency (schedule : dict) : result string :=
  lower <$> py_strip (py_or (dict_get schedule "frequency") (VStr "daily")).

(** Lines 378-390: the [day_of_week] argument of the trigger. *)
Definition trigger_days (freq : string) : option string :=
  if bool_decide (freq = "daily") then None
  else Some (join_days (merge_sort Z.le (parse_days freq))).

Section Scheduler.

(** Whether [apscheduler] and [pytz] can be imported, and the zone names
    [pytz.timezone] knows. *)
Variable importable : bool.
Variable known_zone : string → bool.

Definition pytz_timezone (v : value) : result string :=
  match v with
  | VStr z => if known_zone z then Ok z else Raise UnknownTimeZoneError
  | _ => Raise UnknownTimeZoneError
  end.

(** Lines 353-361: what decides between tearing down and installing. *)
Definition read_schedule (cfg : config) (settings : value)
    : result (dict * dict * bool) :=
  sv ← py_get settings "schedule";
  match settings, py_or sv (VDict ∅) with
  | VDict d, VDict schedule =>
      let target := job_chat_id cfg (dict_get d "target_chat_id") in
      Ok (d, schedule,
          negb (truthy (dict_get schedule "enabled")) || negb (truthy target))
  | _, _ => Raise AttributeError
  end.

(** Lines 370-390: the trigger of an enabled schedule. *)
Definition build_trigger (cfg : config) (settings schedule : dict) : result trigger :=
  tz ← pytz_timezone (default (VStr (TIMEZONE cfg)) (settings !! "timezone"));
  freq ← schedule_frequency schedule;
  let '(h, m) := parse_time (schedule_time schedule) in
  CronTrigger (trigger_days freq) h m tz.

Definition drop_job (id : string) (sc : scheduler) : scheduler :=
  match remove_job id sc with
  | Ok sc' => sc'
  | Raise _ => sc
  end.

(** [setup_scheduler()]: the new [_scheduler] and whether the call
    raised. *)
Definition setup_scheduler (cfg : config) (defaults : dict) (f : file value)
    (s : option scheduler) : option scheduler * result unit :=
  if negb importable then (s, Ok ())
  else
    match read_schedule cfg (load_settings defaults f) with
    | Raise e => (s, Raise e)
    | Ok (settings, schedule, off) =>
        if off : bool then (drop_job "travel_post_job" <$> s, Ok ())
        else
          match build_trigger cfg settings schedule with
          | Raise e => (s, Raise e)
          | Ok trig =>
              let sc :=
                match s with
                | None => {| scheduler_timezone := timezone trig; scheduler_jobs := [] |}
                | Some sc => sc
                end in
              let sc1 := drop_job "travel_post_job" sc in
              match add_job trig "travel_post_job" sc1 with
              | Ok sc2 => (Some sc2, Ok ())
              | Raise e => (Some sc1, Raise e)
              end
          end
    end.

(** A run of set-up calls, each against the settings file of its moment;
    a call that raises leaves [_scheduler] as it stood at the raise. *)
Definition setup_all (cfg : config) (calls : list (dict * file value))
    (s : option scheduler) : option scheduler :=
  foldl (λ s c, (setup_scheduler cfg c.1 c.2 s).1) s calls.

(** Triggers active for a job id. *)
Definition active (id : string) (s : option scheduler) : list trigger :=
  match s with
  | None => []
  | Some sc => job_trigger <$> filter (λ j, job_id j = id) (scheduler_jobs sc)
  end.

End Scheduler.

(** ** Vocabulary for the properties of the string functions *)

Fixpoint str_concat (pieces : list string) : string :=
  match pieces with
  | [] => ""
  | p :: rest => p +:+ str_concat rest
  end.

(** [sep.join(pieces)] *)
Fixpoint str_join (sep : ascii) (pieces : list string) : string :=
  match pieces with
  | [] => ""
  | [p] => p
  | p :: rest => p +:+ String sep (str_join sep rest)
  end.

Fixpoint str_filter (keep : ascii → bool) (s : string) : string :=
  match s with
  | "" => ""
  | String c r => if keep c then String c (str_filter keep r) else str_filter keep r
  end.

Fixpoint str_all (ok : ascii → bool) (s : string) : bool :=
  match s with
  | "" => true
  | String c r => ok c && str_all ok r
  end.

Definition not_delim (c : ascii) : bool := negb (is_delim c).

(** ** Sample data for the worked examples *)

(** Sample entries for the worked examples. *)
Definition sample_entry (chat msg : Z) (replies : option Z) : entry :=
  {| log_datetime_iso := "2026-01-05T09:30:00Z";
     log_chat_id := Some chat;
     log_tg_message_id := Some msg;
     log_rubric := VStr "TIPS";
     log_destination := "Lisbon";
     log_tone := VStr "FRIENDLY";
     log_vk_post_id := None;
     log_replies_count := replies |}.

Definition sample_config : config :=
  {| TELEGRAM_BOT_TOKEN := Some "token";
     TELEGRAM_CHAT_ID := None;
     OPENAI_API_KEY := Some "key";
     TIMEZONE := "Europe/Berlin";
     VK_API_KEY := Some "vk";
     VK_GROUP_ID := Some "1" |}.

(** Sunday 8 November 2026. *)
Definition sample_date : date := {| year := 2026; month := 11; day := 8 |}.

Definition sample_reply (id : Z) : tg_reply :=
  {| tg_ok := true; tg_result_message_id := Some id; tg_description := None |}.

Definition sample_refusal : tg_reply :=
  {| tg_ok := false; tg_result_message_id := None;
     tg_description := Some "Bad Request: wrong file identifier" |}.

(** A Monday on which every collaborator answers. *)
Definition sample_oracle : oracle :=
  {| generate_travel_post :=
       Ok {| out_post_text := Some "Seven hills, one tram.";
             out_image_prompt := Some "tram 28 at dusk" |};
     generate_images := Ok ["https://img.example/1.png"];
     publisher_init := Ok ();
     send_photo_url :=
       Ok {| resp_ok := true; resp_json := Ok (sample_reply 501); resp_text := "" |};
     download_image := Ok ();
     send_photo_file :=
       Ok {| resp_ok := true; resp_json := Ok (sample_reply 502); resp_text := "" |};
     publish_post := Ok (Some (sample_reply 503));
     vk_publish_post := Ok (Some 77);
     now := {| year := 2026; month := 11; day := 2 |};
     now_weekday := 0;
     utcnow_iso := "2026-11-02T08:30:00";
     random_choice := 7%nat |}.

Definition sample_disk : disk :=
  {| settings_file := Absent; post_log_file := Absent |}.

(** The fields [parse_time] converts: the pieces of the time string
    around [":"], a ["."] counting as [":"]. *)
Definition time_fields (s : string) : list string :=
  str_split ":" (str_replace "." ":" s).

(** A clock time written with a one- or two-digit hour ([pad] asks for the
    leading zero), a separator, and a two-digit minute. *)
Definition clock_string (pad : bool) (h : nat) (sep : ascii) (m : nat) : string :=
  (if pad then two_digits h else pretty h) +:+ String sep (two_digits m).

Definition clock_strings_parse (sep : ascii) : bool :=
  forallb (λ h, forallb (λ m,
    bool_decide (parse_time (VStr (clock_string true h sep m)) = (Z.of_nat h, Z.of_nat m))
    && bool_decide (parse_time (VStr (clock_string false h sep m)) = (Z.of_nat h, Z.of_nat m)))
    (seq 0 100)) (seq 0 100).

(** Settings with a target chat and a schedule. *)
Definition sample_settings (enabled : bool) (time frequency : string) : value :=
  VDict {[
    "target_chat_id" := VInt 7;
    "destination" := VStr "Lisbon";
    "schedule" := VDict {[ "enabled" := VBool enabled; "time" := VStr time;
                           "frequency" := VStr frequency ]} ]}.

(** What every run of set-up calls maintains: at most one trigger under
    the job id, and no scheduler object when the libraries are missing. *)
Definition settled (importable : bool) (s : option scheduler) : Prop :=
  (length (active "travel_post_job" s) ≤ 1)%nat ∧ (importable = false → s = None).

(** The same day with another answer from the image generator, or from
    VK. *)
Definition with_images (imgs : result (list string)) (o : oracle) : oracle :=
  {| generate_travel_post := generate_travel_post o;
     generate_images := imgs;
     publisher_init := publisher_init o;
     send_photo_url := send_photo_url o;
     download_image := download_image o;
     send_photo_file := send_photo_file o;
     publish_post := publish_post o;
     vk_publish_post := vk_publish_post o;
     now := now o;
     now_weekday := now_weekday o;
     utcnow_iso := utcnow_iso o;
     random_choice := random_choice o |}.

Definition with_vk (vk : result (option Z)) (o : oracle) : oracle :=
  {| generate_travel_post := generate_travel_post o;
     generate_images := generate_images o;
     publisher_init := publisher_init o;
     send_photo_url := send_photo_url o;
     download_image := download_image o;
     send_photo_file := send_photo_file o;
     publish_post := publish_post o;
     vk_publish_post := vk;
     now := now o;
     now_weekday := now_weekday o;
     utcnow_iso := utcnow_iso o;
     random_choice := random_choice o |}.

Definition with_publish_post (p : result (option tg_reply)) (o : oracle) : oracle :=
  {| generate_travel_post := generate_travel_post o;
     generate_images := generate_images o;
     publisher_init := publisher_init o;
     send_photo_url := send_photo_url o;
     download_image := download_image o;
     send_photo_file := send_photo_file o;
     publish_post := p;
     vk_publish_post := vk_publish_post o;
     now := now o;
     now_weekday := now_weekday o;
     utcnow_iso := utcnow_iso o;
     random_choice := random_choice o |}.

(** A photo request that is answered and accepted, and the message id it
    carries. *)
Definition accepted (r : result response) : option (option Z) :=
  match r with
  | Ok resp =>
      match resp_json resp with
      | Ok j => if resp_ok resp && tg_ok j then Some (tg_result_message_id j) else None
      | Raise _ => None
      end
  | Raise _ => None
  end.

Definition with_send_photo_url (r : result response) (o : oracle) : oracle :=
  {| generate_travel_post := generate_travel_post o;
     generate_images := generate_images o;
     publisher_init := publisher_init o;
     send_photo_url := r;
     download_image := download_image o;
     send_photo_file := send_photo_file o;
     publish_post := publish_post o;
     vk_publish_post := vk_publish_post o;
     now := now o;
     now_weekday := now_weekday o;
     utcnow_iso := utcnow_iso o;
     random_choice := random_choice o |}.

Definition with_send_photo_file (r : result response) (o : oracle) : oracle :=
  {| generate_travel_post := generate_travel_post o;
     generate_images := generate_images o;
     publisher_init := publisher_init o;
     send_photo_url := send_photo_url o;
     download_image := download_image o;
     send_photo_file := r;
     publish_post := publish_post o;
     vk_publish_post := vk_publish_post o;
     now := now o;
     now_weekday := now_weekday o;
     utcnow_iso := utcnow_iso o;
     random_choice := random_choice o |}.

(** The Bot API refuses the photo by URL. *)
Definition sample_oracle_url_refused : oracle :=
  with_send_photo_url
    (Ok {| resp_ok := false; resp_json := Ok sample_refusal; resp_text := "" |})
    sample_oracle.

(** Both photo requests are refused. *)
Definition sample_oracle_photo_refused : oracle :=
  with_send_photo_file (Raise (Exception "Read timed out"))
    sample_oracle_url_refused.

(** The rubric a call to the text generator was given. *)
Definition text_rubric (ev : event) : option value :=
  match ev with
  | GenerateText rubric _ _ _ _ _ => Some rubric
  | _ => None
  end.

(** ** Statistics and reply handling *)

(** [log[-10:] if len(log) >= 10 else log], then [.reverse()]: the window
    [cmd_stats] and [cmd_analytics] list. *)
Definition last_10 (log : list entry) : list entry :=
  rev (if (10 <=? length log)%nat then drop (length log - 10) log else log).

(** [total_posts] and [total_replies] of [cmd_analytics]. The average is
    a floating-point quotient and stays out of the embedding, with the
    text of the message. *)
Definition total_posts (log : list entry) : nat := length log.

Fixpoint total_replies (log : list entry) : Z :=
  match log with
  | [] => 0
  | e :: rest => default 0 (log_replies_count e) + total_replies rest
  end.

(** The sender of a message, as far as [handle_reply] looks at it. *)
Record user := {
  user_is_bot : bool;
  user_id : Z;
}.

(** [update.message.reply_to_message] *)
Record replied_message := {
  replied_message_id : option Z;
  replied_from_user : option user;
}.

(** An update: [message] is [None] without a message, [Some None] for a
    message that answers nothing. *)
Record update := {
  update_message : option (option replied_message);
  update_effective_chat : option Z;
}.

(** [handle_reply(update, context)]; [bot_id] is [context.bot.id]. *)
Definition handle_reply (bot_id : Z) (u : update) (f : file (list entry))
    : file (list entry) :=
  match update_message u with
  | Some (Some reply_to) =>
      match update_effective_chat u, replied_message_id reply_to with
      | Some chat_id, Some message_id =>
          match replied_from_user reply_to with
          | Some sender =>
              if user_is_bot sender && negb (user_id sender =? bot_id) then f
              else increment_replies_for_message chat_id message_id f
          | None => increment_replies_for_message chat_id message_id f
          end
      | _, _ => f
      end
  | _ => f
  end.

(** Two entries that differ at most in their reply count. *)
Definition same_post (e e' : entry) : Prop :=
  log_datetime_iso e' = log_datetime_iso e
  ∧ log_chat_id e' = log_chat_id e
  ∧ log_tg_message_id e' = log_tg_message_id e
  ∧ log_rubric e' = log_rubric e
  ∧ log_destination e' = log_destination e
  ∧ log_tone e' = log_tone e
  ∧ log_vk_post_id e' = log_vk_post_id e.

(** ** Vocabulary for the further properties of the pipeline *)

(** The entry a successful run appends. *)
Definition run_entry (o : oracle) (chat : Z) (r : publish_result)
    (rubric : value) (dest : string) (tone : value) : entry :=
  {| log_datetime_iso := utcnow_iso o +:+ "Z";
     log_chat_id := Some chat;
     log_tg_message_id := Some (default 0 (tg_message_id r));
     log_rubric := rubric;
     log_destination := dest;
     log_tone := tone;
     log_vk_post_id := vk_post_id r;
     log_replies_count := Some 0 |}.

(** The limits of the Bot API the pipeline cuts its texts to. *)
Definition within_limits (ev : event) : Prop :=
  match ev with
  | SendPhotoUrl _ caption => (str_len caption ≤ 1024)%nat
  | SendPhotoFile caption => (str_len caption ≤ 1024)%nat
  | PublishText text => (str_len text ≤ 4000)%nat
  | VkPublish text _ => (str_len text ≤ 4000)%nat
  | _ => True
  end.

(** Lines 305-309 of the scheduled job: a destination drawn from the pool
    when none is configured. *)
Definition pick_destination (o : oracle) (d : dict) (dest : string) : dict :=
  match DEFAULT_DESTINATIONS !! (random_choice o `mod` length DEFAULT_DESTINATIONS)%nat with
  | Some pick => if negb (truthy_str dest) then <["destination" := VStr pick]> d else d
  | None => d
  end.

(** The message of a run that finds no target chat. *)
Definition no_target_message : string :=
  "Не задан целевой чат. Вызови /set_target в группе/канале.".

(** The place of a call in a run: calls are made in this order. *)
Definition phase (ev : event) : nat :=
  match ev with
  | GenerateText _ _ _ _ _ _ => 0
  | GenerateImages _ => 1
  | SendPhotoUrl _ _ => 2
  | DownloadImage _ => 3
  | SendPhotoFile _ => 4
  | PublishText _ => 5
  | VkPublish _ _ => 6
  | SendErrorNotice _ => 7
  end%nat.

Fixpoint ascending (ps : list nat) : bool :=
  match ps with
  | a :: ((b :: _) as rest) => (a <? b)%nat && ascending rest
  | _ => true
  end.

(** Whether the mirror to VK is switched on and has its credentials. *)
Definition crosspost_on (cfg : config) (settings : dict) : bool :=
  truthy (dict_get settings "crosspost_vk")
  && truthy_opt (VK_API_KEY cfg) && truthy_opt (VK_GROUP_ID cfg).

(** The destination a run settles on, before [.strip()]. *)
Definition destination_choice (d : dict) (destination_override : option string) : value :=
  py_or (of_opt_str destination_override)
    (py_or (dict_get d "destination") (VStr "Стамбул")).

(** Whether a call goes to VK. *)
Definition calls_vk (ev : event) : bool :=
  match ev with
  | VkPublish _ _ => true
  | _ => false
  end.

(** A last-used record as the code writes it: nothing yet, or a dict whose
    date, when there is one, is a string. *)
Definition well_formed_last_used (last_used : value) : Prop :=
  truthy last_used = false
  ∨ ∃ lu, last_used = VDict lu
      ∧ ∀ x, lu !! "date" = Some x → x = VNone ∨ ∃ s, x = VStr s.

(** ** Command handlers *)

(** What the handlers work on: the module's [DEFAULT_SETTINGS] object, the
    settings file and the module's [_scheduler]. The defaults are part of
    the state because [load_settings] hands out their values themselves
    (a shallow copy, or a key filled in by reference), so that a handler
    which changes the schedule dict in place can change the defaults. *)
Record bot := {
  bot_defaults : dict;
  bot_settings_file : file value;
  bot_scheduler : option scheduler;
}.

(** Whether the schedule object of the loaded settings is the one of
    [DEFAULT_SETTINGS]: the file is missing or unreadable, or it lacks the
    key. *)
Definition schedule_is_default (defaults : dict) (f : file value) : bool :=
  match f with
  | Holds (VDict data) => bool_decide (data !! "schedule" = None)
  | Holds data =>
      match backfill (map_to_list defaults) data with
      | Ok _ => false
      | Raise _ => true
      end
  | _ => true
  end.

(** Lines 523-528 and 542-547: [sched = settings.get("schedule") or {}],
    [sched[key] = v], [sched["enabled"] = True],
    [settings["schedule"] = sched], [save_settings(settings)]. The two item
    assignments act on the schedule object itself. *)
Definition edit_schedule (key : string) (v : value) (b : bot) : result bot :=
  let settings := load_settings (bot_defaults b) (bot_settings_file b) in
  sv ← py_get settings "schedule";
  let shared := schedule_is_default (bot_defaults b) (bot_settings_file b) && truthy sv in
  sched1 ← py_setitem (py_or sv (VDict ∅)) key v;
  sched2 ← py_setitem sched1 "enabled" (VBool true);
  settings' ← py_setitem settings "schedule" sched2;
  Ok {| bot_defaults :=
          if shared then <["schedule" := sched2]> (bot_defaults b) else bot_defaults b;
        bot_settings_file := save_settings settings';
        bot_scheduler := bot_scheduler b |}.

Definition is_digit (c : ascii) : bool :=
  match digit_of c with
  | Some _ => true
  | None => false
  end.

(** [$]: the end of the string, or the place before a newline that ends
    it. *)
Definition at_end (s : string) : bool :=
  match s with
  | "" => true
  | String c "" => Ascii.eqb c "010"
  | _ => false
  end.

(** [[:.]\d{2}$] *)
Definition minutes_format (s : string) : bool :=
  match s with
  | String sep (String c (String d rest)) =>
      (Ascii.eqb sep ":" || Ascii.eqb sep ".") && is_digit c && is_digit d && at_end rest
  | _ => false
  end.

(** [re.match(r"^\d{1,2}[:.]\d{2}$", s)] on ASCII text: two digits of the
    hour are tried first, then one. *)
Definition time_format (s : string) : bool :=
  match s with
  | String a r =>
      is_digit a
      && (match r with
          | String b r' => is_digit b && minutes_format r'
          | "" => false
          end
          || minutes_format r)
  | "" => false
  end.

Section Commands.

Variable importable : bool.
Variable known_zone : string → bool.
Variable cfg : config.

(** [try: setup_scheduler() except Exception: logger.warning(...)] *)
Definition reschedule (b : bot) : bot :=
  {| bot_defaults := bot_defaults b;
     bot_settings_file := bot_settings_file b;
     bot_scheduler :=
       (setup_scheduler importable known_zone cfg (bot_defaults b)
          (bot_settings_file b) (bot_scheduler b)).1 |}.

(** [cmd_set_schedule]: the new state and the text of the reply; [args]
    is [context.args or []]. *)
Definition cmd_set_schedule (args : list string) (b : bot) : result (bot * string) :=
  match args with
  | [] => Ok (b, "Использование: /set_schedule HH:MM, например /set_schedule 09:30")
  | a :: _ =>
      let time_str := strip a in
      if negb (time_format time_str) then Ok (b, "Формат времени: HH:MM или H.MM")
      else
        b' ← edit_schedule "time" (VStr (str_replace "." ":" time_str)) b;
        Ok (reschedule b',
            "Время постинга: " +:+ str_replace "." ":" time_str +:+ ". Включено.")
  end.

(** [cmd_set_frequency] *)
Definition cmd_set_frequency (args : list string) (b : bot) : result (bot * string) :=
  match args with
  | [] =>
      Ok (b, "Использование: /set_frequency daily или /set_frequency mon,wed,fri")
  | a :: _ =>
      let freq := lower (strip a) in
      b' ← edit_schedule "frequency" (VStr freq) b;
      Ok (reschedule b', "Частота: " +:+ freq)
  end.

End Commands.

(** The last character of a string. *)
Fixpoint last_char (s : string) : option ascii :=
  match s with
  | "" => None
  | String c "" => Some c
  | String _ r => last_char r
  end.

(** The times the format of [/set_schedule] lets through, as typed: one
    or two digits, a separator, two digits. *)
Definition typed_time (h1 : option nat) (h2 : nat) (sep : ascii) (m1 m2 : nat) : string :=
  let rest := String (digit_char h2) (String sep (String (digit_char m1)
                (String (digit_char m2) ""))) in
  match h1 with
  | Some h => String (digit_char h) rest
  | None => rest
  end.

Definition typed_hour (h1 : option nat) (h2 : nat) : Z :=
  match h1 with
  | Some h => 10 * Z.of_nat h + Z.of_nat h2
  | None => Z.of_nat h2
  end.

(** A typed time, stored with [":"], is read back field by field. *)
Definition typed_times_parse : bool :=
  forallb (λ h1, forallb (λ h2, forallb (λ sep, forallb (λ m1, forallb (λ m2,
    let stored := str_replace "." ":" (typed_time h1 h2 sep m1 m2) in
    bool_decide (parse_time (VStr stored)
                 = (typed_hour h1 h2, 10 * Z.of_nat m1 + Z.of_nat m2))
    && bool_decide (stored = typed_time h1 h2 ":" m1 m2))
    (seq 0 10)) (seq 0 10)) [":"; "."]%char) (seq 0 10))
    (None :: (Some <$> seq 0 10)).

(** The two fields of a typed time are integer literals with the typed
    values. *)
Definition typed_fields_parse : bool :=
  forallb (λ h1, forallb (λ h2, forallb (λ sep, forallb (λ m1, forallb (λ m2,
    match time_fields (typed_time h1 h2 sep m1 m2) with
    | [hs; ms] =>
        match int_of_str hs, int_of_str ms with
        | Ok h, Ok m => (h =? typed_hour h1 h2) && (m =? 10 * Z.of_nat m1 + Z.of_nat m2)
        | _, _ => false
        end
    | _ => false
    end)
    (seq 0 10)) (seq 0 10)) [":"; "."]%char) (seq 0 10))
    (None :: (Some <$> seq 0 10)).

(** The first character of a string. *)
Definition first_char (s : string) : option ascii :=
  match s with
  | String c _ => Some c
  | "" => None
  end.

(** A string with no blank at either end. *)
Definition trimmed (s : string) : Prop :=
  (∀ c, first_char s = Some c → py_isspace c = false)
  ∧ (∀ c, last_char s = Some c → py_isspace c = false).

(** [settings = load_settings(); settings[key] = v; save_settings(settings)],
    the body of the commands that set one key. *)
Definition store_setting (key : string) (v : value) (b : bot) : result bot :=
  settings' ← py_setitem (load_settings (bot_defaults b) (bot_settings_file b)) key v;
  Ok {| bot_defaults := bot_defaults b;
        bot_settings_file := save_settings settings';
        bot_scheduler := bot_scheduler b |}.

(** [cmd_set_target]; [chat_id] is [update.effective_chat.id]. *)
Definition cmd_set_target (chat_id : Z) (b : bot) : result (bot * string) :=
  b' ← store_setting "target_chat_id" (VInt chat_id) b;
  Ok (b', "Целевой чат для публикаций сохранён: " +:+ pretty chat_id).

(** [[x.strip() for x in raw.split(",") if x.strip()]] *)
Definition split_constraints (raw : string) : list string :=
  strip <$> filter (λ x, strip x ≠ "") (str_split "," raw).

(** [cmd_set_constraints]; the reply shows the list as [str] prints it. *)
Definition cmd_set_constraints (container_repr : value → string) (args : list string)
    (b : bot) : result (bot * string) :=
  let raw := strip (str_join " " args) in
  let constraints := VList (VStr <$> split_constraints raw) in
  b' ← store_setting "constraints" constraints b;
  Ok (b', "Ограничения: " +:+ py_str container_repr (py_or constraints (VStr "нет"))).

(** ** Vocabulary for the claims on a run *)

(** The calls that deliver to the primary channel. *)
Definition is_delivery (ev : event) : bool :=
  match ev with
  | SendPhotoUrl _ _ | DownloadImage _ | SendPhotoFile _ | PublishText _ => true
  | _ => false
  end.

(** The delivery calls of a run, in the order they were made. *)
Definition delivery_calls (out : outcome) : list event :=
  filter (λ ev, is_delivery ev = true) (run_trace out).

(** [s * n] *)
Fixpoint str_repeat (n : nat) (s : string) : string :=
  match n with
  | O => ""
  | S n' => s +:+ str_repeat n' s
  end.

(** A generator whose text is [text]. *)
Definition with_text (text : string) (o : oracle) : oracle :=
  {| generate_travel_post := Ok {| out_post_text := Some text; out_image_prompt := None |};
     generate_images := generate_images o;
     publisher_init := publisher_init o;
     send_photo_url := send_photo_url o;
     download_image := download_image o;
     send_photo_file := send_photo_file o;
     publish_post := publish_post o;
     vk_publish_post := vk_publish_post o;
     now := now o;
     now_weekday := now_weekday o;
     utcnow_iso := utcnow_iso o;
     random_choice := random_choice o |}.

(** Settings with a target chat and the mirror to VK switched on. *)
Definition mirrored_settings : dict :=
  {[ "target_chat_id" := VInt 7; "destination" := VStr "Lisbon";
     "crosspost_vk" := VBool true ]}.

(** * Properties *)

(** ** String functions *)

Section Strings.

Implicit Types (s t u cur : string) (c sep : ascii).

Lemma append_cons c s t : String c s +:+ t = String c (s +:+ t).
Proof. reflexivity. Qed.

Lemma append_nil_r s : s +:+ "" = s.
Proof. induction s as [|c s IH]; [done|]. by rewrite append_cons, IH. Qed.

Lemma append_assoc s t u : (s +:+ t) +:+ u = s +:+ t +:+ u.
Proof. induction s as [|c s IH]; [done|]. by rewrite !append_cons, IH. Qed.

Lemma rev_app_append s t : String.rev_app s t = String.rev s +:+ t.
Proof.
  unfold String.rev. revert t. induction s as [|c s IH]; intros t; simpl; [done|].
  rewrite (IH (String c t)), (IH (String c "")). by rewrite append_assoc.
Qed.

Lemma rev_cons c s : String.rev (String c s) = String.rev s +:+ String c "".
Proof. unfold String.rev at 1. simpl. apply rev_app_append. Qed.

Lemma str_all_append (ok : ascii → bool) s t :
  str_all ok (s +:+ t) = str_all ok s && str_all ok t.
Proof.
  induction s as [|c s IH]; [done|].
  rewrite append_cons. simpl. by rewrite IH, andb_assoc.
Qed.

Lemma str_all_rev (ok : ascii → bool) s : str_all ok (String.rev s) = str_all ok s.
Proof.
  induction s as [|c s IH]; [done|].
  rewrite rev_cons, str_all_append, IH. simpl.
  by rewrite andb_true_r, andb_comm.
Qed.

(** [split]: joining the pieces with the separator gives the string
    back, and no piece holds the separator. *)
Lemma split_go_join sep cur s :
  str_join sep (split_go sep cur s) = String.rev cur +:+ s.
Proof.
  revert cur. induction s as [|c s IH]; intros cur; simpl.
  - by rewrite append_nil_r.
  - destruct (Ascii.eqb c sep) eqn:Hc.
    + apply Ascii.eqb_eq in Hc as ->.
      specialize (IH ""). change (String.rev "") with "" in IH.
      destruct (split_go sep "" s) as [|p ps] eqn:Hs.
      * by destruct s; simpl in Hs; [|destruct (Ascii.eqb _ _)].
      * change (str_join sep (String.rev cur :: p :: ps))
          with (String.rev cur +:+ String sep (str_join sep (p :: ps))).
        by rewrite IH.
    + by rewrite IH, rev_cons, append_assoc.
Qed.

Lemma str_split_join sep s : str_join sep (str_split sep s) = s.
Proof. apply (split_go_join sep ""). Qed.

Lemma split_go_clean sep cur s :
  str_all (λ c, negb (Ascii.eqb c sep)) cur = true →
  Forall (λ p, str_all (λ c, negb (Ascii.eqb c sep)) p = true) (split_go sep cur s).
Proof.
  revert cur. induction s as [|c s IH]; intros cur Hcur; simpl.
  - constructor; [by rewrite str_all_rev|done].
  - destruct (Ascii.eqb c sep) eqn:Hc.
    + constructor; [by rewrite str_all_rev|]. by apply IH.
    + apply IH. simpl. by rewrite Hc.
Qed.

(** [re.split]: the pieces hold no delimiter, together they are the
    string without its delimiters, and only the first and the last piece
    can be empty. *)
Lemma re_split_go_concat cur (d : bool) s :
  str_concat (re_split_go cur d s) = String.rev cur +:+ str_filter not_delim s.
Proof.
  revert cur d. induction s as [|c s IH]; intros cur d; simpl.
  - by rewrite !append_nil_r.
  - unfold not_delim at 1. destruct (is_delim c); simpl.
    + destruct d; [apply IH|]. cbn [str_concat]. by rewrite IH.
    + by rewrite IH, rev_cons, append_assoc.
Qed.

Lemma re_split_concat s : str_concat (re_split s) = str_filter not_delim s.
Proof. apply (re_split_go_concat "" false). Qed.

Lemma re_split_go_clean cur (d : bool) s :
  str_all not_delim cur = true →
  Forall (λ p, str_all not_delim p = true) (re_split_go cur d s).
Proof.
  revert cur d. induction s as [|c s IH]; intros cur d Hcur; simpl.
  - constructor; [by rewrite str_all_rev|done].
  - destruct (is_delim c) eqn:Hc.
    + destruct d; [by apply IH|].
      constructor; [by rewrite str_all_rev|]. by apply IH.
    + apply IH. simpl. unfold not_delim at 1. by rewrite Hc.
Qed.

Lemma re_split_clean s : Forall (λ p, str_all not_delim p = true) (re_split s).
Proof. by apply re_split_go_clean. Qed.

Lemma rev_nonempty c s : String.rev (String c s) ≠ "".
Proof. rewrite rev_cons. by destruct (String.rev s). Qed.

(** Within a run of delimiters ([d]) every piece but the last is
    non-empty; otherwise the first piece starts with what was read so far
    and the pieces between it and the last are non-empty. *)
Lemma re_split_go_pieces cur (d : bool) s :
  ∃ p ps,
    re_split_go cur d s = p :: ps
    ∧ (cur ≠ "" → p ≠ "")
    ∧ (d = true → ps ≠ [] → p ≠ "")
    ∧ ∀ before t after, ps = before ++ t :: after → after ≠ [] → t ≠ "".
Proof.
  revert cur d. induction s as [|c s IH]; intros cur d; simpl.
  - exists (String.rev cur), []. split_and!; [done| |done|].
    + destruct cur; [done|]. intros _. apply rev_nonempty.
    + by intros [|??] ???.
  - destruct (is_delim c).
    + destruct d.
      * apply IH.
      * destruct (IH "" true) as (p & ps & -> & _ & Hp & Hps).
        exists (String.rev cur), (p :: ps). split_and!; [done| |done|].
        -- destruct cur; [done|]. intros _. apply rev_nonempty.
        -- intros [|b before] t after [= -> ->] Hafter; [by apply Hp|].
           by eapply Hps.
    + destruct (IH (String c cur) false) as (p & ps & -> & Hp & _ & Hps).
      exists p, ps. split_and!; [done|auto|auto|done].
Qed.

Lemma re_split_inner_pieces s before t after :
  re_split s = before ++ t :: after → before ≠ [] → after ≠ [] → t ≠ "".
Proof.
  destruct (re_split_go_pieces "" false s) as (p & ps & Hs & _ & _ & Hps).
  unfold re_split. rewrite Hs. destruct before as [|b before]; [done|].
  intros [= -> ->] _ Hafter. by eapply Hps.
Qed.

End Strings.

(** ** Post log and engagement tracker *)

Section PostLog.

Implicit Types (chat_id tg_message_id : Z) (e : entry) (log : list entry).

Lemma bump_first_none chat_id tg_message_id log :
  Forall (λ e, entry_matches chat_id tg_message_id e = false) log →
  bump_first chat_id tg_message_id log = None.
Proof.
  induction 1 as [|e log He _ IH]; simpl; [done|].
  by rewrite He, IH.
Qed.

Lemma bump_first_hit chat_id tg_message_id pre e post :
  Forall (λ e, entry_matches chat_id tg_message_id e = false) pre →
  entry_matches chat_id tg_message_id e = true →
  bump_first chat_id tg_message_id (pre ++ e :: post) = Some (pre ++ bump e :: post).
Proof.
  intros Hpre He. induction Hpre as [|x pre Hx _ IH]; simpl.
  - by rewrite He.
  - by rewrite Hx, IH.
Qed.

(** Among the entries that match, one is the most recent. *)
Lemma last_match chat_id tg_message_id log :
  Exists (λ e, entry_matches chat_id tg_message_id e = true) log →
  ∃ older e newer,
    log = older ++ e :: newer
    ∧ entry_matches chat_id tg_message_id e = true
    ∧ Forall (λ e, entry_matches chat_id tg_message_id e = false) newer.
Proof.
  induction log as [|x log IH]; intros Hex; [by apply Exists_nil in Hex|].
  destruct (decide (Exists (λ e, entry_matches chat_id tg_message_id e = true) log))
    as [Hin|Hout].
  - destruct (IH Hin) as (older & e & newer & -> & He & Hnew).
    by exists (x :: older), e, newer.
  - apply Exists_cons in Hex as [Hx|?]; [|done].
    exists [], x, log. split_and!; [done..|].
    apply Forall_forall. intros y Hy.
    destruct (entry_matches chat_id tg_message_id y) eqn:E; [|done].
    exfalso. apply Hout, Exists_exists. eauto.
Qed.

Lemma increment_hit chat_id tg_message_id f older e newer :
  load_post_log f = older ++ e :: newer →
  entry_matches chat_id tg_message_id e = true →
  Forall (λ e, entry_matches chat_id tg_message_id e = false) newer →
  increment_replies_for_message chat_id tg_message_id f
  = Holds (older ++ bump e :: newer).
Proof.
  intros Hlog He Hnew. unfold increment_replies_for_message.
  rewrite Hlog, rev_app_distr. simpl. rewrite <- app_assoc. simpl.
  rewrite bump_first_hit; [|by apply Forall_rev|done].
  unfold save_post_log. f_equal.
  rewrite rev_app_distr. simpl. rewrite !rev_involutive, <- app_assoc. done.
Qed.

Lemma increment_miss chat_id tg_message_id f :
  Forall (λ e, entry_matches chat_id tg_message_id e = false) (load_post_log f) →
  increment_replies_for_message chat_id tg_message_id f = f.
Proof.
  intros Hno. unfold increment_replies_for_message.
  rewrite bump_first_none; [done|]. by apply Forall_rev.
Qed.

End PostLog.

(** C8. The tracker walks the log from the most recent entry to the
    oldest and adds one to the reply counter of the first entry whose chat
    id and message id both match, that is the most recent such entry; when
    no entry matches, the call ends normally and the log file is left
    exactly as it was. The function has no failing outcome: it is total
    and returns the file. *)
Theorem increment_replies_most_recent (chat_id tg_message_id : Z) (f : file (list entry)) :
  (∀ older e newer,
     load_post_log f = older ++ e :: newer →
     entry_matches chat_id tg_message_id e = true →
     Forall (λ x, entry_matches chat_id tg_message_id x = false) newer →
     increment_replies_for_message chat_id tg_message_id f
     = Holds (older ++ bump e :: newer)
     ∧ log_replies_count (bump e) = Some (default 0 (log_replies_count e) + 1))
  ∧ (Forall (λ x, entry_matches chat_id tg_message_id x = false) (load_post_log f) →
     increment_replies_for_message chat_id tg_message_id f = f).
Proof.
  split.
  - intros older e newer Hlog He Hnew. split; [|done].
    by apply increment_hit.
  - apply increment_miss.
Qed.

Lemma increment_replies_most_recent_witness :
  increment_replies_for_message 7 42
    (Holds [sample_entry 7 42 (Some 3); sample_entry 7 42 None; sample_entry 7 43 (Some 5)])
  = Holds [sample_entry 7 42 (Some 3); sample_entry 7 42 (Some 1); sample_entry 7 43 (Some 5)]
  ∧ increment_replies_for_message 7 99 (Holds [sample_entry 7 42 (Some 3)])
    = Holds [sample_entry 7 42 (Some 3)].
Proof.
  split.
  - apply (proj1 (increment_replies_most_recent 7 42
      (Holds [sample_entry 7 42 (Some 3); sample_entry 7 42 None; sample_entry 7 43 (Some 5)]))
      [sample_entry 7 42 (Some 3)] (sample_entry 7 42 None) [sample_entry 7 43 (Some 5)]).
    + reflexivity.
    + reflexivity.
    + repeat constructor.
  - apply (proj2 (increment_replies_most_recent 7 99 (Holds [sample_entry 7 42 (Some 3)]))).
    repeat constructor.
Defined.

(** C10. Whenever some entry of the log matches the chat id and message
    id, the increment keeps the length of the log, keeps every entry at
    another position as it was (the non-matching entries and the earlier
    matching ones), and changes the most recent matching entry in its
    [replies_count] alone, which goes up by one, a missing count standing
    for 0. *)
Theorem increment_replies_frame (chat_id tg_message_id : Z) (f : file (list entry)) :
  Exists (λ e, entry_matches chat_id tg_message_id e = true) (load_post_log f) →
  let log := load_post_log f in
  let log' := load_post_log (increment_replies_for_message chat_id tg_message_id f) in
  ∃ (i : nat) (e e' : entry),
    log !! i = Some e
    ∧ entry_matches chat_id tg_message_id e = true
    ∧ (∀ j x, (i < j)%nat → log !! j = Some x →
         entry_matches chat_id tg_message_id x = false)
    ∧ length log' = length log
    ∧ (∀ j, j ≠ i → log' !! j = log !! j)
    ∧ log' !! i = Some e'
    ∧ log_replies_count e' = Some (default 0 (log_replies_count e) + 1)
    ∧ log_datetime_iso e' = log_datetime_iso e
    ∧ log_chat_id e' = log_chat_id e
    ∧ log_tg_message_id e' = log_tg_message_id e
    ∧ log_rubric e' = log_rubric e
    ∧ log_destination e' = log_destination e
    ∧ log_tone e' = log_tone e
    ∧ log_vk_post_id e' = log_vk_post_id e.
Proof.
  intros Hex log log'.
  destruct (last_match _ _ _ Hex) as (older & e & newer & Hlog & He & Hnew).
  exists (length older), e, (bump e).
  assert (Hlog' : log' = older ++ bump e :: newer).
  { unfold log'. by rewrite (increment_hit _ _ _ _ _ _ Hlog He Hnew). }
  unfold log. rewrite Hlog, Hlog'. split_and!; try done.
  - by rewrite list_lookup_middle.
  - intros j x Hj Hx.
    rewrite lookup_app_r in Hx by lia.
    destruct (j - length older)%nat as [|k] eqn:Hk; [lia|]. simpl in Hx.
    eapply Forall_forall in Hnew; [done|]. by eapply list_elem_of_lookup_2.
  - by rewrite !length_app.
  - intros j Hj. destruct (decide (j < length older)%nat).
    + by rewrite !lookup_app_l.
    + rewrite !lookup_app_r by lia.
      destruct (j - length older)%nat as [|k] eqn:Hk; [lia|done].
  - by rewrite list_lookup_middle.
Qed.

Lemma increment_replies_frame_witness :
  ∃ (i : nat) (e e' : entry),
    [sample_entry 7 42 (Some 3); sample_entry 7 42 None; sample_entry 7 43 (Some 5)] !! i = Some e
    ∧ load_post_log (increment_replies_for_message 7 42
        (Holds [sample_entry 7 42 (Some 3); sample_entry 7 42 None; sample_entry 7 43 (Some 5)]))
      !! i = Some e'
    ∧ log_replies_count e' = Some (default 0 (log_replies_count e) + 1).
Proof.
  destruct (increment_replies_frame 7 42
    (Holds [sample_entry 7 42 (Some 3); sample_entry 7 42 None; sample_entry 7 43 (Some 5)]))
    as (i & e & e' & H1 & _ & _ & _ & _ & H2 & H3 & _).
  - apply Exists_cons_hd. reflexivity.
  - exists i, e, e'. split; [exact H1|]. split; [exact H2|exact H3].
Defined.

(** ** Settings store *)

Section Settings.

Implicit Types (data defaults : dict) (k : string) (v : value).

Lemma backfill_step_dict data k v :
  backfill_step (VDict data) (k, v)
  = Ok (VDict (if bool_decide (is_Some (data !! k)) then data else <[k := v]> data)).
Proof.
  unfold backfill_step. simpl. by destruct (bool_decide (is_Some (data !! k))).
Qed.

(** The loop adds exactly the pairs of the defaults whose key the record
    lacks: a union that prefers the record. *)
Lemma backfill_union (items : list (string * value)) data :
  backfill items (VDict data) = Ok (VDict (data ∪ list_to_map items)).
Proof.
  revert data. induction items as [|[k v] items IH]; intros data.
  - simpl. by rewrite (right_id_L ∅ (∪)).
  - cbn [backfill]. rewrite backfill_step_dict. cbn [mbind result_bind].
    rewrite IH. do 2 f_equal. apply map_eq. intros j.
    cbn [list_to_map foldr]. rewrite !lookup_union.
    case_bool_decide as Hk.
    + destruct Hk as [w Hw]. destruct (decide (j = k)) as [-> |Hne].
      * rewrite Hw, lookup_insert_eq. by destruct (list_to_map items !! k).
      * by rewrite lookup_insert_ne.
    + apply eq_None_not_Some in Hk. destruct (decide (j = k)) as [-> |Hne].
      * rewrite Hk, !lookup_insert_eq. by destruct (list_to_map items !! k).
      * by rewrite !lookup_insert_ne.
Qed.

Lemma load_settings_union defaults data :
  load_settings defaults (Holds (VDict data)) = VDict (data ∪ defaults).
Proof.
  unfold load_settings. by rewrite backfill_union, list_to_map_to_list.
Qed.

End Settings.

(** C9. Loading a persisted record yields a record that has every key of
    the defaults, the keys the persisted record lacks carrying their
    default value; every pair of the persisted record is kept as it is;
    and a record that lacks no key loads unchanged. *)
Theorem load_settings_backfills (defaults data : dict) :
  ∃ loaded : dict,
    load_settings defaults (Holds (VDict data)) = VDict loaded
    ∧ (∀ k, is_Some (defaults !! k) → is_Some (loaded !! k))
    ∧ (∀ k v, data !! k = None → defaults !! k = Some v → loaded !! k = Some v)
    ∧ (∀ k v, data !! k = Some v → loaded !! k = Some v)
    ∧ (∀ k, is_Some (loaded !! k) → is_Some (data !! k) ∨ is_Some (defaults !! k))
    ∧ ((∀ k, is_Some (defaults !! k) → is_Some (data !! k)) → loaded = data).
Proof.
  exists (data ∪ defaults). split; [apply load_settings_union|]. split_and!.
  - intros k [v Hv]. rewrite lookup_union. rewrite Hv. by destruct (data !! k).
  - intros k v Hk Hv. by rewrite lookup_union, Hk, Hv.
  - intros k v Hk. rewrite lookup_union, Hk. by destruct (defaults !! k).
  - intros k. rewrite lookup_union.
    destruct (data !! k), (defaults !! k); simpl; eauto.
  - intros Hall. apply map_eq. intros k. rewrite lookup_union.
    destruct (data !! k) eqn:Hd, (defaults !! k) eqn:Hk; simpl; try done.
    destruct (Hall k) as [w Hw]; [by rewrite Hk|]. congruence.
Qed.

Lemma load_settings_backfills_witness :
  ∃ loaded : dict,
    load_settings (DEFAULT_SETTINGS sample_config)
      (Holds (VDict {[ "rubric" := VStr "FOOD"; "content_plan" := VDict ∅ ]}))
    = VDict loaded
    ∧ loaded !! "rubric" = Some (VStr "FOOD")
    ∧ loaded !! "content_plan" = Some (VDict ∅)
    ∧ loaded !! "tone" = Some (VStr "FRIENDLY").
Proof.
  destruct (load_settings_backfills (DEFAULT_SETTINGS sample_config)
    {[ "rubric" := VStr "FOOD"; "content_plan" := VDict ∅ ]})
    as (loaded & Hload & _ & Hfill & Hkeep & _).
  exists loaded. split; [exact Hload|]. split_and!.
  - apply Hkeep. reflexivity.
  - apply Hkeep. reflexivity.
  - apply Hfill; reflexivity.
Defined.

(** ** Rubric rotator *)

Section Rotator.

Variable container_repr : value → string.

Lemma digit_char_plain (n : nat) : is_continuation (digit_char n) = false.
Proof.
  unfold digit_char. pose proof (Nat.mod_upper_bound n 10 ltac:(done)) as Hk.
  destruct (n `mod` 10)%nat as [|[|[|[|[|[|[|[|[|[|k]]]]]]]]]]; try reflexivity. lia.
Qed.

Lemma strftime_Ymd_take (d : date) :
  str_take 10 (strftime_Ymd d) = strftime_Ymd d.
Proof.
  cbv [strftime_Ymd four_digits two_digits String.append str_take].
  rewrite !digit_char_plain. reflexivity.
Qed.

Lemma strftime_Ymd_truthy (d : date) : truthy (VStr (strftime_Ymd d)) = true.
Proof. reflexivity. Qed.

(** The weekday table answers for every weekday, also one outside 0..6. *)
Lemma weekday_table_total (weekday : Z) :
  ∃ r, WEEKDAY_RUBRIC !! Z.to_nat (weekday `mod` 7) = Some r.
Proof.
  apply lookup_lt_is_Some_2. simpl.
  pose proof (Z.mod_pos_bound weekday 7). lia.
Qed.

Lemma resolved_rubric_total (weekday : Z) (content_plan : value) :
  ∃ r, resolved_rubric container_repr weekday content_plan = Ok r.
Proof.
  unfold resolved_rubric.
  destruct (weekday_table_total weekday) as [r ->].
  destruct content_plan; eauto.
  destruct (truthy (VDict d)); eauto.
  destruct (d !! pretty (weekday `mod` 7)) as [v|]; eauto.
  destruct (truthy v); eauto.
Qed.

(** The guard compares the first ten characters of the recorded date
    with today's date. *)
Lemma checklist_guard_same_day (today : date) (last_used : dict) (s : string) :
  dict_get last_used "date" = VStr s →
  str_take 10 s = strftime_Ymd today →
  checklist_guard (strftime_Ymd today) (VDict last_used) "CHECKLIST" = Ok "SEASON".
Proof.
  intros Hdate Hs. unfold checklist_guard.
  assert (truthy (VDict last_used) = true) as ->.
  { simpl. rewrite bool_decide_eq_false_2; [done|]. intros ->.
    unfold dict_get in Hdate. by rewrite lookup_empty in Hdate. }
  rewrite bool_decide_eq_true_2 by done. cbn [andb py_get mbind result_bind].
  rewrite Hdate. unfold py_or.
  assert (truthy (VStr s) = true) as ->.
  { simpl. rewrite bool_decide_eq_false_2; [done|]. by intros ->. }
  cbn [py_take mbind result_bind]. rewrite Hs. unfold str_eq.
  by rewrite bool_decide_eq_true_2.
Qed.

Lemma avoid_repeat_differs (rubric : string) (prev_rubric : value) :
  str_eq (avoid_repeat rubric prev_rubric) prev_rubric = false.
Proof.
  unfold avoid_repeat. destruct (str_eq rubric prev_rubric) eqn:Heq; [|done].
  destruct prev_rubric; try done. simpl in Heq.
  apply bool_decide_eq_true in Heq as <-.
  case_bool_decide as Hr; simpl.
  - subst. done.
  - by rewrite bool_decide_eq_false_2 by congruence.
Qed.

Lemma avoid_repeat_alternate (rubric : string) (prev_rubric : value) :
  str_eq rubric prev_rubric = true →
  avoid_repeat rubric prev_rubric = "TIPS" ∨ avoid_repeat rubric prev_rubric = "FOOD".
Proof.
  intros Heq. unfold avoid_repeat. rewrite Heq.
  case_bool_decide; simpl; auto.
Qed.

End Rotator.

(** C4. Whatever the weekday, the last-used record and the content plan:
    when the rubric resolved from the content plan or from the weekday
    table is the checklist code and the date of the last-used record is
    today's date, the rotator returns the seasonal rubric, which is not
    the checklist code. *)
Theorem checklist_already_used_today (container_repr : value → string)
    (today : date) (weekday : Z) (last_used : dict) (content_plan : value) :
  resolved_rubric container_repr weekday content_plan = Ok "CHECKLIST" →
  last_used !! "date" = Some (VStr (strftime_Ymd today)) →
  get_rubric_for_weekday container_repr today weekday (VDict last_used) content_plan
  = Ok "SEASON"
  ∧ "SEASON" ≠ "CHECKLIST".
Proof.
  intros Hres Hdate. split; [|done].
  unfold get_rubric_for_weekday. rewrite Hres. cbn [mbind result_bind].
  apply (checklist_guard_same_day today last_used (strftime_Ymd today)).
  - unfold dict_get. by rewrite Hdate.
  - apply strftime_Ymd_take.
Qed.

Lemma checklist_already_used_today_witness :
  get_rubric_for_weekday (λ _, "") sample_date 6
    (VDict {[ "rubric" := VStr "FOOD"; "date" := VStr "2026-11-08" ]}) (VDict ∅)
  = Ok "SEASON"
  ∧ get_rubric_for_weekday (λ _, "") sample_date 2
      (VDict {[ "date" := VStr "2026-11-08" ]}) (VDict {[ "2" := VStr " checklist " ]})
    = Ok "SEASON".
Proof.
  split.
  - apply (checklist_already_used_today (λ _, "") sample_date 6
      {[ "rubric" := VStr "FOOD"; "date" := VStr "2026-11-08" ]} (VDict ∅));
      reflexivity.
  - apply (checklist_already_used_today (λ _, "") sample_date 2
      {[ "date" := VStr "2026-11-08" ]} (VDict {[ "2" := VStr " checklist " ]}));
      reflexivity.
Defined.


(** ** Schedule resolver: time of day *)

Lemma forallb_below (P : nat → bool) (n k : nat) :
  forallb P (seq 0 n) = true → (k < n)%nat → P k = true.
Proof.
  intros Hall Hk. rewrite forallb_forall in Hall.
  apply Hall, in_seq. lia.
Qed.

Lemma clock_strings_parse_colon : clock_strings_parse ":" = true.
Proof. vm_compute. reflexivity. Qed.

Lemma clock_strings_parse_dot : clock_strings_parse "." = true.
Proof. vm_compute. reflexivity. Qed.

Lemma parse_time_clock_string (pad : bool) (h m : nat) (sep : ascii) :
  (h < 100)%nat → (m < 100)%nat → sep = ":"%char ∨ sep = "."%char →
  parse_time (VStr (clock_string pad h sep m)) = (Z.of_nat h, Z.of_nat m).
Proof.
  intros Hh Hm Hsep.
  assert (Hall : clock_strings_parse sep = true).
  { destruct Hsep as [-> | ->];
      [apply clock_strings_parse_colon | apply clock_strings_parse_dot]. }
  unfold clock_strings_parse in Hall.
  pose proof (forallb_below _ _ h Hall Hh) as Hrow. cbv beta in Hrow.
  pose proof (forallb_below _ _ m Hrow Hm) as Hcell. cbv beta in Hcell.
  apply andb_prop in Hcell as [Hp Hn].
  apply bool_decide_eq_true in Hp, Hn. by destruct pad.
Qed.

Lemma parse_time_fields (s a b : string) (rest : list string) (h m : Z) :
  time_fields s = a :: b :: rest →
  int_of_str a = Ok h → int_of_str b = Ok m →
  parse_time (VStr s) = (h, m).
Proof.
  intros Hf Ha Hb. unfold parse_time. fold (time_fields s).
  rewrite Hf. cbn [take]. by rewrite Ha, Hb.
Qed.

Lemma parse_time_fallback (s : string) :
  (∀ a b rest h m, time_fields s = a :: b :: rest →
     int_of_str a = Ok h → int_of_str b = Ok m → False) →
  parse_time (VStr s) = (9, 30).
Proof.
  intros Hno. unfold parse_time. fold (time_fields s).
  destruct (time_fields s) as [|a [|b rest]] eqn:Hf; try done.
  cbn [take].
  destruct (int_of_str a) as [h|] eqn:Ha; [|done].
  destruct (int_of_str b) as [m|] eqn:Hb; [|done].
  exfalso. by eapply Hno.
Qed.

(** The claim of C5 fails at ["25:99"]: both fields are integer literals,
    so the time is taken as hour 25, minute 99; the default is not used,
    and the trigger constructor then rejects the fields, so the set-up
    call raises. *)
Lemma out_of_range_time_not_defaulted :
  parse_time (VStr "25:99") = (25, 99)
  ∧ parse_time (VStr "25:99") ≠ (9, 30)
  ∧ setup_scheduler true (λ _, true) sample_config (DEFAULT_SETTINGS sample_config)
      (Holds (VDict {[
         "target_chat_id" := VInt 7;
         "schedule" := VDict {[ "enabled" := VBool true; "time" := VStr "25:99" ]} ]}))
      None
    = (None, Raise ValueError).
Proof. split_and!; [reflexivity|discriminate|vm_compute; reflexivity]. Qed.

(** C5, as the code has it. A time written with a one- or two-digit hour,
    [":"] or ["."], and a two-digit minute parses to that hour and minute,
    and ["9:5"] to hour 9, minute 5. A time that is missing, empty, not a
    string, or whose first two fields are not both integer literals falls
    back to hour 9, minute 30. Two integer fields are taken as they are,
    whatever their range: ["25:99"] gives hour 25, minute 99. *)
Theorem schedule_time_parsing :
  (∀ (pad : bool) (h m : nat) (sep : ascii),
     (h < 100)%nat → (m < 100)%nat → sep = ":"%char ∨ sep = "."%char →
     parse_time (VStr (clock_string pad h sep m)) = (Z.of_nat h, Z.of_nat m))
  ∧ parse_time (VStr "9:5") = (9, 5)
  ∧ (∀ s a b rest h m,
       time_fields s = a :: b :: rest →
       int_of_str a = Ok h → int_of_str b = Ok m →
       parse_time (VStr s) = (h, m))
  ∧ (∀ s,
       (∀ a b rest h m, time_fields s = a :: b :: rest →
          int_of_str a = Ok h → int_of_str b = Ok m → False) →
       parse_time (VStr s) = (9, 30))
  ∧ (∀ v, (∀ s, v ≠ VStr s) → parse_time v = (9, 30))
  ∧ (∀ schedule : dict,
       schedule !! "time" = None ∨ schedule !! "time" = Some (VStr "") →
       parse_time (schedule_time schedule) = (9, 30))
  ∧ parse_time (VStr "25:99") = (25, 99).
Proof.
  split_and!.
  - apply parse_time_clock_string.
  - reflexivity.
  - apply parse_time_fields.
  - apply parse_time_fallback.
  - intros v Hv. destruct v; try done. by destruct (Hv s).
  - intros schedule [H|H]; unfold schedule_time, dict_get; by rewrite H.
  - reflexivity.
Qed.

Lemma schedule_time_parsing_witness :
  parse_time (VStr (clock_string false 7 "." 5)) = (7, 5)
  ∧ parse_time (VStr "12:30:59") = (12, 30)
  ∧ parse_time (VStr "soon") = (9, 30)
  ∧ parse_time (VInt 930) = (9, 30)
  ∧ parse_time (schedule_time {[ "time" := VStr "" ]}) = (9, 30).
Proof.
  destruct schedule_time_parsing as (Hwell & _ & Hfields & Hfall & Hother & Hempty & _).
  split_and!.
  - apply (Hwell false 7%nat 5%nat "."%char); [lia|lia|right; reflexivity].
  - apply (Hfields "12:30:59" "12" "30" ["59"]); reflexivity.
  - apply Hfall. intros a b rest h m Hf. vm_compute in Hf. discriminate Hf.
  - apply Hother. intros s. discriminate.
  - apply Hempty. right. reflexivity.
Defined.

(** ** Schedule resolver: frequency *)

Section Frequency.

Lemma lower_char_idemp (c : ascii) : lower_char (lower_char c) = lower_char c.
Proof. by destruct c as [[] [] [] [] [] [] [] []]. Qed.

Lemma is_delim_lower_char (c : ascii) : is_delim (lower_char c) = is_delim c.
Proof. by destruct c as [[] [] [] [] [] [] [] []]. Qed.

Lemma lower_idemp (s : string) : lower (lower s) = lower s.
Proof.
  unfold lower. induction s as [|c s IH]; simpl; [done|].
  by rewrite lower_char_idemp, IH.
Qed.

Lemma rev_app_str_map (f : ascii → ascii) (s acc : string) :
  String.rev_app (str_map f s) (str_map f acc) = str_map f (String.rev_app s acc).
Proof.
  revert acc. induction s as [|c s IH]; intros acc; simpl; [done|].
  apply (IH (String c acc)).
Qed.

Lemma rev_lower (s : string) : String.rev (lower s) = lower (String.rev s).
Proof. apply (rev_app_str_map lower_char s ""). Qed.

(** Lower-casing moves no delimiter, so it commutes with the split. *)
Lemma re_split_go_lower (cur : string) (d : bool) (s : string) :
  re_split_go (lower cur) d (lower s) = lower <$> re_split_go cur d s.
Proof.
  revert cur d. induction s as [|c s IH]; intros cur d; simpl.
  - by rewrite rev_lower.
  - rewrite is_delim_lower_char. destruct (is_delim c), d; simpl.
    + apply IH.
    + rewrite rev_lower. f_equal. apply (IH "").
    + apply (IH (String c cur)).
    + apply (IH (String c cur)).
Qed.

Lemma re_split_lower (s : string) : re_split (lower s) = lower <$> re_split s.
Proof. apply (re_split_go_lower "" false). Qed.

Lemma add_day_NoDup (days : list Z) (p : string) :
  NoDup days → NoDup (add_day days p).
Proof.
  intros Hnd. unfold add_day. destruct (day_map !! p) as [d|]; [|done].
  case_bool_decide as Hin; [done|].
  apply NoDup_app. split_and!; [done| |apply NoDup_singleton].
  intros x Hx Hy%list_elem_of_singleton. by subst.
Qed.

Lemma add_day_elem (days : list Z) (p : string) (d : Z) :
  d ∈ add_day days p ↔ d ∈ days ∨ day_map !! p = Some d.
Proof.
  unfold add_day. destruct (day_map !! p) as [d'|] eqn:Hp.
  - case_bool_decide as Hin.
    + split; [auto|]. intros [?|[= <-]]; done.
    + rewrite elem_of_app, list_elem_of_singleton. split.
      * intros [?| ->]; auto.
      * intros [?|[= <-]]; auto.
  - split; [auto|]. by intros [?|?].
Qed.

Lemma collect_days_NoDup (parts : list string) (days : list Z) :
  NoDup days → NoDup (foldl add_day days parts).
Proof.
  revert days. induction parts as [|p parts IH]; intros days Hnd; simpl; [done|].
  by apply IH, add_day_NoDup.
Qed.

Lemma collect_days_elem (parts : list string) (days : list Z) (d : Z) :
  d ∈ foldl add_day days parts
  ↔ d ∈ days ∨ ∃ p, p ∈ parts ∧ day_map !! p = Some d.
Proof.
  revert days. induction parts as [|p parts IH]; intros days; simpl.
  - split; [auto|]. intros [?|(p & Hp & _)]; [done|]. by apply elem_of_nil in Hp.
  - rewrite IH, add_day_elem. split.
    + intros [[?|?]|(q & Hq & ?)]; [auto| |].
      * right. exists p. split; [left|done].
      * right. exists q. split; [by right|done].
    + intros [?|(q & Hq & ?)]; [auto|].
      apply elem_of_cons in Hq as [-> |Hq]; [auto|]. right. eauto.
Qed.

(** What [parse_days] returns, in terms of the pieces of the string as
    it was typed. *)
Lemma parse_days_spec (s : string) :
  let named d := ∃ t, t ∈ re_split s ∧ day_map !! lower t = Some d in
  NoDup (parse_days (lower s))
  ∧ ((∃ d, named d) → ∀ d, d ∈ parse_days (lower s) ↔ named d)
  ∧ ((¬ ∃ d, named d) → parse_days (lower s) = [0; 2; 4]).
Proof.
  intros named. unfold parse_days. rewrite lower_idemp, re_split_lower.
  set (days := foldl add_day [] (lower <$> re_split s)).
  assert (Hel : ∀ d, d ∈ days ↔ named d).
  { intros d. unfold days. rewrite collect_days_elem. split.
    - intros [Hd|(p & Hp & Hd)]; [by apply elem_of_nil in Hd|].
      apply list_elem_of_fmap in Hp as (t & -> & Ht). by exists t.
    - intros (t & Ht & Hd). right. exists (lower t). split; [|done].
      apply list_elem_of_fmap. eauto. }
  assert (Hnd : NoDup days) by apply collect_days_NoDup, NoDup_nil_2.
  split_and!.
  - destruct days; [|done]. compute_done.
  - intros [d Hd]. destruct days as [|x days'] eqn:E; [|done].
    apply Hel in Hd. by apply elem_of_nil in Hd.
  - intros Hnone. destruct days as [|x days'] eqn:E; [done|].
    exfalso. apply Hnone. exists x. apply Hel. left.
Qed.

End Frequency.

(** The claim of C6 fails at the empty frequency and at ["Daily"]: neither
    is the literal ["daily"] and neither holds a weekday code, yet the
    trigger is the daily one (no [day_of_week]); the Monday, Wednesday,
    Friday set is not used. *)
Lemma other_spellings_of_daily :
  trigger_days <$> schedule_frequency {[ "frequency" := VStr "" ]} = Ok None
  ∧ trigger_days <$> schedule_frequency {[ "frequency" := VStr "Daily" ]} = Ok None
  ∧ trigger_days <$> schedule_frequency {[ "frequency" := VStr "Daily" ]}
    ≠ Ok (Some (join_days [0; 2; 4])).
Proof. split_and!; [vm_compute; reflexivity..|discriminate]. Qed.

(** C6, as the code has it. The frequency is trimmed and lower-cased, an
    empty or missing one standing for ["daily"], which gives the daily
    trigger. When the result is not ["daily"], it is split at runs of
    whitespace and commas; a piece counts when, lower-cased, it is one of
    the codes mon..sun; the other pieces, the empty ones among them, are
    dropped. The days of the pieces that count, each once, are the days of
    the trigger (["mon, FRI"] gives Monday and Friday); when no piece counts
    (["xx,yy"]) the days are Monday, Wednesday, Friday. *)
Theorem schedule_frequency_parsing (schedule : dict) :
  (schedule !! "frequency" = None
   ∨ schedule !! "frequency" = Some VNone
   ∨ schedule !! "frequency" = Some (VStr "") →
   schedule_frequency schedule = Ok "daily" ∧ trigger_days "daily" = None)
  ∧ (∀ s : string,
       schedule !! "frequency" = Some (VStr s) →
       s ≠ "" →
       let freq := lower (strip s) in
       let days := parse_days freq in
       let named d := ∃ t, t ∈ re_split (strip s) ∧ day_map !! lower t = Some d in
       schedule_frequency schedule = Ok freq
       ∧ (freq = "daily" → trigger_days freq = None)
       ∧ (freq ≠ "daily" →
          trigger_days freq = Some (join_days (merge_sort Z.le days))
          ∧ merge_sort Z.le days ≡ₚ days
          ∧ NoDup days
          ∧ ((∃ d, named d) → ∀ d, d ∈ days ↔ named d)
          ∧ ((¬ ∃ d, named d) → days = [0; 2; 4])))
  ∧ (∀ t d, day_map !! t = Some d ↔
       (t, d) ∈ [("mon", 0); ("tue", 1); ("wed", 2); ("thu", 3); ("fri", 4);
                 ("sat", 5); ("sun", 6)]).
Proof.
  split_and!.
  - intros Hmissing. split; [|done].
    unfold schedule_frequency, dict_get.
    by destruct Hmissing as [-> |[-> | ->]].
  - intros s Hfreq Hs freq days named.
    destruct (parse_days_spec (strip s)) as (Hnd & Hsome & Hnone).
    split_and!.
    + assert (Hget : dict_get schedule "frequency" = VStr s).
      { unfold dict_get. by rewrite Hfreq. }
      unfold schedule_frequency. rewrite Hget. unfold py_or.
      assert (truthy (VStr s) = true) as ->.
      { simpl. by rewrite bool_decide_eq_false_2. }
      done.
    + intros Hdaily. unfold trigger_days. by rewrite bool_decide_eq_true_2.
    + intros Hdaily. split_and!; try done.
      * unfold trigger_days. by rewrite bool_decide_eq_false_2.
      * apply merge_sort_Permutation.
  - intros t d. symmetry. apply (elem_of_list_to_map (M := gmap string)).
    compute_done.
Qed.

Lemma schedule_frequency_parsing_witness :
  schedule_frequency ∅ = Ok "daily"
  ∧ schedule_frequency {[ "frequency" := VStr "mon, FRI" ]} = Ok "mon, fri"
  ∧ trigger_days "mon, fri" = Some (join_days (merge_sort Z.le (parse_days "mon, fri")))
  ∧ parse_days "mon, fri" = [0; 4]
  ∧ parse_days "xx,yy" = [0; 2; 4].
Proof.
  destruct (schedule_frequency_parsing ∅) as ([Hmissing _] & _); [by left|].
  destruct (schedule_frequency_parsing {[ "frequency" := VStr "mon, FRI" ]})
    as (_ & Hparse & _).
  destruct (Hparse "mon, FRI") as (Hfreq & _ & Hdays); [reflexivity|discriminate|].
  destruct Hdays as (Htrig & _); [discriminate|].
  split_and!; [exact Hmissing|exact Hfreq|exact Htrig|reflexivity|reflexivity].
Defined.

(** ** Schedule resolver: the installed trigger *)

Section Installed.

Variable importable : bool.
Variable known_zone : string → bool.
Variable cfg : config.

Implicit Types (sc : scheduler) (s : option scheduler) (id : string).

Lemma has_job_false id sc :
  has_job id sc = false → filter (λ j, job_id j = id) (scheduler_jobs sc) = [].
Proof.
  unfold has_job. intros Hno.
  induction (scheduler_jobs sc) as [|j js IH]; [done|].
  simpl in Hno. apply orb_false_iff in Hno as [Hj Hjs].
  apply bool_decide_eq_false in Hj.
  rewrite filter_cons_False by done. by apply IH.
Qed.

Lemma filter_other_then_same id (js : list job) :
  filter (λ j, job_id j = id) (filter (λ j, job_id j ≠ id) js) = [].
Proof.
  induction js as [|j js IH]; [done|].
  destruct (decide (job_id j = id)) as [Heq|Hne].
  - by rewrite (filter_cons_False (λ j, job_id j ≠ id)) by auto.
  - rewrite (filter_cons_True (λ j, job_id j ≠ id)) by done.
    by rewrite filter_cons_False.
Qed.

(** After [remove_job] in its [try], the id is gone, found or not. *)
Lemma drop_job_clears id sc :
  filter (λ j, job_id j = id) (scheduler_jobs (drop_job id sc)) = [].
Proof.
  unfold drop_job, remove_job. destruct (has_job id sc) eqn:Hhas; simpl.
  - apply filter_other_then_same.
  - by apply has_job_false.
Qed.

Lemma drop_job_has_job id sc : has_job id (drop_job id sc) = false.
Proof.
  pose proof (drop_job_clears id sc) as Hnil. unfold has_job.
  induction (scheduler_jobs (drop_job id sc)) as [|j js IH]; [done|].
  simpl. destruct (decide (job_id j = id)) as [Heq|Hne].
  - by rewrite filter_cons_True in Hnil.
  - rewrite filter_cons_False in Hnil by done.
    rewrite bool_decide_eq_false_2 by done. by apply IH.
Qed.

Lemma active_drop_job id s : active id (drop_job id <$> s) = [].
Proof. destruct s as [sc|]; simpl; [|done]. by rewrite drop_job_clears. Qed.

(** Removing and then adding cannot collide, and leaves the new trigger
    the only one under the id. *)
Lemma add_after_drop (trig : trigger) id sc :
  ∃ sc', add_job trig id (drop_job id sc) = Ok sc'
         ∧ active id (Some sc') = [trig].
Proof.
  unfold add_job. rewrite drop_job_has_job. eexists. split; [done|].
  simpl. rewrite filter_app, drop_job_clears. simpl.
  by rewrite filter_cons_True, filter_nil.
Qed.

Lemma read_schedule_dict (d sch : dict) :
  py_or (dict_get d "schedule") (VDict ∅) = VDict sch →
  read_schedule cfg (VDict d)
  = Ok (d, sch, negb (truthy (dict_get sch "enabled"))
                || negb (truthy (job_chat_id cfg (dict_get d "target_chat_id")))).
Proof.
  intros Hsch. unfold read_schedule. cbn [py_get mbind result_bind].
  by rewrite Hsch.
Qed.

(** One call: the scheduler is left alone, or holds no trigger under the
    id, or holds exactly the one just built. *)
Lemma setup_scheduler_cases (defaults : dict) (f : file value) s :
  let s' := (setup_scheduler importable known_zone cfg defaults f s).1 in
  s' = s
  ∨ (importable = true ∧ active "travel_post_job" s' = [])
  ∨ (importable = true ∧ ∃ trig, active "travel_post_job" s' = [trig]).
Proof.
  unfold setup_scheduler. destruct importable; [|by left]. simpl.
  destruct (read_schedule _ _) as [[[d sch] off]|]; [|by left].
  destruct off.
  { right. left. split; [done|]. apply active_drop_job. }
  destruct (build_trigger _ _ _ _) as [trig|]; [|by left].
  match goal with |- context [add_job trig ?id (drop_job ?id ?sc)] =>
    destruct (add_after_drop trig id sc) as (sc' & -> & Hact) end.
  right. right. split; [done|]. by exists trig.
Qed.

Lemma setup_scheduler_settled (defaults : dict) (f : file value) s :
  settled importable s →
  settled importable (setup_scheduler importable known_zone cfg defaults f s).1.
Proof.
  intros [Hlen Hnone].
  destruct (setup_scheduler_cases defaults f s) as [-> | [[Himp Hact] | [Himp [trig Hact]]]].
  - done.
  - split; [by rewrite Hact; simpl; lia | by rewrite Himp].
  - split; [by rewrite Hact; simpl; lia | by rewrite Himp].
Qed.

Lemma setup_all_settled (calls : list (dict * file value)) s :
  settled importable s → settled importable (setup_all importable known_zone cfg calls s).
Proof.
  revert s. induction calls as [|c calls IH]; intros s Hs; [done|].
  simpl. by apply IH, setup_scheduler_settled.
Qed.

End Installed.

(** C7. After any run of set-up calls from the start of the process, at
    most one trigger is active for the publish job. A further call made
    while the schedule is disabled or no target chat is configured ends
    normally with no trigger active for the job; a further call that
    builds a trigger leaves that trigger as the only one, whatever was
    installed before. *)
Theorem setup_scheduler_single_trigger (importable : bool) (known_zone : string → bool)
    (cfg : config) (calls : list (dict * file value)) :
  let s := setup_all importable known_zone cfg calls None in
  (length (active "travel_post_job" s) ≤ 1)%nat
  ∧ (∀ (defaults : dict) (f : file value) (d sch : dict),
       load_settings defaults f = VDict d →
       py_or (dict_get d "schedule") (VDict ∅) = VDict sch →
       truthy (dict_get sch "enabled") = false
       ∨ truthy (job_chat_id cfg (dict_get d "target_chat_id")) = false →
       active "travel_post_job"
         (setup_scheduler importable known_zone cfg defaults f s).1 = []
       ∧ (setup_scheduler importable known_zone cfg defaults f s).2 = Ok ())
  ∧ (∀ (defaults : dict) (f : file value) (d sch : dict) (trig : trigger),
       importable = true →
       load_settings defaults f = VDict d →
       py_or (dict_get d "schedule") (VDict ∅) = VDict sch →
       truthy (dict_get sch "enabled") = true →
       truthy (job_chat_id cfg (dict_get d "target_chat_id")) = true →
       build_trigger known_zone cfg d sch = Ok trig →
       active "travel_post_job"
         (setup_scheduler importable known_zone cfg defaults f s).1 = [trig]
       ∧ (setup_scheduler importable known_zone cfg defaults f s).2 = Ok ()).
Proof.
  intros s.
  assert (Hs : settled importable s).
  { apply setup_all_settled. split; [simpl; lia|done]. }
  destruct Hs as [Hlen Hnone]. split_and!; [done| |].
  - intros defaults f d sch Hload Hsch Hoff. unfold setup_scheduler.
    destruct importable.
    + simpl. rewrite Hload, (read_schedule_dict cfg d sch Hsch).
      assert (negb (truthy (dict_get sch "enabled"))
              || negb (truthy (job_chat_id cfg (dict_get d "target_chat_id"))) = true)
        as ->.
      { destruct Hoff as [-> | ->]; [done|]. apply orb_true_r. }
      split; [apply active_drop_job|done].
    + simpl. by rewrite Hnone.
  - intros defaults f d sch trig -> Hload Hsch Hen Htarget Htrig.
    unfold setup_scheduler. simpl.
    rewrite Hload, (read_schedule_dict cfg d sch Hsch), Hen, Htarget. simpl.
    rewrite Htrig.
    match goal with |- context [add_job trig ?id (drop_job ?id ?sc)] =>
      destruct (add_after_drop trig id sc) as (sc' & -> & Hact) end.
    done.
Qed.

Lemma setup_scheduler_single_trigger_witness :
  let s := setup_all true (λ _, true) sample_config
             [(DEFAULT_SETTINGS sample_config, Holds (sample_settings true "09:30" "daily"));
              (DEFAULT_SETTINGS sample_config, Holds (sample_settings true "18.05" "mon, FRI"))]
             None in
  (length (active "travel_post_job" s) ≤ 1)%nat
  ∧ active "travel_post_job"
      (setup_scheduler true (λ _, true) sample_config (DEFAULT_SETTINGS sample_config)
         (Holds (sample_settings false "18.05" "mon, FRI")) s).1 = []
  ∧ active "travel_post_job"
      (setup_scheduler true (λ _, true) sample_config (DEFAULT_SETTINGS sample_config)
         (Holds (sample_settings true "7:15" "sat sun")) s).1
    = [{| day_of_week := Some "5,6"; hour := 7; minute := 15; timezone := "Europe/Berlin" |}].
Proof.
  intros s.
  destruct (setup_scheduler_single_trigger true (λ _, true) sample_config
    [(DEFAULT_SETTINGS sample_config, Holds (sample_settings true "09:30" "daily"));
     (DEFAULT_SETTINGS sample_config, Holds (sample_settings true "18.05" "mon, FRI"))])
    as (Hone & Hoff & Hon).
  split_and!.
  - exact Hone.
  - eapply Hoff; [reflexivity|reflexivity|left; reflexivity].
  - eapply Hon; reflexivity.
Defined.

(** ** Publish pipeline: delivery *)

Section Delivery.

Variable o : oracle.

Lemma photo_answer_accepted (fallback : string) (resp : response) :
  photo_answer fallback resp
  = match accepted (Ok resp) with
    | Some mid => Ok mid
    | None =>
        j ← resp_json resp;
        Raise (Exception (default fallback (tg_description j)))
    end.
Proof.
  unfold photo_answer, accepted.
  destruct (resp_ok resp), (resp_json resp) as [j|e]; simpl; try done.
  by destruct (tg_ok j).
Qed.

Lemma send_by_url_accepted (url post_text : string) (mid : option Z) :
  accepted (send_photo_url o) = Some mid →
  send_by_url o url post_text = ([SendPhotoUrl url (str_take 1024 post_text)], Ok mid).
Proof.
  intros Hacc. unfold send_by_url. f_equal.
  destruct (send_photo_url o) as [resp|e]; [|done]. simpl.
  by rewrite photo_answer_accepted, Hacc.
Qed.

Lemma send_by_url_rejected (url post_text : string) :
  accepted (send_photo_url o) = None →
  ∃ e, send_by_url o url post_text
       = ([SendPhotoUrl url (str_take 1024 post_text)], Raise e).
Proof.
  intros Hacc. unfold send_by_url.
  destruct (send_photo_url o) as [resp|e]; [|by eexists]. simpl.
  rewrite photo_answer_accepted, Hacc.
  destruct (resp_json resp); by eexists.
Qed.

Lemma send_by_file_accepted (url post_text : string) (mid : option Z) :
  download_image o = Ok () →
  accepted (send_photo_file o) = Some mid →
  send_by_file o url post_text
  = ([DownloadImage url; SendPhotoFile (str_take 1024 post_text)], Ok mid).
Proof.
  intros Hdl Hacc. unfold send_by_file. rewrite Hdl. f_equal.
  destruct (send_photo_file o) as [resp|e]; [|done]. simpl.
  by rewrite photo_answer_accepted, Hacc.
Qed.

Lemma send_by_file_rejected (url post_text : string) :
  download_image o = Ok () →
  accepted (send_photo_file o) = None →
  ∃ e, send_by_file o url post_text
       = ([DownloadImage url; SendPhotoFile (str_take 1024 post_text)], Raise e).
Proof.
  intros Hdl Hacc. unfold send_by_file. rewrite Hdl.
  destruct (send_photo_file o) as [resp|e]; [|by eexists]. simpl.
  rewrite photo_answer_accepted, Hacc.
  destruct (resp_json resp); by eexists.
Qed.

Lemma truthy_opt_Some (url : string) : url ≠ "" → truthy_opt (Some url) = true.
Proof. intros Hurl. simpl. unfold truthy_str. by rewrite bool_decide_eq_false_2. Qed.

End Delivery.


(** ** Publish pipeline: the result *)

Section Pipeline.

Variable cfg : config.

Implicit Types (o : oracle) (d : dict) (dk : disk) (out : outcome).

(** Walks the [try] block of [publish_body] down to the mirror: one goal
    per place where the block can stop, closed by [stop], and the goal of
    the run that reaches its end. *)
Ltac walk_body o target stop :=
  unfold publish_body;
  destruct (generate_travel_post o) as [gen|] eqn:Hgen; [|stop];
  destruct (publisher_init o) eqn:Hinit; [|stop];
  destruct (deliver o (generated_image o) (generated_text gen)) as [tr2 [mid|]] eqn:Hsent;
    [|stop];
  destruct (py_int target) as [chat|] eqn:Hchat; [|stop].

(** A run either returns early with a refusal, or is its [try] block; what
    the block is given does not depend on the collaborators. *)
Lemma run_cases o (chat_id : Z) (settings : value) (override : option string) dk out :
  run_generate_and_publish cfg o chat_id settings override dk = Ok out →
  (∃ msg, out = {| run_result := refused msg; run_settings := settings;
                   run_disk := dk; run_trace := [] |}
          ∧ ∀ o', run_generate_and_publish cfg o' chat_id settings override dk = Ok out)
  ∨ (∃ d target dest rubric tone season audience constraints,
       out = publish_body cfg o d target dest rubric tone season audience constraints dk
       ∧ ∀ o', run_generate_and_publish cfg o' chat_id settings override dk
               = Ok (publish_body cfg o' d target dest rubric tone season audience
                       constraints dk)).
Proof.
  unfold run_generate_and_publish. destruct settings as [| | | | |d]; try done.
  cbn [py_get mbind result_bind].
  destruct (truthy (dict_get d "target_chat_id")); cbn [negb].
  2:{ intros [= <-]. left. eexists. split; [done|]. done. }
  destruct (py_strip _) as [dest|] eqn:Hdest; [|done]. cbn [mbind result_bind].
  destruct (truthy_opt (OPENAI_API_KEY cfg)); cbn [negb].
  2:{ intros [= <-]. left. eexists. split; [done|]. done. }
  intros [= <-]. right. by repeat eexists.
Qed.

Lemma publish_body_error_iff o d target dest rubric tone season audience constraints dk :
  let r := run_result
    (publish_body cfg o d target dest rubric tone season audience constraints dk) in
  is_Some (error r) ↔ ok r = false.
Proof.
  walk_body o target ltac:(by split; eauto).
  destruct (crosspost _ _ _ _ _ _) as [[tr3 vk] log2]. simpl.
  split; [by intros [? ?]|done].
Qed.

(** A run that reports success went through generation and delivery
    without an exception, and reports the id the delivery gave. *)
Lemma publish_body_ok o d target dest rubric tone season audience constraints dk :
  let r := run_result
    (publish_body cfg o d target dest rubric tone season audience constraints dk) in
  ok r = true →
  ∃ gen mid,
    generate_travel_post o = Ok gen
    ∧ (deliver o (generated_image o) (generated_text gen)).2 = Ok mid
    ∧ tg_message_id r = mid.
Proof.
  walk_body o target ltac:(done).
  destruct (crosspost _ _ _ _ _ _) as [[tr3 vk] log2]. simpl.
  intros _. exists gen, mid. by rewrite Hsent.
Qed.

(** The answer of VK is read after everything [ok] depends on. *)
Lemma publish_body_vk o (vk : result (option Z)) d target dest rubric tone season
    audience constraints dk :
  let r := run_result
    (publish_body cfg o d target dest rubric tone season audience constraints dk) in
  let r' := run_result
    (publish_body cfg (with_vk vk o) d target dest rubric tone season audience
       constraints dk) in
  ok r' = ok r ∧ tg_message_id r' = tg_message_id r ∧ error r' = error r.
Proof.
  unfold publish_body. cbn [generate_travel_post publisher_init with_vk].
  destruct (generate_travel_post o) as [gen|]; [|done].
  destruct (publisher_init o); [|done].
  change (deliver (with_vk vk o)) with (deliver o).
  change (generated_image (with_vk vk o)) with (generated_image o).
  destruct (deliver o _ _) as [tr2 [mid|]]; [|done].
  destruct (py_int target); [|done].
  destruct (crosspost cfg (with_vk vk o) _ _ _ _) as [[tr3 v1] log2].
  destruct (crosspost cfg o _ _ _ _) as [[tr3' v2] log2']. done.
Qed.

(** A failing image generator leaves the run as one without image. *)
Lemma publish_body_image_failure o (e : exn) d target dest rubric tone season
    audience constraints dk :
  generate_images o = Raise e →
  publish_body cfg o d target dest rubric tone season audience constraints dk
  = publish_body cfg (with_images (Ok []) o) d target dest rubric tone season
      audience constraints dk.
Proof.
  intros Himg. destruct o. simpl in Himg. subst. reflexivity.
Qed.

Lemma crosspost_no_post_id o d (post_text : string) (image_url : option string)
    (f : file (list entry)) :
  (∀ p, vk_publish_post o ≠ Ok (Some p)) →
  ∃ tr, crosspost cfg o d post_text image_url f = (tr, None, f).
Proof.
  intros Hvk. unfold crosspost.
  destruct (_ && _); [|by eexists].
  destruct (vk_publish_post o) as [[p|]|]; [by destruct (Hvk p)|by eexists..].
Qed.

(** When the mirror gives no post id, the entry of the run is the last of
    the log and carries none. *)
Lemma publish_body_mirror_failure o d target dest rubric tone season audience
    constraints dk :
  let out := publish_body cfg o d target dest rubric tone season audience constraints dk in
  ok (run_result out) = true →
  (∀ p, vk_publish_post o ≠ Ok (Some p)) →
  vk_post_id (run_result out) = None
  ∧ ∃ e, last (load_post_log (post_log_file (run_disk out))) = Some e
         ∧ log_vk_post_id e = None
         ∧ log_tg_message_id e = Some (default 0 (tg_message_id (run_result out)))
         ∧ log_replies_count e = Some 0.
Proof.
  intros out Hok Hvk. revert Hok. unfold out.
  walk_body o target ltac:(done).
  match goal with |- context [crosspost cfg o d ?t ?i ?f] =>
    destruct (crosspost_no_post_id o d t i f Hvk) as [tr3 ->] end.
  simpl. intros _. split; [done|].
  eexists. rewrite last_snoc. done.
Qed.

Lemma deliver_trace_no_text o (image_url : option string) (post_text : string) :
  Forall (λ ev, text_rubric ev = None) (deliver o image_url post_text).1.
Proof.
  unfold deliver, send_by_url, send_by_file, send_text.
  destruct (truthy_opt image_url); [|by repeat constructor].
  destruct (_ ≫= _); [by repeat constructor|].
  destruct (download_image o).
  - destruct (_ ≫= _); by repeat constructor.
  - by repeat constructor.
Qed.

Lemma crosspost_trace_no_text o d (post_text : string) (image_url : option string)
    (f : file (list entry)) :
  Forall (λ ev, text_rubric ev = None) (crosspost cfg o d post_text image_url f).1.1.
Proof.
  unfold crosspost. destruct (_ && _); [|by constructor].
  destruct (vk_publish_post o) as [[p|]|]; by repeat constructor.
Qed.

(** The text generator is called once at most, with the rubric the block
    was given. *)
Lemma publish_body_trace_rubric o d target dest rubric tone season audience
    constraints dk (ev : event) (r : value) :
  ev ∈ run_trace (publish_body cfg o d target dest rubric tone season audience
                    constraints dk) →
  text_rubric ev = Some r → r = rubric.
Proof.
  unfold publish_body. intros Hin Hev.
  assert (Hcases : ev = GenerateText rubric dest season tone audience
                          (match constraints with VList _ => constraints | _ => VList [] end)
                   ∨ text_rubric ev = None); [|by destruct Hcases as [-> | ?]; naive_solver].
  revert Hin.
  destruct (generate_travel_post o) as [gen|].
  2:{ intros ?%list_elem_of_singleton. auto. }
  destruct (publisher_init o).
  2:{ intros [-> | ->%list_elem_of_singleton]%elem_of_cons; auto. }
  pose proof (deliver_trace_no_text o (generated_image o) (generated_text gen)) as Hd.
  destruct (deliver o _ _) as [tr2 sent]. simpl in Hd.
  assert (Htr2 : ev ∈ [GenerateText rubric dest season tone audience
                         (match constraints with VList _ => constraints | _ => VList [] end);
                       GenerateImages (default "" (out_image_prompt gen))] ++ tr2 →
                 ev = GenerateText rubric dest season tone audience
                        (match constraints with VList _ => constraints | _ => VList [] end)
                 ∨ text_rubric ev = None).
  { intros [Hh|Ht]%elem_of_app.
    - apply elem_of_cons in Hh as [-> | ->%list_elem_of_singleton]; auto.
    - right. by eapply Forall_forall in Hd. }
  destruct sent as [mid|]; [|done].
  destruct (py_int target); [|done].
  match goal with |- context [crosspost cfg o d ?t ?i ?f] =>
    pose proof (crosspost_trace_no_text o d t i f) as Hc;
    destruct (crosspost cfg o d t i f) as [[tr3 vk] log2] end.
  simpl in Hc. cbn [run_trace]. rewrite app_assoc.
  intros [Hh|Ht]%elem_of_app; [auto|].
  right. by eapply Forall_forall in Hc.
Qed.

Lemma run_trace_rubric o (chat_id : Z) d (override : option string) dk out
    (ev : event) (r : value) :
  run_generate_and_publish cfg o chat_id (VDict d) override dk = Ok out →
  ev ∈ run_trace out → text_rubric ev = Some r → r = rubric_in_use d.
Proof.
  unfold run_generate_and_publish. cbn [py_get mbind result_bind].
  destruct (truthy (dict_get d "target_chat_id")); cbn [negb].
  2:{ intros [= <-] Hin. by apply elem_of_nil in Hin. }
  destruct (py_strip _) as [dest|]; [|done]. cbn [mbind result_bind].
  destruct (truthy_opt (OPENAI_API_KEY cfg)); cbn [negb].
  2:{ intros [= <-] Hin. by apply elem_of_nil in Hin. }
  intros [= <-]. apply publish_body_trace_rubric.
Qed.

(** In a successful run the delivery is part of the calls made, and its
    id is the one reported. *)
Lemma publish_body_delivery o d target dest rubric tone season audience constraints dk
    (gen0 : gen_out) :
  let out := publish_body cfg o d target dest rubric tone season audience constraints dk in
  generate_travel_post o = Ok gen0 →
  ok (run_result out) = true →
  (deliver o (generated_image o) (generated_text gen0)).2 = Ok (tg_message_id (run_result out))
  ∧ ∃ before after,
      run_trace out
      = before ++ (deliver o (generated_image o) (generated_text gen0)).1 ++ after.
Proof.
  intros out Hgen'. unfold out.
  walk_body o target ltac:(done).
  destruct (crosspost _ _ _ _ _ _) as [[tr3 vk] log2]. simpl.
  intros _. assert (gen0 = gen) as -> by congruence.
  rewrite Hsent. split; [done|]. by eexists [_; _], tr3.
Qed.

(** With a destination that is a string or is not set, the run returns
    its result: nothing inside the [try] block can escape it. *)
Lemma run_generate_and_publish_returns o (chat_id : Z) d (override : option string) dk :
  (∀ v, d !! "destination" = Some v → v = VNone ∨ ∃ s, v = VStr s) →
  ∃ out, run_generate_and_publish cfg o chat_id (VDict d) override dk = Ok out.
Proof.
  intros Hdest. unfold run_generate_and_publish. cbn [py_get mbind result_bind].
  destruct (truthy (dict_get d "target_chat_id")); cbn [negb]; [|by eexists].
  assert (Hstr : ∃ s, py_or (of_opt_str override)
                        (py_or (dict_get d "destination") (VStr "Стамбул")) = VStr s).
  { unfold py_or at 1. destruct override as [t|]; simpl.
    - destruct (bool_decide (t = "")); simpl; [|by eexists].
      unfold py_or, dict_get. destruct (d !! "destination") as [v|] eqn:Hv; simpl.
      + destruct (Hdest v eq_refl) as [-> | [s ->]]; simpl; [by eexists|].
        destruct (bool_decide (s = "")); by eexists.
      + by eexists.
    - unfold py_or, dict_get. destruct (d !! "destination") as [v|] eqn:Hv; simpl.
      + destruct (Hdest v eq_refl) as [-> | [s ->]]; simpl; [by eexists|].
        destruct (bool_decide (s = "")); by eexists.
      + by eexists. }
  destruct Hstr as [s ->]. cbn [py_strip mbind result_bind].
  destruct (truthy_opt (OPENAI_API_KEY cfg)); cbn [negb]; by eexists.
Qed.

End Pipeline.

(** The claim of C2 fails when the text publisher returns without a
    message id (it returns [None], or an answer that carries no id): no
    exception is raised, so the run reports [ok = true] with a null
    message id, and the log records message id 0. *)
Lemma ok_without_message_id :
  ∃ out,
    run_generate_and_publish sample_config
      (with_publish_post (Ok None) (with_images (Ok []) sample_oracle))
      7 (sample_settings true "09:30" "daily") None sample_disk = Ok out
    ∧ ok (run_result out) = true
    ∧ tg_message_id (run_result out) = None
    ∧ error (run_result out) = None
    ∧ log_tg_message_id <$> last (load_post_log (post_log_file (run_disk out)))
      = Some (Some 0).
Proof. eexists. split; [vm_compute; reflexivity|]. split_and!; reflexivity. Qed.

(** ** Delivery within a run *)

(** Delivery, tier by tier: the calls made and the answer. *)
Lemma deliver_tiers (o : oracle) (image_url : option string) (post_text : string) :
  let caption := str_take 1024 post_text in
  let text_only :=
    (λ reply : option tg_reply, reply ≫= tg_result_message_id) <$> publish_post o in
  (truthy_opt image_url = false →
     deliver o image_url post_text = ([PublishText post_text], text_only))
  ∧ (∀ url, image_url = Some url → url ≠ "" →
       (∀ mid, accepted (send_photo_url o) = Some mid →
          deliver o image_url post_text = ([SendPhotoUrl url caption], Ok mid))
       ∧ (∀ mid, accepted (send_photo_url o) = None →
            download_image o = Ok () →
            accepted (send_photo_file o) = Some mid →
            deliver o image_url post_text
            = ([SendPhotoUrl url caption; DownloadImage url; SendPhotoFile caption],
               Ok mid))
       ∧ (∀ e, accepted (send_photo_url o) = None →
            download_image o = Raise e →
            deliver o image_url post_text
            = ([SendPhotoUrl url caption; DownloadImage url; PublishText post_text],
               text_only))
       ∧ (accepted (send_photo_url o) = None →
          download_image o = Ok () →
          accepted (send_photo_file o) = None →
          deliver o image_url post_text
          = ([SendPhotoUrl url caption; DownloadImage url; SendPhotoFile caption;
              PublishText post_text], text_only))).
Proof.
  intros caption text_only.
  assert (Htext : send_text o post_text = ([PublishText post_text], text_only)).
  { reflexivity. }
  split.
  - intros Hno. unfold deliver. by rewrite Hno.
  - intros url -> Hurl. unfold deliver. rewrite (truthy_opt_Some url Hurl).
    cbn [default from_option id]. split_and!.
    + intros mid Hacc. by rewrite (send_by_url_accepted o url post_text mid Hacc).
    + intros mid Hrej Hdl Hacc.
      destruct (send_by_url_rejected o url post_text Hrej) as [e1 ->].
      by rewrite (send_by_file_accepted o url post_text mid Hdl Hacc).
    + intros e Hrej Hdl.
      destruct (send_by_url_rejected o url post_text Hrej) as [e1 ->].
      unfold send_by_file. rewrite Hdl. by rewrite Htext.
    + intros Hrej Hdl Hrej2.
      destruct (send_by_url_rejected o url post_text Hrej) as [e1 ->].
      destruct (send_by_file_rejected o url post_text Hdl Hrej2) as [e2 ->].
      by rewrite Htext.
Qed.

(** ** Consecutive scheduled runs *)

(** The rubric step on settings whose rotator answer repeats the last
    rubric. *)
Lemma rotation_step (container_repr : value → string) (o : oracle)
    (settings : dict) (dk : disk) (rubric : string) (prev_rubric : value) :
  let last := py_or (dict_get settings "last_used") (VDict ∅) in
  let content_plan := py_or (dict_get settings "content_plan") (VDict ∅) in
  get_rubric_for_weekday container_repr (now o) (now_weekday o) last content_plan
  = Ok rubric →
  py_get last "rubric" = Ok prev_rubric →
  str_eq rubric prev_rubric = true →
  ∃ used : string,
    choose_rubric container_repr o settings = Ok used
    ∧ used = (if bool_decide (rubric = "TIPS") then "FOOD" else "TIPS")
    ∧ str_eq used prev_rubric = false
    ∧ (resolve_context container_repr o settings dk).1 = <["rubric" := VStr used]> settings
    ∧ rubric_in_use (resolve_context container_repr o settings dk).1 = VStr used
    ∧ settings_file (resolve_context container_repr o settings dk).2
      = Holds (VDict (<["rubric" := VStr used]> settings))
    ∧ (∀ (cfg : config) (chat_id : Z) (override : option string) (dk' : disk)
         (out : outcome) (ev : event) (r : value),
         run_generate_and_publish cfg o chat_id
           (VDict (resolve_context container_repr o settings dk).1) override dk' = Ok out →
         ev ∈ run_trace out → text_rubric ev = Some r → r = VStr used).
Proof.
  intros last content_plan Hrot Hprev Heq.
  assert (Hchoose : choose_rubric container_repr o settings
                    = Ok (avoid_repeat rubric prev_rubric)).
  { unfold choose_rubric. fold last content_plan.
    rewrite Hrot. cbn [mbind result_bind]. by rewrite Hprev. }
  exists (avoid_repeat rubric prev_rubric). split; [done|].
  assert (Hused : avoid_repeat rubric prev_rubric
                  = if bool_decide (rubric = "TIPS") then "FOOD" else "TIPS").
  { unfold avoid_repeat. rewrite Heq. by case_bool_decide. }
  split; [done|]. split; [apply avoid_repeat_differs|].
  unfold resolve_context. rewrite Hchoose. cbn [fst snd settings_file save_settings].
  assert (Huse : rubric_in_use (<["rubric" := VStr (avoid_repeat rubric prev_rubric)]> settings)
                 = VStr (avoid_repeat rubric prev_rubric)).
  { unfold rubric_in_use, dict_get. rewrite lookup_insert_eq. simpl.
    rewrite Hused. by case_bool_decide. }
  split_and!; [done|done|done|].
  intros cfg chat_id override dk' out ev r Hrun Hin Hev.
  rewrite <- Huse. by eapply run_trace_rubric.
Qed.

(** ** Worked examples *)

(** The frequencies of the schedule commands. *)
Example frequency_mon_fri :
  trigger_days <$> schedule_frequency {[ "frequency" := VStr "mon, FRI" ]}
  = Ok (Some "0,4").
Proof. vm_compute. reflexivity. Qed.

Example frequency_without_codes :
  trigger_days <$> schedule_frequency {[ "frequency" := VStr "xx,yy" ]}
  = Ok (Some "0,2,4").
Proof. vm_compute. reflexivity. Qed.

(** A post on Lisbon: generation succeeds, the photo goes out by URL, VK
    is not configured. *)
Example run_lisbon :
  ∃ out,
    run_generate_and_publish
      {| TELEGRAM_BOT_TOKEN := Some "token"; TELEGRAM_CHAT_ID := None;
         OPENAI_API_KEY := Some "key"; TIMEZONE := "Europe/Lisbon";
         VK_API_KEY := None; VK_GROUP_ID := None |}
      sample_oracle 7 (sample_settings true "09:30" "daily") None sample_disk = Ok out
    ∧ run_result out
      = {| ok := true; tg_message_id := Some 501; vk_post_id := None; error := None |}
    ∧ run_trace out
      = [GenerateText (VStr "TIPS") "Lisbon" VNone (VStr "FRIENDLY") VNone (VList []);
         GenerateImages "tram 28 at dusk";
         SendPhotoUrl "https://img.example/1.png" "Seven hills, one tram."]
    ∧ load_post_log (post_log_file (run_disk out))
      = [{| log_datetime_iso := "2026-11-02T08:30:00Z";
            log_chat_id := Some 7; log_tg_message_id := Some 501;
            log_rubric := VStr "TIPS"; log_destination := "Lisbon";
            log_tone := VStr "FRIENDLY"; log_vk_post_id := None;
            log_replies_count := Some 0 |}].
Proof. eexists. split; [vm_compute; reflexivity|]. split_and!; reflexivity. Qed.

(** A Monday run after a TIPS run: the table says TIPS again, the job
    switches to FOOD, saves it, and generates with it. *)
Example scheduled_monday_after_tips :
  ∃ dk tr,
    scheduled_job_standalone (λ _, "") sample_config sample_oracle
      (DEFAULT_SETTINGS sample_config)
      {| settings_file := Holds (VDict {[
           "target_chat_id" := VInt 7;
           "destination" := VStr "Lisbon";
           "crosspost_vk" := VBool false;
           "last_used" := VDict {[ "rubric" := VStr "TIPS"; "date" := VStr "2026-10-30" ]} ]});
         post_log_file := Absent |}
    = Ok (dk, tr)
    ∧ head tr = Some (GenerateText (VStr "FOOD") "Lisbon" VNone (VStr "FRIENDLY") VNone (VList []))
    ∧ (s ← match settings_file dk with Holds (VDict s) => Some s | _ => None end;
       s !! "rubric") = Some (VStr "FOOD").
Proof. eexists _, _. split; [vm_compute; reflexivity|]. split; reflexivity. Qed.

(** * Further properties of the code *)

(** ** Post log: appending, counting, listing *)

Section LogUse.

Implicit Types (chat_id tg_message_id : Z) (e : entry) (log : list entry)
  (f : file (list entry)).

Lemma entry_matches_bump chat_id tg_message_id e :
  entry_matches chat_id tg_message_id (bump e) = entry_matches chat_id tg_message_id e.
Proof. reflexivity. Qed.

Lemma entry_matches_set_replies chat_id tg_message_id (n : Z) e :
  entry_matches chat_id tg_message_id (set_replies_count n e)
  = entry_matches chat_id tg_message_id e.
Proof. reflexivity. Qed.

(** The most recent match, by position. *)
Lemma increment_at chat_id tg_message_id log (i : nat) e :
  log !! i = Some e →
  entry_matches chat_id tg_message_id e = true →
  (∀ j x, (i < j)%nat → log !! j = Some x →
     entry_matches chat_id tg_message_id x = false) →
  increment_replies_for_message chat_id tg_message_id (Holds log)
  = Holds (<[i := bump e]> log).
Proof.
  intros Hi He Hlater.
  pose proof (take_drop_middle log i e Hi) as Hsplit.
  rewrite (increment_hit chat_id tg_message_id (Holds log)
             (take i log) e (drop (S i) log)); [|done|done|].
  - f_equal.
    assert (Hlen : length (take i log) = i).
    { apply length_take_le. apply lookup_lt_Some in Hi. lia. }
    transitivity (<[(length (take i log) + 0)%nat := bump e]>
                    (take i log ++ e :: drop (S i) log)).
    + by rewrite insert_app_r.
    + by rewrite Hsplit, Hlen, Nat.add_0_r.
  - apply Forall_forall. intros x Hx.
    apply list_elem_of_lookup in Hx as [k Hk]. rewrite lookup_drop in Hk.
    eapply (Hlater (S i + k)%nat); [lia|done].
Qed.

Lemma increment_cases chat_id tg_message_id f :
  (increment_replies_for_message chat_id tg_message_id f = f
   ∧ Forall (λ e, entry_matches chat_id tg_message_id e = false) (load_post_log f))
  ∨ ∃ (i : nat) e,
      load_post_log f !! i = Some e
      ∧ entry_matches chat_id tg_message_id e = true
      ∧ (∀ j x, (i < j)%nat → load_post_log f !! j = Some x →
           entry_matches chat_id tg_message_id x = false)
      ∧ increment_replies_for_message chat_id tg_message_id f
        = Holds (<[i := bump e]> (load_post_log f)).
Proof.
  destruct (decide (Exists (λ e, entry_matches chat_id tg_message_id e = true)
                      (load_post_log f))) as [Hex|Hno].
  - right. destruct (last_match _ _ _ Hex) as (older & e & newer & Hlog & He & Hnew).
    assert (Hi : load_post_log f !! length older = Some e).
    { by rewrite Hlog, list_lookup_middle. }
    assert (Hlater : ∀ j x, (length older < j)%nat → load_post_log f !! j = Some x →
                       entry_matches chat_id tg_message_id x = false).
    { intros j x Hj Hx. rewrite Hlog, lookup_app_r in Hx by lia.
      destruct (j - length older)%nat as [|k] eqn:Hk; [lia|]. simpl in Hx.
      eapply Forall_forall in Hnew; [done|]. by eapply list_elem_of_lookup_2. }
    exists (length older), e. split_and!; [done..|].
    destruct f as [| |log]; [by simpl in Hi; rewrite lookup_nil in Hi..|].
    by apply increment_at.
  - left. assert (Hall : Forall (λ e, entry_matches chat_id tg_message_id e = false)
                           (load_post_log f)).
    { apply Forall_forall. intros x Hx.
      destruct (entry_matches chat_id tg_message_id x) eqn:E; [|done].
      exfalso. apply Hno, Exists_exists. eauto. }
    split; [by apply increment_miss|done].
Qed.

Lemma total_replies_app log1 log2 :
  total_replies (log1 ++ log2) = total_replies log1 + total_replies log2.
Proof. induction log1 as [|e log1 IH]; simpl; [done|]. rewrite IH. lia. Qed.

Lemma rev_is_reverse {A} (l : list A) : rev l = reverse l.
Proof. induction l as [|x l IH]; [done|]. simpl. by rewrite reverse_cons, IH. Qed.

End LogUse.

(** X1. A reply to a post that was just logged is counted on that post:
    after [append_log] for a chat and message id, the tracker called with
    the same ids sets the new entry's count to 1 and leaves every earlier
    entry, also an older one with the same ids, as it was. *)
Theorem reply_to_fresh_post (utcnow_iso : string) (chat_id tg_message_id : Z)
    (rubric : value) (destination : string) (tone : value)
    (vk_post_id : option string) (f : file (list entry)) :
  increment_replies_for_message chat_id tg_message_id
    (append_log utcnow_iso chat_id tg_message_id rubric destination tone vk_post_id f)
  = Holds (load_post_log f ++ [
      {| log_datetime_iso := utcnow_iso +:+ "Z";
         log_chat_id := Some chat_id;
         log_tg_message_id := Some tg_message_id;
         log_rubric := rubric;
         log_destination := destination;
         log_tone := tone;
         log_vk_post_id := vk_post_id;
         log_replies_count := Some 1 |}]).
Proof.
  unfold append_log, save_post_log.
  apply (increment_hit chat_id tg_message_id _ (load_post_log f)
           {| log_datetime_iso := utcnow_iso +:+ "Z";
              log_chat_id := Some chat_id;
              log_tg_message_id := Some tg_message_id;
              log_rubric := rubric;
              log_destination := destination;
              log_tone := tone;
              log_vk_post_id := vk_post_id;
              log_replies_count := Some 0 |} []).
  - done.
  - unfold entry_matches. simpl. by rewrite !bool_decide_eq_true_2.
  - done.
Qed.

(** X2. Replies add up: [n] calls of the tracker for the same ids raise
    the count of the most recent matching entry by [n] (from 0 when the
    entry had none) and change nothing else in the log. *)
Theorem replies_accumulate (chat_id tg_message_id : Z) (older newer : list entry)
    (e : entry) (n : nat) :
  entry_matches chat_id tg_message_id e = true →
  Forall (λ x, entry_matches chat_id tg_message_id x = false) newer →
  Nat.iter (S n) (increment_replies_for_message chat_id tg_message_id)
    (Holds (older ++ e :: newer))
  = Holds (older ++ set_replies_count (default 0 (log_replies_count e) + Z.of_nat (S n)) e
                 :: newer).
Proof.
  intros He Hnew. induction n as [|n IH].
  - simpl. by rewrite (increment_hit chat_id tg_message_id _ older e newer).
  - rewrite Nat.iter_succ, IH.
    rewrite (increment_hit chat_id tg_message_id _ older
               (set_replies_count (default 0 (log_replies_count e) + Z.of_nat (S n)) e)
               newer); [|done|by rewrite entry_matches_set_replies|done].
    do 2 f_equal.
    change (bump (set_replies_count ?k e)) with (set_replies_count (k + 1) e).
    f_equal. apply (f_equal (λ k, set_replies_count k e)). lia.
Qed.

Lemma replies_accumulate_witness :
  Nat.iter 3 (increment_replies_for_message 7 42)
    (Holds [sample_entry 7 42 (Some 3); sample_entry 7 42 None; sample_entry 7 43 (Some 5)])
  = Holds [sample_entry 7 42 (Some 3); sample_entry 7 42 (Some 3); sample_entry 7 43 (Some 5)].
Proof.
  apply (replies_accumulate 7 42 [sample_entry 7 42 (Some 3)] [sample_entry 7 43 (Some 5)]
           (sample_entry 7 42 None) 2).
  - reflexivity.
  - repeat constructor.
Defined.

(** X3. Replies to posts can be counted in either order: two calls of the
    tracker, for the same or for different ids, give the same log whichever
    comes first. *)
Theorem replies_commute (chat1 msg1 chat2 msg2 : Z) (f : file (list entry)) :
  increment_replies_for_message chat1 msg1 (increment_replies_for_message chat2 msg2 f)
  = increment_replies_for_message chat2 msg2 (increment_replies_for_message chat1 msg1 f).
Proof.
  destruct (decide (chat1 = chat2 ∧ msg1 = msg2)) as [[-> ->]|Hne]; [done|].
  assert (Hexcl : ∀ e, entry_matches chat1 msg1 e = true →
                       entry_matches chat2 msg2 e = true → False).
  { unfold entry_matches. intros e [H1 H2]%andb_prop [H3 H4]%andb_prop.
    apply bool_decide_eq_true in H1, H2, H3, H4.
    apply Hne. split; congruence. }
  destruct (increment_cases chat1 msg1 f) as [[Hf1 Hno1] | (i1 & e1 & Hi1 & He1 & Hl1 & Hf1)],
           (increment_cases chat2 msg2 f) as [[Hf2 Hno2] | (i2 & e2 & Hi2 & He2 & Hl2 & Hf2)].
  - by rewrite Hf2, Hf1, Hf2.
  - rewrite Hf1, Hf2. apply increment_miss. simpl.
    apply Forall_insert; [done|]. rewrite entry_matches_bump.
    eapply Forall_forall in Hno1; [done|]. by eapply list_elem_of_lookup_2.
  - rewrite Hf2, Hf1. symmetry. apply increment_miss. simpl.
    apply Forall_insert; [done|]. rewrite entry_matches_bump.
    eapply Forall_forall in Hno2; [done|]. by eapply list_elem_of_lookup_2.
  - assert (Hi : i1 ≠ i2).
    { intros ->. rewrite Hi1 in Hi2. injection Hi2 as ->. by eapply Hexcl. }
    rewrite Hf1, Hf2.
    rewrite (increment_at chat1 msg1 _ i1 e1), (increment_at chat2 msg2 _ i2 e2).
    + f_equal. by apply list_insert_insert_ne.
    + by rewrite list_lookup_insert_ne.
    + done.
    + intros j x Hj Hx. destruct (decide (j = i1)) as [->|Hj1].
      * rewrite list_lookup_insert_eq in Hx by (by eapply lookup_lt_Some).
        injection Hx as <-. rewrite entry_matches_bump.
        destruct (entry_matches chat2 msg2 e1) eqn:E; [|done]. by destruct (Hexcl e1).
      * rewrite list_lookup_insert_ne in Hx by done. by eapply Hl2.
    + by rewrite list_lookup_insert_ne.
    + done.
    + intros j x Hj Hx. destruct (decide (j = i2)) as [->|Hj2].
      * rewrite list_lookup_insert_eq in Hx by (by eapply lookup_lt_Some).
        injection Hx as <-. rewrite entry_matches_bump.
        destruct (entry_matches chat1 msg1 e2) eqn:E; [|done]. by destruct (Hexcl e2).
      * rewrite list_lookup_insert_ne in Hx by done. by eapply Hl1.
Qed.

(** The totals before and after one call of the tracker. *)
Lemma increment_totals (chat_id tg_message_id : Z) (f : file (list entry)) :
  let log := load_post_log f in
  let log' := load_post_log (increment_replies_for_message chat_id tg_message_id f) in
  total_posts log' = total_posts log
  ∧ total_replies log'
    = total_replies log
      + (if existsb (entry_matches chat_id tg_message_id) log then 1 else 0).
Proof.
  intros log log'. unfold log', log.
  destruct (decide (Exists (λ e, entry_matches chat_id tg_message_id e = true)
                      (load_post_log f))) as [Hex|Hno].
  - assert (existsb (entry_matches chat_id tg_message_id) (load_post_log f) = true) as ->.
    { apply existsb_exists. apply Exists_exists in Hex as (x & Hx & ?).
      exists x. by rewrite <- list_elem_of_In. }
    destruct (last_match _ _ _ Hex) as (older & e & newer & Hlog & He & Hnew).
    rewrite (increment_hit _ _ _ _ _ _ Hlog He Hnew), Hlog. simpl. unfold total_posts.
    rewrite !length_app, !total_replies_app. simpl. split; [done|]. lia.
  - assert (existsb (entry_matches chat_id tg_message_id) (load_post_log f) = false) as ->.
    { apply not_true_is_false. intros (x & Hx & ?)%existsb_exists.
      apply Hno, Exists_exists. exists x. by rewrite list_elem_of_In. }
    rewrite increment_miss; [split; [done|lia]|].
    apply Forall_forall. intros x Hx.
    destruct (entry_matches chat_id tg_message_id x) eqn:E; [|done].
    exfalso. apply Hno, Exists_exists. eauto.
Qed.

(** X4. The totals of the analytics follow the tracker: a call that finds
    a matching entry raises the total of replies by exactly one, a call
    that finds none leaves it; the number of posts never changes. *)
Theorem counted_reply_raises_total (chat_id tg_message_id : Z) (f : file (list entry)) :
  let log := load_post_log f in
  let log' := load_post_log (increment_replies_for_message chat_id tg_message_id f) in
  total_posts log' = total_posts log
  ∧ total_replies log'
    = total_replies log
      + (if existsb (entry_matches chat_id tg_message_id) log then 1 else 0).
Proof. apply increment_totals. Qed.

(** X5. The window that [/stats] and [/analytics] list holds the last ten
    entries of the log, or all of them when there are fewer, the newest
    first. *)
Theorem last_10_newest_first (log : list entry) :
  length (last_10 log) = (length log `min` 10)%nat
  ∧ ∀ i : nat, (i < length log `min` 10)%nat →
      last_10 log !! i = log !! (length log - S i)%nat.
Proof.
  assert (Hdrop : last_10 log = reverse (drop (length log - 10) log)).
  { unfold last_10. rewrite rev_is_reverse. f_equal.
    destruct (10 <=? length log)%nat eqn:Hlen; [done|].
    apply Nat.leb_gt in Hlen. by replace (length log - 10)%nat with 0%nat by lia. }
  rewrite Hdrop. split.
  - rewrite length_reverse, length_drop. lia.
  - intros i Hi. rewrite reverse_lookup by (rewrite length_drop; lia).
    rewrite lookup_drop, length_drop. f_equal. lia.
Qed.

Lemma last_10_newest_first_witness :
  last_10 [sample_entry 7 1 None; sample_entry 7 2 None; sample_entry 7 3 None] !! 0%nat
  = Some (sample_entry 7 3 None).
Proof.
  apply (proj2 (last_10_newest_first
    [sample_entry 7 1 None; sample_entry 7 2 None; sample_entry 7 3 None]) 0%nat).
  simpl. lia.
Defined.

(** X6. Whatever the update, the reply handler keeps the log's length and
    every field of every entry but the reply count, raises the total of
    replies by one at most, and leaves the log file alone when the answered
    message was sent by a bot other than this one. *)
Theorem handle_reply_effect (bot_id : Z) (u : update) (f : file (list entry)) :
  let log := load_post_log f in
  let log' := load_post_log (handle_reply bot_id u f) in
  Forall2 same_post log log'
  ∧ (total_replies log' = total_replies log ∨ total_replies log' = total_replies log + 1)
  ∧ (∀ r sender,
       update_message u = Some (Some r) →
       replied_from_user r = Some sender →
       user_is_bot sender = true → user_id sender ≠ bot_id →
       handle_reply bot_id u f = f).
Proof.
  intros log log'.
  assert (Hsame : ∀ l, Forall2 same_post l l).
  { intros l. apply Forall_Forall2_diag, Forall_forall. by intros. }
  assert (Hinc : ∀ c m,
    Forall2 same_post log (load_post_log (increment_replies_for_message c m f))
    ∧ (total_replies (load_post_log (increment_replies_for_message c m f))
       = total_replies log
       ∨ total_replies (load_post_log (increment_replies_for_message c m f))
         = total_replies log + 1)).
  { intros c m. split.
    - destruct (increment_cases c m f) as [[-> _] | (i & e & Hi & _ & _ & ->)];
        [apply Hsame|]. simpl.
      apply Forall2_same_length_lookup. split; [by rewrite length_insert|].
      intros j x y Hx Hy. destruct (decide (j = i)) as [->|Hj].
      + rewrite list_lookup_insert_eq in Hy by (by eapply lookup_lt_Some).
        unfold log in Hx. rewrite Hi in Hx. by injection Hx as <-; injection Hy as <-.
      + rewrite list_lookup_insert_ne in Hy by done.
        unfold log in Hx. rewrite Hx in Hy. by injection Hy as <-.
    - destruct (increment_totals c m f) as [_ ->].
      destruct (existsb _ _); [right|left]; unfold log; lia. }
  assert (Hid : Forall2 same_post log (load_post_log f)
                ∧ (total_replies (load_post_log f) = total_replies log
                   ∨ total_replies (load_post_log f) = total_replies log + 1)).
  { split; [apply Hsame|by left]. }
  split_and!.
  - unfold log', handle_reply.
    destruct (update_message u) as [[r|]|]; [|apply Hid..].
    destruct (update_effective_chat u) as [c|], (replied_message_id r) as [m|];
      [|apply Hid..].
    destruct (replied_from_user r) as [sender|]; [|apply Hinc].
    destruct (_ && _); [apply Hid|apply Hinc].
  - unfold log', handle_reply.
    destruct (update_message u) as [[r|]|]; [|apply Hid..].
    destruct (update_effective_chat u) as [c|], (replied_message_id r) as [m|];
      [|apply Hid..].
    destruct (replied_from_user r) as [sender|]; [|apply Hinc].
    destruct (_ && _); [apply Hid|apply Hinc].
  - intros r sender Hm Hs Hbot Hother. unfold handle_reply. rewrite Hm.
    destruct (update_effective_chat u), (replied_message_id r); try done.
    rewrite Hs, Hbot. simpl.
    by rewrite (proj2 (Z.eqb_neq _ _) Hother).
Qed.

Lemma handle_reply_effect_witness :
  handle_reply 1000
    {| update_message := Some (Some {| replied_message_id := Some 42;
         replied_from_user := Some {| user_is_bot := true; user_id := 2000 |} |});
       update_effective_chat := Some 7 |}
    (Holds [sample_entry 7 42 (Some 3)])
  = Holds [sample_entry 7 42 (Some 3)].
Proof.
  eapply (proj2 (proj2 (handle_reply_effect 1000 _ _))); [reflexivity..|discriminate].
Defined.

(** ** Settings store: what a load can return *)

Section SettingsEdges.

Implicit Types (data : value) (defaults : dict).

(** On a value that is not a dict the loop can only leave the value as
    it is, which takes every key to be "in" it, or raise. *)
Lemma backfill_not_dict (items : list (string * value)) data :
  (∀ d, data ≠ VDict d) →
  (backfill items data = Ok data
   ∧ Forall (λ kv, py_contains data kv.1 = Ok true) items)
  ∨ ∃ e, backfill items data = Raise e.
Proof.
  intros Hnd. induction items as [|[k v] items IH]; [by left|].
  cbn [backfill]. unfold backfill_step. cbn [fst snd].
  destruct (py_contains data k) as [[|]|e] eqn:Hk; cbn [mbind result_bind].
  - destruct IH as [[-> Hall]|[e He]]; [left|right; by exists e].
    split; [done|]. by constructor.
  - right. destruct data; try by eexists. by destruct (Hnd d).
  - right. by exists e.
Qed.

Lemma union_defaults_id (d defaults : dict) :
  (∀ k, is_Some (defaults !! k) → is_Some (d !! k)) → d ∪ defaults = d.
Proof.
  intros Hall. apply map_eq. intros k. rewrite lookup_union.
  destruct (d !! k) eqn:Hd, (defaults !! k) eqn:Hk; simpl; try done.
  destruct (Hall k) as [w Hw]; [by rewrite Hk|]. congruence.
Qed.

End SettingsEdges.

(** The forms a load can take. *)
Lemma load_settings_forms (defaults : dict) (f : file value) :
  ((∃ d : dict, load_settings defaults f = VDict d
      ∧ ∀ k, is_Some (defaults !! k) → is_Some (d !! k))
   ∨ (∃ data, f = Holds data
        ∧ ((∃ l, data = VList l) ∨ (∃ s, data = VStr s) ∨ defaults = ∅)
        ∧ load_settings defaults f = data
        ∧ ∀ k, is_Some (defaults !! k) → py_contains data k = Ok true))
  ∧ load_settings defaults Absent = VDict defaults
  ∧ load_settings defaults Garbled = VDict defaults
  ∧ (defaults ≠ ∅ →
     load_settings defaults (Holds VNone) = VDict defaults
     ∧ (∀ b, load_settings defaults (Holds (VBool b)) = VDict defaults)
     ∧ (∀ n, load_settings defaults (Holds (VInt n)) = VDict defaults)).
Proof.
  assert (Hscalar : defaults ≠ ∅ → ∀ data,
            (∀ k, py_contains data k = Raise TypeError) →
            (∀ d, data ≠ VDict d) →
            load_settings defaults (Holds data) = VDict defaults).
  { intros Hne data Hraise Hnd. unfold load_settings.
    destruct (backfill_not_dict (map_to_list defaults) data Hnd) as [[_ Hall]|[e ->]];
      [|done].
    destruct (map_to_list defaults) as [|[k v] items] eqn:Hitems.
    - by apply map_to_list_empty_iff in Hitems.
    - apply Forall_cons in Hall as [Hk _]. simpl in Hk. by rewrite Hraise in Hk. }
  split_and!; [|done|done|].
  - destruct f as [| |data].
    + left. by exists defaults.
    + left. by exists defaults.
    + assert (Hcase : (∃ d, data = VDict d) ∨ (∀ d, data ≠ VDict d)).
      { destruct data; eauto; right; intros; discriminate. }
      destruct Hcase as [[d ->]|Hnd'].
      * left. exists (d ∪ defaults). split; [apply load_settings_union|].
        intros k [v Hv]. rewrite lookup_union, Hv. by destruct (d !! k).
      * unfold load_settings.
        destruct (backfill_not_dict (map_to_list defaults) data Hnd')
          as [[-> Hall]|[e ->]]; [|left; by exists defaults].
        right. exists data. split_and!; [done| |done|].
        -- destruct data; try (by eauto); try (by destruct (Hnd' d)).
           ++ right. right. destruct (map_to_list defaults) as [|[k v] items] eqn:Hitems;
                [by apply map_to_list_empty_iff|].
              by apply Forall_cons in Hall as [Hk _].
           ++ right. right. destruct (map_to_list defaults) as [|[k v] items] eqn:Hitems;
                [by apply map_to_list_empty_iff|].
              by apply Forall_cons in Hall as [Hk _].
           ++ right. right. destruct (map_to_list defaults) as [|[k v] items] eqn:Hitems;
                [by apply map_to_list_empty_iff|].
              by apply Forall_cons in Hall as [Hk _].
        -- intros k [v Hv]. apply elem_of_map_to_list in Hv.
           eapply Forall_forall in Hall; [|done]. done.
  - intros Hne. split_and!; [|intros b|intros n]; by apply Hscalar.
Qed.

(** X7. A load never fails and returns one of two things: a dict that has
    every key of the defaults (the defaults themselves when the file is
    missing, unreadable, or holds JSON null, a number or a boolean while
    there are defaults), or, for a file that holds a JSON list or string
    in which every default key is found by [in], that list or string as
    it is. *)
Theorem load_settings_shape (defaults : dict) (f : file value) :
  ((∃ d : dict, load_settings defaults f = VDict d
      ∧ ∀ k, is_Some (defaults !! k) → is_Some (d !! k))
   ∨ (∃ data, f = Holds data
        ∧ ((∃ l, data = VList l) ∨ (∃ s, data = VStr s) ∨ defaults = ∅)
        ∧ load_settings defaults f = data
        ∧ ∀ k, is_Some (defaults !! k) → py_contains data k = Ok true))
  ∧ load_settings defaults Absent = VDict defaults
  ∧ load_settings defaults Garbled = VDict defaults
  ∧ (defaults ≠ ∅ →
     load_settings defaults (Holds VNone) = VDict defaults
     ∧ (∀ b, load_settings defaults (Holds (VBool b)) = VDict defaults)
     ∧ (∀ n, load_settings defaults (Holds (VInt n)) = VDict defaults)).
Proof. apply load_settings_forms. Qed.

Lemma load_settings_shape_witness :
  load_settings (DEFAULT_SETTINGS sample_config) (Holds (VInt 5))
  = VDict (DEFAULT_SETTINGS sample_config).
Proof.
  apply (proj2 (proj2 (proj2
    (load_settings_shape (DEFAULT_SETTINGS sample_config) Absent)))).
  intros Hempty. apply (f_equal (lookup "rubric")) in Hempty. discriminate Hempty.
Defined.

(** X8. Saving what was loaded and loading again gives the same settings:
    a load fills the file's gaps once and for all (for one state of the
    defaults). *)
Theorem load_save_load (defaults : dict) (f : file value) :
  load_settings defaults (save_settings (load_settings defaults f))
  = load_settings defaults f.
Proof.
  destruct (proj1 (load_settings_forms defaults f))
    as [(d & Hload & Hkeys) | (data & -> & _ & Hload & _)].
  - rewrite Hload. unfold save_settings.
    by rewrite load_settings_union, union_defaults_id.
  - by rewrite Hload.
Qed.

(** ** Publish pipeline: what a run writes *)

Section Bookkeeping.

Variable cfg : config.

Implicit Types (o : oracle) (d : dict) (dk : disk) (out : outcome).

(** The places where the [try] block can stop, each closed by [stop],
    then the run that reaches the mirror. *)
Ltac through_try_block o target stop :=
  unfold publish_body;
  destruct (generate_travel_post o) as [gen|] eqn:Hgen; [|stop];
  destruct (publisher_init o) eqn:Hinit; [|stop];
  destruct (deliver o (generated_image o) (generated_text gen)) as [tr2 [mid|]] eqn:Hsent;
    [|stop];
  destruct (py_int target) as [chat|] eqn:Hchat; [|stop].

Lemma set_last_vk_post_id_snoc (p : string) (log : list entry) (e : entry) :
  set_last_vk_post_id p (log ++ [e]) = log ++ [set_vk_post_id p e].
Proof.
  unfold set_last_vk_post_id. rewrite rev_app_distr. simpl.
  by rewrite rev_involutive.
Qed.

(** The mirror changes the last entry of the log at most, and only its
    VK post id, to the id the result reports. *)
Lemma crosspost_log o d (post_text : string) (image_url : option string)
    (log : list entry) (e : entry) :
  log_vk_post_id e = None →
  ∃ tr vk,
    crosspost cfg o d post_text image_url (Holds (log ++ [e]))
    = (tr, vk, Holds (log ++ [match vk with Some p => set_vk_post_id p e | None => e end])).
Proof.
  intros He. unfold crosspost.
  destruct (_ && _); [|by eexists _, None].
  destruct (vk_publish_post o) as [[p|]|]; [|by eexists _, None..].
  eexists _, (Some _). cbn [load_post_log save_post_log].
  rewrite set_last_vk_post_id_snoc. by destruct log.
Qed.

(** The [try] block, by its end: a failure writes nothing; a success
    appends one entry and saves the settings with a new [last_used]. *)
Lemma publish_body_writes o d target dest rubric tone season audience constraints dk :
  let out := publish_body cfg o d target dest rubric tone season audience constraints dk in
  (ok (run_result out) = false
   ∧ run_disk out = dk ∧ run_settings out = VDict d)
  ∨ (ok (run_result out) = true
     ∧ run_settings out = VDict (record_last_used o rubric dest d)
     ∧ settings_file (run_disk out) = Holds (VDict (record_last_used o rubric dest d))
     ∧ ∃ chat, py_int target = Ok chat
         ∧ post_log_file (run_disk out)
           = Holds (load_post_log (post_log_file dk)
                    ++ [run_entry o chat (run_result out) rubric dest tone])).
Proof.
  intros out. unfold out.
  through_try_block o target ltac:(by left).
  unfold append_log, save_post_log.
  match goal with |- context [crosspost cfg o d ?t ?i (Holds (?l ++ [?e]))] =>
    destruct (crosspost_log o d t i l e eq_refl) as (tr3 & vk & ->) end.
  right. cbn [run_result run_settings run_disk settings_file post_log_file ok].
  split_and!; [done..|]. exists chat. split; [done|].
  unfold run_entry. cbn [tg_message_id vk_post_id]. by destruct vk.
Qed.

(** A slice [s[:n]] has [n] code points at most. *)
Lemma str_take_length (n : nat) (s : string) : (str_len (str_take n s) ≤ n)%nat.
Proof.
  revert n. induction s as [|c s IH]; intros n; cbn [str_take str_len]; [lia|].
  destruct (is_continuation c) eqn:Hc.
  - cbn [str_len]. rewrite Hc. apply IH.
  - destruct n as [|n]; cbn [str_len]; [lia|]. rewrite Hc. specialize (IH n). lia.
Qed.

Ltac check_limits :=
  cbn [fst snd app];
  repeat first
    [apply Forall_nil_2
    |apply Forall_cons_2;
       [first [exact I | match goal with H : (_ ≤ _)%nat |- _ => exact H end]|]].

Lemma deliver_within_limits o (image_url : option string) (gen : gen_out) :
  Forall within_limits (deliver o image_url (generated_text gen)).1.
Proof.
  assert (Hcap : (str_len (str_take 1024 (generated_text gen)) ≤ 1024)%nat)
    by apply str_take_length.
  assert (Htext : (str_len (generated_text gen) ≤ 4000)%nat)
    by apply str_take_length.
  unfold deliver, send_by_url, send_by_file, send_text.
  destruct (truthy_opt image_url); [|check_limits].
  destruct (send_photo_url o ≫= _); [check_limits|].
  destruct (download_image o).
  - destruct (send_photo_file o ≫= _); check_limits.
  - check_limits.
Qed.

Lemma crosspost_within_limits o d (gen : gen_out) (image_url : option string)
    (f : file (list entry)) :
  Forall within_limits (crosspost cfg o d (generated_text gen) image_url f).1.1.
Proof.
  assert (Htext : (str_len (generated_text gen) ≤ 4000)%nat)
    by apply str_take_length.
  unfold crosspost. destruct (_ && _); [|check_limits].
  destruct (vk_publish_post o) as [[p|]|]; check_limits.
Qed.

Lemma publish_body_within_limits o d target dest rubric tone season audience
    constraints dk :
  Forall within_limits
    (run_trace (publish_body cfg o d target dest rubric tone season audience
                  constraints dk)).
Proof.
  unfold publish_body.
  destruct (generate_travel_post o) as [gen|]; [|check_limits].
  destruct (publisher_init o); [|check_limits].
  pose proof (deliver_within_limits o (generated_image o) gen) as Hd.
  destruct (deliver o _ _) as [tr2 sent]. simpl in Hd.
  assert (Htr : Forall within_limits
            ([GenerateText rubric dest season tone audience
                (match constraints with VList _ => constraints | _ => VList [] end);
              GenerateImages (default "" (out_image_prompt gen))] ++ tr2)).
  { apply Forall_app. split; [check_limits|done]. }
  destruct sent as [mid|]; [|done].
  destruct (py_int target); [|done].
  match goal with |- context [crosspost cfg o d (generated_text gen) ?i ?f] =>
    pose proof (crosspost_within_limits o d gen i f) as Hc;
    destruct (crosspost cfg o d (generated_text gen) i f) as [[tr3 vk] log2] end.
  simpl in Hc. cbn [run_trace]. rewrite app_assoc. apply Forall_app. by split.
Qed.


(** A run on a dict, unfolded: a refusal with no call made, or the [try]
    block on what the settings give. *)
Lemma run_on_dict o (chat_id : Z) d (override : option string) dk out :
  run_generate_and_publish cfg o chat_id (VDict d) override dk = Ok out →
  ((truthy (dict_get d "target_chat_id") = false
    ∨ truthy_opt (OPENAI_API_KEY cfg) = false)
   ∧ (∃ msg, run_result out = refused msg)
   ∧ run_settings out = VDict d ∧ run_disk out = dk ∧ run_trace out = [])
  ∨ (truthy (dict_get d "target_chat_id") = true
     ∧ truthy_opt (OPENAI_API_KEY cfg) = true
     ∧ ∃ dest, py_strip (destination_choice d override) = Ok dest
         ∧ out = publish_body cfg o d (dict_get d "target_chat_id") dest
                   (rubric_in_use d) (py_or (dict_get d "tone") (VStr "FRIENDLY"))
                   (dict_get d "season") (dict_get d "audience")
                   (py_or (dict_get d "constraints") (VList [])) dk).
Proof.
  unfold run_generate_and_publish. cbn [py_get mbind result_bind].
  destruct (truthy (dict_get d "target_chat_id")); cbn [negb].
  2:{ intros [= <-]. left. split_and!; eauto. }
  fold (destination_choice d override).
  destruct (py_strip _) as [dest|] eqn:Hdest; [|done]. cbn [mbind result_bind].
  destruct (truthy_opt (OPENAI_API_KEY cfg)); cbn [negb].
  2:{ intros [= <-]. left. split_and!; eauto. }
  intros [= <-]. right. split_and!; [done..|]. by exists dest.
Qed.

Lemma crosspost_result o d (post_text : string) (image_url : option string)
    (f : file (list entry)) :
  (crosspost cfg o d post_text image_url f).1.2
  = (if crosspost_on cfg d then
       match vk_publish_post o with
       | Ok (Some p) => Some (pretty p)
       | _ => None
       end
     else None)
  ∧ (crosspost_on cfg d = false → (crosspost cfg o d post_text image_url f).1.1 = []).
Proof.
  unfold crosspost, crosspost_on. destruct (_ && _); [|done].
  by destruct (vk_publish_post o) as [[p|]|].
Qed.

Lemma publish_body_vk_id o d target dest rubric tone season audience constraints dk :
  let out := publish_body cfg o d target dest rubric tone season audience constraints dk in
  ok (run_result out) = true →
  vk_post_id (run_result out)
  = (if crosspost_on cfg d then
       match vk_publish_post o with
       | Ok (Some p) => Some (pretty p)
       | _ => None
       end
     else None)
  ∧ (crosspost_on cfg d = false → Forall (λ ev, calls_vk ev = false) (run_trace out)).
Proof.
  intros out. unfold out.
  through_try_block o target ltac:(done).
  match goal with |- context [crosspost cfg o d ?t ?i ?f] =>
    destruct (crosspost_result o d t i f) as [Hvk Hoff];
    destruct (crosspost cfg o d t i f) as [[tr3 vk] log2] end.
  cbn [run_result run_trace vk_post_id ok fst snd] in *. intros _. split; [done|].
  intros Hno. rewrite (Hoff Hno), app_nil_r.
  apply Forall_app. split; [by repeat constructor|].
  assert (Hd : Forall (λ ev, calls_vk ev = false)
                 (deliver o (generated_image o) (generated_text gen)).1).
  { clear. unfold deliver, send_by_url, send_by_file, send_text.
    destruct (truthy_opt (generated_image o)); [|by repeat constructor].
    destruct (send_photo_url o ≫= _); [by repeat constructor|].
    destruct (download_image o).
    - destruct (send_photo_file o ≫= _); by repeat constructor.
    - by repeat constructor. }
  by rewrite Hsent in Hd.
Qed.

(** Every call is made once at most, and in the order of the phases. *)
Lemma publish_body_ascending o d target dest rubric tone season audience constraints dk
    (e : option failure) :
  ascending (phase <$> (run_trace (publish_body cfg o d target dest rubric tone season
                                     audience constraints dk)
                        ++ [SendErrorNotice e])) = true.
Proof.
  unfold publish_body, deliver, send_by_url, send_by_file, send_text, crosspost.
  destruct (generate_travel_post o) as [gen|]; [|done].
  destruct (publisher_init o); [|done].
  destruct (truthy_opt (generated_image o)).
  - destruct (send_photo_url o ≫= _) as [mid|].
    + destruct (py_int target); [|done].
      destruct (_ && _); [|done]. by destruct (vk_publish_post o) as [[p|]|].
    + destruct (download_image o).
      * destruct (send_photo_file o ≫= _) as [mid|].
        -- destruct (py_int target); [|done].
           destruct (_ && _); [|done]. by destruct (vk_publish_post o) as [[p|]|].
        -- destruct (publish_post o ≫= _) as [mid|]; [|done].
           destruct (py_int target); [|done].
           destruct (_ && _); [|done]. by destruct (vk_publish_post o) as [[p|]|].
      * destruct (publish_post o ≫= _) as [mid|]; [|done].
        destruct (py_int target); [|done].
        destruct (_ && _); [|done]. by destruct (vk_publish_post o) as [[p|]|].
  - destruct (publish_post o ≫= _) as [mid|]; [|done].
    destruct (py_int target); [|done].
    destruct (_ && _); [|done]. by destruct (vk_publish_post o) as [[p|]|].
Qed.

Lemma ascending_app_l (ps qs : list nat) :
  ascending (ps ++ qs) = true → ascending ps = true.
Proof.
  induction ps as [|a [|b ps] IH]; [done..|].
  cbn [app ascending]. intros [Hab Hrest]%andb_prop.
  rewrite Hab. by apply IH.
Qed.

End Bookkeeping.

(** X9. A run of [run_generate_and_publish] that reports [ok = false]
    leaves the settings and both files exactly as it found them; and when
    the settings name no target chat, or the OpenAI key is not set, the run
    fails without a single call to a generator, Telegram or VK. *)
Theorem failed_run_changes_nothing (cfg : config) (o : oracle) (chat_id : Z)
    (settings : value) (override : option string) (dk : disk) (out : outcome) :
  run_generate_and_publish cfg o chat_id settings override dk = Ok out →
  (ok (run_result out) = false → run_disk out = dk ∧ run_settings out = settings)
  ∧ (∀ d, settings = VDict d →
       truthy (dict_get d "target_chat_id") = false
       ∨ truthy_opt (OPENAI_API_KEY cfg) = false →
       ok (run_result out) = false ∧ run_trace out = []).
Proof.
  intros Hrun. destruct settings as [| | | | |d]; try done.
  destruct (run_on_dict cfg o chat_id d override dk out Hrun)
    as [(Hwhy & [msg Hres] & Hset & Hdk & Htr)
       |(Htarget & Hkey & dest & Hdest & ->)].
  - split; [done|]. intros d' [= <-] _. by rewrite Hres.
  - split.
    + intros Hok.
      destruct (publish_body_writes cfg o d (dict_get d "target_chat_id") dest
                  (rubric_in_use d) (py_or (dict_get d "tone") (VStr "FRIENDLY"))
                  (dict_get d "season") (dict_get d "audience")
                  (py_or (dict_get d "constraints") (VList [])) dk)
        as [(_ & ? & ?)|(Hyes & _)]; [done|congruence].
    + intros d' [= <-] [Hno|Hno]; congruence.
Qed.

Lemma failed_run_changes_nothing_witness :
  ∃ out,
    run_generate_and_publish sample_config
      (with_images (Ok [])
         (with_publish_post (Raise (Exception "chat not found")) sample_oracle)) 77
      (sample_settings true "09:30" "daily") None sample_disk = Ok out
    ∧ run_disk out = sample_disk
    ∧ run_settings out = sample_settings true "09:30" "daily".
Proof.
  eexists. split; [reflexivity|].
  exact (proj1 (failed_run_changes_nothing sample_config
                  (with_images (Ok [])
                     (with_publish_post (Raise (Exception "chat not found")) sample_oracle))
                  77 (sample_settings true "09:30" "daily") None sample_disk _ eq_refl)
               eq_refl).
Defined.

(** X10. What a successful run of [run_generate_and_publish] writes: one
    entry at the end of the post log, under the target chat of the settings
    (the [chat_id] argument is not used), with the rubric, destination and
    tone the run worked with and no replies yet; and the settings, saved to
    the settings file with [last_used] set to this rubric, destination and
    today's date, every other key as it was. *)
Theorem successful_run_bookkeeping (cfg : config) (o : oracle) (chat_id : Z)
    (d : dict) (override : option string) (dk : disk) (out : outcome) :
  run_generate_and_publish cfg o chat_id (VDict d) override dk = Ok out →
  ok (run_result out) = true →
  ∃ chat dest saved,
    py_int (dict_get d "target_chat_id") = Ok chat
    ∧ py_strip (destination_choice d override) = Ok dest
    ∧ run_settings out = VDict saved
    ∧ settings_file (run_disk out) = Holds (VDict saved)
    ∧ saved !! "last_used"
      = Some (VDict (list_to_map [
          ("rubric", rubric_in_use d); ("destination", VStr dest);
          ("date", VStr (strftime_Ymd (now o)))]))
    ∧ (∀ k, k ≠ "last_used" → saved !! k = d !! k)
    ∧ post_log_file (run_disk out)
      = Holds (load_post_log (post_log_file dk)
               ++ [run_entry o chat (run_result out) (rubric_in_use d) dest
                     (py_or (dict_get d "tone") (VStr "FRIENDLY"))]).
Proof.
  intros Hrun Hok.
  destruct (run_on_dict cfg o chat_id d override dk out Hrun)
    as [(_ & [msg Hres] & _)|(Htarget & Hkey & dest & Hdest & ->)].
  { by rewrite Hres in Hok. }
  destruct (publish_body_writes cfg o d (dict_get d "target_chat_id") dest
              (rubric_in_use d) (py_or (dict_get d "tone") (VStr "FRIENDLY"))
              (dict_get d "season") (dict_get d "audience")
              (py_or (dict_get d "constraints") (VList [])) dk)
    as [(Hno & _)|(_ & Hset & Hfile & chat & Hchat & Hlog)]; [congruence|].
  exists chat, dest, (record_last_used o (rubric_in_use d) dest d).
  split_and!; try done.
  - unfold record_last_used. by rewrite lookup_insert_eq.
  - intros k Hk. unfold record_last_used. by rewrite lookup_insert_ne.
Qed.

Lemma successful_run_bookkeeping_witness :
  ∃ out e,
    run_generate_and_publish sample_config sample_oracle 77
      (sample_settings true "09:30" "daily") None sample_disk = Ok out
    ∧ post_log_file (run_disk out) = Holds [e]
    ∧ log_chat_id e = Some 7 ∧ log_destination e = "Lisbon".
Proof.
  assert (Hrun : ∃ out,
            run_generate_and_publish sample_config sample_oracle 77
              (sample_settings true "09:30" "daily") None sample_disk = Ok out
            ∧ ok (run_result out) = true)
    by (eexists; split; reflexivity).
  destruct Hrun as (out & Hrun & Hok).
  destruct (successful_run_bookkeeping sample_config sample_oracle 77 _ None
              sample_disk out Hrun Hok)
    as (chat & dest & saved & Hchat & Hdest & _ & _ & _ & _ & Hlog).
  vm_compute in Hchat. injection Hchat as <-.
  vm_compute in Hdest. injection Hdest as <-.
  exists out. eexists. split; [exact Hrun|]. split; [exact Hlog|]. by split.
Defined.

(** X11. The VK post id of a successful run: it is the id VK answered with
    when the mirror is switched on in the settings and both VK credentials
    are set, and absent otherwise (also when VK fails or answers without an
    id); the last entry of the post log carries the same id; and with the
    mirror off, or a credential missing, VK is not called at all. *)
Theorem vk_post_id_recorded (cfg : config) (o : oracle) (chat_id : Z)
    (d : dict) (override : option string) (dk : disk) (out : outcome) :
  run_generate_and_publish cfg o chat_id (VDict d) override dk = Ok out →
  ok (run_result out) = true →
  vk_post_id (run_result out)
  = (if crosspost_on cfg d then
       match vk_publish_post o with
       | Ok (Some p) => Some (pretty p)
       | _ => None
       end
     else None)
  ∧ (∃ log e, post_log_file (run_disk out) = Holds (log ++ [e])
       ∧ log_vk_post_id e = vk_post_id (run_result out))
  ∧ (crosspost_on cfg d = false → Forall (λ ev, calls_vk ev = false) (run_trace out)).
Proof.
  intros Hrun Hok.
  destruct (run_on_dict cfg o chat_id d override dk out Hrun)
    as [(_ & [msg Hres] & _)|(Htarget & Hkey & dest & Hdest & ->)].
  { by rewrite Hres in Hok. }
  destruct (publish_body_vk_id cfg o d (dict_get d "target_chat_id") dest
              (rubric_in_use d) (py_or (dict_get d "tone") (VStr "FRIENDLY"))
              (dict_get d "season") (dict_get d "audience")
              (py_or (dict_get d "constraints") (VList [])) dk Hok) as [Hvk Hoff].
  destruct (publish_body_writes cfg o d (dict_get d "target_chat_id") dest
              (rubric_in_use d) (py_or (dict_get d "tone") (VStr "FRIENDLY"))
              (dict_get d "season") (dict_get d "audience")
              (py_or (dict_get d "constraints") (VList [])) dk)
    as [(Hno & _)|(_ & _ & _ & chat & _ & Hlog)]; [congruence|].
  split_and!; [done| |done].
  eexists _, _. split; [exact Hlog|done].
Qed.

Lemma vk_post_id_recorded_witness :
  ∃ out,
    run_generate_and_publish sample_config sample_oracle 77
      (VDict {[ "target_chat_id" := VInt 7; "crosspost_vk" := VBool true ]})
      None sample_disk = Ok out
    ∧ vk_post_id (run_result out) = Some "77".
Proof.
  eexists. split; [reflexivity|].
  exact (proj1 (vk_post_id_recorded sample_config sample_oracle 77
                  {[ "target_chat_id" := VInt 7; "crosspost_vk" := VBool true ]}
                  None sample_disk _ eq_refl eq_refl)).
Defined.

(** X12. Whatever the generator returns, no run of
    [run_generate_and_publish] sends Telegram a caption longer than 1024
    characters, or Telegram or VK a text longer than 4000; characters are
    code points, as Python counts them, so the bound holds for Cyrillic
    text as for ASCII. *)
Theorem texts_within_limits (cfg : config) (o : oracle) (chat_id : Z)
    (settings : value) (override : option string) (dk : disk) (out : outcome) :
  run_generate_and_publish cfg o chat_id settings override dk = Ok out →
  Forall within_limits (run_trace out).
Proof.
  intros Hrun.
  destruct (run_cases cfg o chat_id settings override dk out Hrun)
    as [(msg & -> & _)|(d & target & dest & rubric & tone & season & audience
                        & constraints & -> & _)].
  - apply Forall_nil_2.
  - apply publish_body_within_limits.
Qed.

Lemma texts_within_limits_witness :
  let o := with_text (str_repeat 4100 "я") sample_oracle in
  ∃ out,
    run_generate_and_publish sample_config o 77 (VDict mirrored_settings) None sample_disk
    = Ok out
    ∧ run_trace out
      = [GenerateText (VStr "TIPS") "Lisbon" VNone (VStr "FRIENDLY") VNone (VList []);
         GenerateImages "";
         SendPhotoUrl "https://img.example/1.png" (str_repeat 1024 "я");
         VkPublish (str_repeat 4000 "я") (Some "https://img.example/1.png")]
    ∧ Forall within_limits (run_trace out).
Proof.
  intros o.
  assert (Hrun : ∃ out,
            run_generate_and_publish sample_config o 77 (VDict mirrored_settings) None
              sample_disk = Ok out
            ∧ run_trace out
              = [GenerateText (VStr "TIPS") "Lisbon" VNone (VStr "FRIENDLY") VNone
                   (VList []);
                 GenerateImages "";
                 SendPhotoUrl "https://img.example/1.png" (str_repeat 1024 "я");
                 VkPublish (str_repeat 4000 "я") (Some "https://img.example/1.png")])
    by (eexists; split; vm_compute; reflexivity).
  destruct Hrun as (out & Hrun & Htrace).
  exists out. split_and!; [exact Hrun|exact Htrace|].
  exact (texts_within_limits sample_config o 77 (VDict mirrored_settings) None
           sample_disk out Hrun).
Defined.

(** X13. [run_generate_and_publish] returns a result, rather than raising,
    exactly when the settings are a dict and either no target chat is set
    or the destination it settles on (the override, else the settings'
    destination, else the default) is a string: exceptions of the
    generators, of Telegram and of VK never escape it. *)
Theorem run_returns_iff (cfg : config) (o : oracle) (chat_id : Z)
    (settings : value) (override : option string) (dk : disk) :
  (∃ out, run_generate_and_publish cfg o chat_id settings override dk = Ok out)
  ↔ ∃ d, settings = VDict d
      ∧ (truthy (dict_get d "target_chat_id") = false
         ∨ ∃ s, destination_choice d override = VStr s).
Proof.
  split.
  - intros [out Hrun]. destruct settings as [| | | | |d]; try done.
    exists d. split; [done|].
    destruct (run_on_dict cfg o chat_id d override dk out Hrun)
      as [([Hno|Hno] & _)|(_ & _ & dest & Hdest & _)].
    + by left.
    + revert Hrun. unfold run_generate_and_publish. cbn [py_get mbind result_bind].
      destruct (truthy (dict_get d "target_chat_id")); cbn [negb]; [|by left].
      fold (destination_choice d override).
      destruct (destination_choice d override); try done. right. by eexists.
    + right. destruct (destination_choice d override); try done. by eexists.
  - intros (d & -> & Hcase). unfold run_generate_and_publish.
    cbn [py_get mbind result_bind].
    destruct (truthy (dict_get d "target_chat_id")); cbn [negb]; [|by eexists].
    destruct Hcase as [?|[s Hs]]; [done|].
    fold (destination_choice d override). rewrite Hs. cbn [py_strip mbind result_bind].
    destruct (truthy_opt (OPENAI_API_KEY cfg)); cbn [negb]; by eexists.
Qed.

Section Job.

Variable container_repr : value → string.
Variable cfg : config.

Implicit Types (o : oracle) (d : dict) (dk : disk) (out : outcome).

(** The scheduled job, unfolded: it stops for want of a chat, or runs the
    pipeline on the settings its rubric step leaves. *)
Lemma job_cases o (defaults : dict) dk (res : disk * list event) :
  scheduled_job_standalone container_repr cfg o defaults dk = Ok res →
  ∃ d, load_settings defaults (settings_file dk) = VDict d
    ∧ ((truthy (job_chat_id cfg (dict_get d "target_chat_id")) = false
        ∧ res = (dk, []))
       ∨ (truthy (job_chat_id cfg (dict_get d "target_chat_id")) = true
          ∧ ∃ dest chat out,
              py_strip (py_or (dict_get d "destination") (VStr "")) = Ok dest
              ∧ py_int (job_chat_id cfg (dict_get d "target_chat_id")) = Ok chat
              ∧ run_generate_and_publish cfg o chat
                  (VDict (resolve_context container_repr o (pick_destination o d dest) dk).1)
                  None (resolve_context container_repr o (pick_destination o d dest) dk).2
                = Ok out
              ∧ res = (run_disk out,
                       run_trace out
                       ++ (if ok (run_result out) then []
                           else [SendErrorNotice (error (run_result out))])))).
Proof.
  unfold scheduled_job_standalone.
  destruct (load_settings defaults (settings_file dk)) as [| | | | |d]; try done.
  cbn [py_get mbind result_bind]. intros Hjob. exists d. split; [done|].
  destruct (truthy (job_chat_id cfg (dict_get d "target_chat_id"))); cbn [negb] in Hjob.
  2:{ left. split; [done|]. by injection Hjob as <-. }
  right. split; [done|].
  destruct (py_strip _) as [dest|]; [|done]. cbn [mbind result_bind] in Hjob.
  fold (pick_destination o d dest) in Hjob.
  destruct (resolve_context container_repr o (pick_destination o d dest) dk)
    as [d2 dk2] eqn:Hctx.
  destruct (py_int _) as [chat|]; [|done]. cbn [mbind result_bind] in Hjob.
  destruct (run_generate_and_publish cfg o chat (VDict d2) None dk2) as [out|] eqn:Hrun;
    [|done].
  cbn [mbind result_bind] in Hjob. exists dest, chat, out.
  rewrite Hctx. cbn [fst snd]. split_and!; [done..|].
  destruct (ok (run_result out)); cbn [negb] in Hjob; injection Hjob as <-.
  - by rewrite app_nil_r.
  - done.
Qed.

(** The rubric step reads and writes neither the target chat nor the log. *)
Lemma resolve_context_frame o d dk :
  let after := resolve_context container_repr o d dk in
  (∀ k, k ≠ "rubric" → after.1 !! k = d !! k)
  ∧ post_log_file after.2 = post_log_file dk
  ∧ (settings_file after.2 = settings_file dk
     ∨ settings_file after.2 = Holds (VDict after.1)).
Proof.
  unfold resolve_context. destruct (choose_rubric _ _ _) as [rubric|]; cbn.
  - split_and!; [|done|by right]. intros k Hk. by rewrite lookup_insert_ne.
  - split_and!; [done..|by left].
Qed.

Lemma pick_destination_frame o d (dest : string) (k : string) :
  k ≠ "destination" → pick_destination o d dest !! k = d !! k.
Proof.
  intros Hk. unfold pick_destination.
  destruct (DEFAULT_DESTINATIONS !! _); [|done].
  destruct (negb _); [|done]. by rewrite lookup_insert_ne.
Qed.

Lemma run_ascending o (chat_id : Z) (settings : value) (override : option string) dk out
    (e : option failure) :
  run_generate_and_publish cfg o chat_id settings override dk = Ok out →
  ascending (phase <$> (run_trace out ++ [SendErrorNotice e])) = true.
Proof.
  intros Hrun.
  destruct (run_cases cfg o chat_id settings override dk out Hrun)
    as [(msg & -> & _)|(d & target & dest & rubric & tone & season & audience
                        & constraints & -> & _)].
  - done.
  - apply publish_body_ascending.
Qed.

End Job.

(** X14. The calls a run makes come in a fixed order, each at most once:
    text generation, image generation, the photo by URL, the download, the
    photo as a file, the text message, VK; the scheduled job adds its error
    notice after all of them. So nothing is sent before the text exists,
    and VK is only reached after Telegram. *)
Theorem calls_in_order (container_repr : value → string) (cfg : config) (o : oracle) :
  (∀ chat_id settings override dk out,
     run_generate_and_publish cfg o chat_id settings override dk = Ok out →
     ascending (phase <$> run_trace out) = true)
  ∧ (∀ defaults dk dk' tr,
       scheduled_job_standalone container_repr cfg o defaults dk = Ok (dk', tr) →
       ascending (phase <$> tr) = true).
Proof.
  split.
  - intros chat_id settings override dk out Hrun.
    pose proof (run_ascending cfg o chat_id settings override dk out None Hrun) as H.
    rewrite fmap_app in H. by apply ascending_app_l in H.
  - intros defaults dk dk' tr Hjob.
    destruct (job_cases container_repr cfg o defaults dk _ Hjob)
      as (d & _ & [(_ & [= -> ->])|(_ & dest & chat & out & _ & _ & Hrun & [= -> ->])]).
    { done. }
    pose proof (run_ascending cfg o chat _ None _ out (error (run_result out)) Hrun) as H.
    destruct (ok (run_result out)); [|done].
    rewrite app_nil_r. rewrite fmap_app in H. by apply ascending_app_l in H.
Qed.

Lemma calls_in_order_witness :
  ∃ tr, scheduled_job_standalone (λ _, "") sample_config sample_oracle
          (DEFAULT_SETTINGS sample_config)
          {| settings_file := Holds (sample_settings true "09:30" "daily");
             post_log_file := Absent |} = Ok tr
        ∧ ascending (phase <$> tr.2) = true.
Proof.
  assert (Hjob : ∃ res, scheduled_job_standalone (λ _, "") sample_config sample_oracle
                          (DEFAULT_SETTINGS sample_config)
                          {| settings_file := Holds (sample_settings true "09:30" "daily");
                             post_log_file := Absent |} = Ok res)
    by (eexists; reflexivity).
  destruct Hjob as [[dk' tr] Hjob]. exists (dk', tr). split; [exact Hjob|].
  exact (proj2 (calls_in_order (λ _, "") sample_config sample_oracle) _ _ dk' tr Hjob).
Defined.

Section Rotating.

Variable container_repr : value → string.

Lemma checklist_guard_total (today : string) (last_used : value) (r : string) :
  well_formed_last_used last_used →
  ∃ r', checklist_guard today last_used r = Ok r' ∧ (r' = r ∨ r' = "SEASON").
Proof.
  intros Hwf. unfold checklist_guard.
  destruct (bool_decide (r = "CHECKLIST")); cbn [andb]; [|eauto].
  destruct Hwf as [-> |(lu & -> & Hdate)]; [eauto|].
  destruct (truthy (VDict lu)); [|eauto].
  cbn [py_get mbind result_bind]. unfold dict_get.
  destruct (lu !! "date") as [x|] eqn:Hx; cbn [default].
  - destruct (Hdate x eq_refl) as [-> |[s ->]].
    + cbn. case_match; eauto.
    + unfold py_or, id. case_match; cbn [py_take mbind result_bind]; case_match; eauto.
  - cbn. case_match; eauto.
Qed.

Lemma resolved_rubric_period (weekday : Z) (content_plan : value) :
  resolved_rubric container_repr (weekday + 7) content_plan
  = resolved_rubric container_repr weekday content_plan.
Proof.
  unfold resolved_rubric.
  replace ((weekday + 7) `mod` 7) with (weekday `mod` 7); [done|].
  replace (weekday + 7) with (weekday + 1 * 7) by lia. by rewrite Z_mod_plus_full.
Qed.

Lemma resolved_rubric_table (weekday : Z) (content_plan : value) :
  truthy content_plan = false →
  ∃ r, resolved_rubric container_repr weekday content_plan = Ok r
       ∧ WEEKDAY_RUBRIC !! Z.to_nat (weekday `mod` 7) = Some r.
Proof.
  intros Hcp. unfold resolved_rubric.
  destruct (weekday_table_total weekday) as [r Hr]. rewrite Hr.
  exists r. split; [|done].
  destruct content_plan; try done. by rewrite Hcp.
Qed.

Lemma choose_rubric_total o (settings : dict) :
  well_formed_last_used (dict_get settings "last_used") →
  ∃ r, choose_rubric container_repr o settings = Ok r.
Proof.
  intros Hwf. unfold choose_rubric, get_rubric_for_weekday.
  destruct (resolved_rubric_total container_repr (now_weekday o)
              (py_or (dict_get settings "content_plan") (VDict ∅))) as [r ->].
  cbn [mbind result_bind].
  assert (Hlast : well_formed_last_used (py_or (dict_get settings "last_used") (VDict ∅))
                  ∧ ∃ lu, py_or (dict_get settings "last_used") (VDict ∅) = VDict lu).
  { unfold py_or. destruct Hwf as [Hno|(lu & Hlu & Hdate)].
    - rewrite Hno. split; [by left|by eexists].
    - rewrite Hlu. destruct (truthy (VDict lu)).
      + split; [right; eauto|by eexists].
      + split; [by left|by eexists]. }
  destruct Hlast as [Hwf' [lu Hlu]].
  destruct (checklist_guard_total (strftime_Ymd (now o)) _ r Hwf') as (r' & -> & _).
  cbn [mbind result_bind]. rewrite Hlu. cbn [py_get mbind result_bind]. eauto.
Qed.

(** A last-used record that is neither empty nor a dict stops the rubric
    step at [last.get]. *)
Lemma choose_rubric_malformed o (settings : dict) (v : value) :
  settings !! "last_used" = Some v → truthy v = true → (∀ lu, v ≠ VDict lu) →
  ∃ e, choose_rubric container_repr o settings = Raise e.
Proof.
  intros Hv Htruthy Hshape. unfold choose_rubric, get_rubric_for_weekday.
  unfold dict_get at 1 2. rewrite Hv. cbn [default]. unfold py_or at 1 2, id.
  rewrite Htruthy.
  destruct (resolved_rubric _ _ _) as [r|]; [|eauto]. cbn [mbind result_bind].
  unfold checklist_guard. rewrite Htruthy.
  destruct (bool_decide (r = "CHECKLIST")); cbn [andb].
  - destruct v; try (by eauto). by destruct (Hshape d).
  - cbn [mbind result_bind]. destruct v; try (by eauto). by destruct (Hshape d).
Qed.

End Rotating.

(** X15. [get_rubric_for_weekday] answers for every integer weekday, also
    a negative one or one above 6, when the last-used record is empty or a
    dict with a string (or no) date; weekdays seven apart get the same
    answer; the answer is the rubric of the content plan or of the weekday
    table, or the seasonal rubric in its place; and without a content plan
    it is one of the seven rubrics of the weekday table or the seasonal
    one. *)
Theorem rotation_answers (container_repr : value → string) (today : date)
    (weekday : Z) (last_used content_plan : value) :
  well_formed_last_used last_used →
  ∃ r,
    get_rubric_for_weekday container_repr today weekday last_used content_plan = Ok r
    ∧ get_rubric_for_weekday container_repr today (weekday + 7) last_used content_plan
      = Ok r
    ∧ (resolved_rubric container_repr weekday content_plan = Ok r ∨ r = "SEASON")
    ∧ (truthy content_plan = false → r ∈ WEEKDAY_RUBRIC ∨ r = "SEASON").
Proof.
  intros Hwf. unfold get_rubric_for_weekday. rewrite resolved_rubric_period.
  destruct (resolved_rubric container_repr weekday content_plan) as [r0|] eqn:Hres.
  2:{ destruct (resolved_rubric_total container_repr weekday content_plan). congruence. }
  cbn [mbind result_bind].
  destruct (checklist_guard_total (strftime_Ymd today) last_used r0 Hwf)
    as (r & Hguard & Hr).
  exists r. split_and!; [done|done| |].
  - destruct Hr as [-> | ->]; auto.
  - intros Hcp. destruct Hr as [-> | ->]; [|by right]. left.
    destruct (resolved_rubric_table container_repr weekday content_plan Hcp)
      as (r' & Hr' & Hlook).
    assert (r' = r0) as -> by congruence.
    by eapply list_elem_of_lookup_2.
Qed.

Lemma rotation_answers_witness :
  ∃ r, get_rubric_for_weekday (λ _, "") sample_date (-1)
         (VDict {[ "rubric" := VStr "FOOD"; "date" := VStr "2026-11-07" ]}) VNone = Ok r
       ∧ get_rubric_for_weekday (λ _, "") sample_date 6
           (VDict {[ "rubric" := VStr "FOOD"; "date" := VStr "2026-11-07" ]}) VNone = Ok r.
Proof.
  destruct (rotation_answers (λ _, "") sample_date (-1)
              (VDict {[ "rubric" := VStr "FOOD"; "date" := VStr "2026-11-07" ]}) VNone)
    as (r & H1 & H2 & _).
  - right. eexists. split; [done|]. intros x Hx. right. exists "2026-11-07".
    vm_compute in Hx. by injection Hx as <-.
  - exists r. by split.
Defined.

Section JobRuns.

Variable container_repr : value → string.
Variable cfg : config.

Implicit Types (o : oracle) (d : dict) (dk : disk) (out : outcome).

(** What a run leaves in the settings file: what was there, or the
    settings it was given with a new [last_used]. *)
Lemma run_settings_file o (chat_id : Z) d (override : option string) dk out :
  run_generate_and_publish cfg o chat_id (VDict d) override dk = Ok out →
  settings_file (run_disk out) = settings_file dk
  ∨ ∃ dest, settings_file (run_disk out)
            = Holds (VDict (record_last_used o (rubric_in_use d) dest d)).
Proof.
  intros Hrun.
  destruct (run_on_dict cfg o chat_id d override dk out Hrun)
    as [(_ & _ & _ & -> & _)|(_ & _ & dest & _ & ->)]; [by left|].
  destruct (publish_body_writes cfg o d (dict_get d "target_chat_id") dest
              (rubric_in_use d) (py_or (dict_get d "tone") (VStr "FRIENDLY"))
              (dict_get d "season") (dict_get d "audience")
              (py_or (dict_get d "constraints") (VList [])) dk)
    as [(_ & -> & _)|(_ & _ & Hfile & _)]; [by left|].
  right. by exists dest.
Qed.

Lemma pool_answers (n : nat) :
  ∃ pick, DEFAULT_DESTINATIONS !! (n `mod` length DEFAULT_DESTINATIONS)%nat = Some pick.
Proof.
  apply lookup_lt_is_Some_2. apply Nat.mod_upper_bound. done.
Qed.

Lemma pool_names_clean :
  forallb (λ p, negb (bool_decide (p = "")) && bool_decide (strip p = p))
    DEFAULT_DESTINATIONS = true.
Proof. vm_compute. reflexivity. Qed.

Lemma pool_name_clean (pick : string) :
  pick ∈ DEFAULT_DESTINATIONS → pick ≠ "" ∧ strip pick = pick.
Proof.
  intros Hin. pose proof pool_names_clean as Hall.
  rewrite forallb_forall in Hall. apply list_elem_of_In in Hin.
  specialize (Hall pick Hin). apply andb_prop in Hall as [Hne Heq].
  apply negb_true_iff, bool_decide_eq_false in Hne.
  by apply bool_decide_eq_true in Heq.
Qed.

Lemma rubric_in_use_pick o d (dest : string) :
  rubric_in_use (pick_destination o d dest) = rubric_in_use d.
Proof.
  unfold rubric_in_use, dict_get. by rewrite pick_destination_frame.
Qed.

End JobRuns.

(** X16. A scheduled job whose settings name no target chat never
    generates or publishes anything and never touches the post log.
    Without a usable [TELEGRAM_CHAT_ID] in the environment it makes no call
    at all and leaves both files as they were; with one, it goes on, but the
    pipeline reads the target from the settings only and refuses, so the
    job's only call is the error notice about the missing target. *)
Theorem scheduled_job_without_target (container_repr : value → string) (cfg : config)
    (o : oracle) (defaults : dict) (dk : disk) (d : dict) :
  load_settings defaults (settings_file dk) = VDict d →
  truthy (dict_get d "target_chat_id") = false →
  (∀ v, d !! "destination" = Some v → v = VNone ∨ ∃ s, v = VStr s) →
  ∃ dk',
    scheduled_job_standalone container_repr cfg o defaults dk
    = Ok (dk', if truthy (job_chat_id cfg (dict_get d "target_chat_id"))
               then [SendErrorNotice (Some (Message no_target_message))]
               else [])
    ∧ post_log_file dk' = post_log_file dk
    ∧ (truthy (job_chat_id cfg (dict_get d "target_chat_id")) = false → dk' = dk).
Proof.
  intros Hload Hno Hdest. unfold scheduled_job_standalone. rewrite Hload.
  cbn [py_get mbind result_bind].
  destruct (truthy (job_chat_id cfg (dict_get d "target_chat_id"))) eqn:Hchat;
    cbn [negb].
  2:{ exists dk. by split_and!. }
  assert (Hstr : ∃ s, py_or (dict_get d "destination") (VStr "") = VStr s).
  { unfold py_or, dict_get. destruct (d !! "destination") as [v|] eqn:Hv; cbn.
    - destruct (Hdest v eq_refl) as [-> |[s ->]]; cbn; [by eexists|].
      case_match; by eexists.
    - by eexists. }
  destruct Hstr as [s ->]. cbn [py_strip mbind result_bind].
  fold (pick_destination o d (strip s)).
  pose proof (resolve_context_frame container_repr o (pick_destination o d (strip s)) dk)
    as (Hkeys & Hlog & _).
  destruct (resolve_context container_repr o (pick_destination o d (strip s)) dk)
    as [d2 dk2].
  cbn [fst snd] in Hkeys, Hlog.
  assert (Hint : ∃ n, job_chat_id cfg (dict_get d "target_chat_id") = VInt n).
  { revert Hchat. unfold job_chat_id. rewrite Hno. cbn [negb andb].
    destruct (truthy_opt _); [|congruence].
    destruct (int_of_str _); [by eexists|congruence]. }
  destruct Hint as [n ->]. cbn [py_int mbind result_bind].
  assert (Htarget : truthy (dict_get d2 "target_chat_id") = false).
  { unfold dict_get. rewrite Hkeys by done. rewrite pick_destination_frame by done.
    exact Hno. }
  unfold run_generate_and_publish. cbn [py_get mbind result_bind].
  rewrite Htarget.
  cbn [negb mbind result_bind run_result run_disk run_trace ok error refused app].
  exists dk2. by split_and!.
Qed.

Lemma scheduled_job_without_target_witness :
  let cfg := {| TELEGRAM_BOT_TOKEN := Some "token";
                TELEGRAM_CHAT_ID := Some "-1001";
                OPENAI_API_KEY := Some "key";
                TIMEZONE := "Europe/Berlin";
                VK_API_KEY := None;
                VK_GROUP_ID := None |} in
  ∃ dk',
    scheduled_job_standalone (λ _, "") cfg sample_oracle (DEFAULT_SETTINGS cfg) sample_disk
    = Ok (dk', [SendErrorNotice (Some (Message no_target_message))]).
Proof.
  intros cfg.
  destruct (scheduled_job_without_target (λ _, "") cfg sample_oracle
              (DEFAULT_SETTINGS cfg) sample_disk (DEFAULT_SETTINGS cfg))
    as (dk' & Hjob & _).
  - reflexivity.
  - reflexivity.
  - intros v Hv. right. exists "Стамбул". vm_compute in Hv. by injection Hv as <-.
  - exists dk'. exact Hjob.
Defined.

(** X17. A [last_used] in the settings that is neither empty nor a dict (a
    string, a number, a list) makes the rubric step of the scheduled job
    fail silently: the step saves nothing, and the job generates with the
    rubric configured in the settings, whatever the weekday and the content
    plan say. *)
Theorem malformed_last_used_skips_rotation (container_repr : value → string)
    (cfg : config) (o : oracle) (defaults : dict) (dk : disk) (d : dict) (v : value) :
  load_settings defaults (settings_file dk) = VDict d →
  d !! "last_used" = Some v → truthy v = true → (∀ lu, v ≠ VDict lu) →
  (∀ dest, resolve_context container_repr o (pick_destination o d dest) dk
           = (pick_destination o d dest, dk))
  ∧ (∀ dk' tr ev r,
       scheduled_job_standalone container_repr cfg o defaults dk = Ok (dk', tr) →
       ev ∈ tr → text_rubric ev = Some r → r = rubric_in_use d).
Proof.
  intros Hload Hv Htruthy Hshape.
  assert (Hctx : ∀ dest, resolve_context container_repr o (pick_destination o d dest) dk
                         = (pick_destination o d dest, dk)).
  { intros dest. unfold resolve_context.
    destruct (choose_rubric_malformed container_repr o (pick_destination o d dest) v)
      as [e ->]; try done.
    by rewrite pick_destination_frame. }
  split; [done|].
  intros dk' tr ev r Hjob Hin Hev.
  destruct (job_cases container_repr cfg o defaults dk _ Hjob)
    as (d' & Hload' & [(_ & [= _ ->])
                      |(_ & dest & chat & out & _ & _ & Hrun & [= _ ->])]).
  { by apply elem_of_nil in Hin. }
  assert (d' = d) as -> by congruence.
  rewrite Hctx in Hrun. cbn [fst snd] in Hrun.
  apply elem_of_app in Hin as [Hin|Hin].
  - rewrite <- (rubric_in_use_pick o d dest). by eapply run_trace_rubric.
  - destruct (ok (run_result out)); [by apply elem_of_nil in Hin|].
    apply list_elem_of_singleton in Hin as ->. done.
Qed.

Lemma malformed_last_used_skips_rotation_witness :
  let d : dict := {[ "target_chat_id" := VInt 7; "destination" := VStr "Lisbon";
                     "rubric" := VStr "FOOD"; "last_used" := VStr "yesterday" ]} in
  let dk := {| settings_file := Holds (VDict d); post_log_file := Absent |} in
  resolve_context (λ _, "") sample_oracle (pick_destination sample_oracle d "Lisbon") dk
  = (pick_destination sample_oracle d "Lisbon", dk).
Proof.
  intros d dk.
  destruct (malformed_last_used_skips_rotation (λ _, "") sample_config sample_oracle ∅
              dk d (VStr "yesterday")) as [Hctx _].
  - reflexivity.
  - reflexivity.
  - reflexivity.
  - done.
  - apply Hctx.
Defined.

(** X18. A destination the scheduled job draws at random is saved. When
    the settings have no destination (none, or only spaces), a chat to
    publish to is known and the rubric step goes through, the settings file
    after the job holds the destination drawn from the pool, whether or not
    the publication succeeded; so the next job reads that destination from
    its settings and draws no new one. *)
Theorem random_destination_is_saved (container_repr : value → string) (cfg : config)
    (o : oracle) (defaults : dict) (dk dk' : disk) (d : dict) (tr : list event) :
  load_settings defaults (settings_file dk) = VDict d →
  truthy (job_chat_id cfg (dict_get d "target_chat_id")) = true →
  py_strip (py_or (dict_get d "destination") (VStr "")) = Ok "" →
  well_formed_last_used (dict_get d "last_used") →
  scheduled_job_standalone container_repr cfg o defaults dk = Ok (dk', tr) →
  ∃ pick saved,
    DEFAULT_DESTINATIONS !! (random_choice o `mod` length DEFAULT_DESTINATIONS)%nat
    = Some pick
    ∧ settings_file dk' = Holds (VDict saved)
    ∧ saved !! "destination" = Some (VStr pick)
    ∧ ∀ defaults', ∃ d',
        load_settings defaults' (settings_file dk') = VDict d'
        ∧ py_strip (py_or (dict_get d' "destination") (VStr "")) = Ok pick
        ∧ pick ≠ "".
Proof.
  intros Hload Hchat Hdest Hwf Hjob.
  destruct (job_cases container_repr cfg o defaults dk _ Hjob)
    as (d' & Hload' & [(Hno & _)|(_ & dest & chat & out & Hdest' & _ & Hrun & [= -> _])]).
  { assert (d' = d) as -> by congruence. congruence. }
  assert (d' = d) as -> by congruence.
  assert (dest = "") as -> by congruence.
  destruct (pool_answers (random_choice o)) as [pick Hpick].
  assert (Hpicked : pick_destination o d "" = <["destination" := VStr pick]> d).
  { unfold pick_destination. by rewrite Hpick. }
  rewrite Hpicked in Hrun.
  destruct (choose_rubric_total container_repr o (<["destination" := VStr pick]> d))
    as [rubric Hrubric].
  { unfold dict_get. rewrite lookup_insert_ne by done. exact Hwf. }
  unfold resolve_context in Hrun. rewrite Hrubric in Hrun. cbn [fst snd] in Hrun.
  set (d2 := <["rubric" := VStr rubric]> (<["destination" := VStr pick]> d)) in Hrun.
  assert (Hd2 : d2 !! "destination" = Some (VStr pick)).
  { unfold d2. rewrite lookup_insert_ne by done. by rewrite lookup_insert_eq. }
  assert (Hsaved : ∃ saved, settings_file (run_disk out) = Holds (VDict saved)
                            ∧ saved !! "destination" = Some (VStr pick)).
  { destruct (run_settings_file cfg o chat d2 None _ out Hrun) as [Hsame|[dest Hnew]].
    - exists d2. by rewrite Hsame.
    - eexists. split; [exact Hnew|]. unfold record_last_used.
      by rewrite lookup_insert_ne. }
  destruct Hsaved as (saved & Hfile & Hlook).
  exists pick, saved. split_and!; [done..|].
  intros defaults'. exists (saved ∪ defaults').
  destruct (pool_name_clean pick) as [Hne Hstrip].
  { by eapply list_elem_of_lookup_2. }
  split_and!; [|  |done].
  - rewrite Hfile. apply load_settings_union.
  - unfold dict_get. rewrite (lookup_union_Some_l _ _ _ _ Hlook). cbn [default].
    unfold py_or, id. cbn [truthy]. rewrite bool_decide_eq_false_2 by done.
    cbn [negb py_strip]. by rewrite Hstrip.
Qed.

Lemma random_destination_is_saved_witness :
  let dk := {| settings_file := Holds (VDict {[ "target_chat_id" := VInt 7 ]});
               post_log_file := Absent |} in
  ∃ dk' tr saved,
    scheduled_job_standalone (λ _, "") sample_config sample_oracle ∅ dk = Ok (dk', tr)
    ∧ settings_file dk' = Holds (VDict saved)
    ∧ saved !! "destination"
      = DEFAULT_DESTINATIONS !! (random_choice sample_oracle
                                 `mod` length DEFAULT_DESTINATIONS)%nat ≫= λ p,
          Some (VStr p).
Proof.
  intros dk.
  assert (Hjob : ∃ res, scheduled_job_standalone (λ _, "") sample_config sample_oracle
                          ∅ dk = Ok res) by (eexists; reflexivity).
  destruct Hjob as [[dk' tr] Hjob].
  destruct (random_destination_is_saved (λ _, "") sample_config sample_oracle ∅ dk dk'
              {[ "target_chat_id" := VInt 7 ]} tr)
    as (pick & saved & Hpick & Hfile & Hlook & _).
  - reflexivity.
  - reflexivity.
  - reflexivity.
  - by left.
  - exact Hjob.
  - exists dk', tr, saved. split_and!; [done..|]. by rewrite Hpick.
Defined.

Section Rescheduling.

Variable importable : bool.
Variable known_zone : string → bool.
Variable cfg : config.

Implicit Types (sc : scheduler) (s : option scheduler) (id : string).

Lemma filter_other_keeps id id' (js : list job) :
  id' ≠ id →
  filter (λ j, job_id j = id') (filter (λ j, job_id j ≠ id) js)
  = filter (λ j, job_id j = id') js.
Proof.
  intros Hne. induction js as [|j js IH]; [done|].
  destruct (decide (job_id j = id)) as [Heq|Hneq].
  - rewrite (filter_cons_False (λ j, job_id j ≠ id)) by auto.
    rewrite (filter_cons_False (λ j, job_id j = id')) by congruence. done.
  - rewrite (filter_cons_True (λ j, job_id j ≠ id)) by done.
    destruct (decide (job_id j = id')).
    + rewrite !(filter_cons_True (λ j, job_id j = id')) by done. by rewrite IH.
    + by rewrite !(filter_cons_False (λ j, job_id j = id')) by done.
Qed.

Lemma drop_job_other id id' sc :
  id' ≠ id →
  filter (λ j, job_id j = id') (scheduler_jobs (drop_job id sc))
  = filter (λ j, job_id j = id') (scheduler_jobs sc).
Proof.
  intros Hne. unfold drop_job, remove_job. destruct (has_job id sc); [|done].
  by apply filter_other_keeps.
Qed.

Lemma active_drop_other id id' s :
  id' ≠ id → active id' (drop_job id <$> s) = active id' s.
Proof.
  intros Hne. destruct s as [sc|]; [|done]. simpl. by rewrite drop_job_other.
Qed.

Lemma drop_job_idemp id sc : drop_job id (drop_job id sc) = drop_job id sc.
Proof.
  unfold drop_job at 1. unfold remove_job. by rewrite drop_job_has_job.
Qed.

Lemma filter_absent id (js : list job) :
  filter (λ j, job_id j = id) js = [] → filter (λ j, job_id j ≠ id) js = js.
Proof.
  induction js as [|j js IH]; [done|]. intros Hnil.
  destruct (decide (job_id j = id)) as [Heq|Hne].
  - by rewrite filter_cons_True in Hnil.
  - rewrite filter_cons_False in Hnil by done.
    rewrite filter_cons_True by done. by rewrite IH.
Qed.

(** Dropping the job just added gives back the scheduler it was added
    to. *)
Lemma drop_after_add (trig : trigger) id sc sc2 :
  add_job trig id (drop_job id sc) = Ok sc2 → drop_job id sc2 = drop_job id sc.
Proof.
  unfold add_job. rewrite drop_job_has_job. intros [= <-].
  pose proof (drop_job_clears id sc) as Hnil.
  destruct (drop_job id sc) as [tz js]. cbn [scheduler_jobs scheduler_timezone] in *.
  unfold drop_job, remove_job, has_job. cbn [scheduler_jobs scheduler_timezone].
  rewrite existsb_app. cbn [existsb job_id]. rewrite bool_decide_eq_true_2 by done.
  rewrite orb_true_r. f_equal.
  rewrite filter_app, (filter_absent id js Hnil).
  rewrite filter_cons_False by (cbn; auto). by rewrite filter_nil, app_nil_r.
Qed.

Lemma setup_scheduler_raise (defaults : dict) (f : file value) s (e : exn) :
  (setup_scheduler importable known_zone cfg defaults f s).2 = Raise e →
  (setup_scheduler importable known_zone cfg defaults f s).1 = s.
Proof.
  unfold setup_scheduler. destruct importable; [|done]. cbn [negb].
  destruct (read_schedule _ _) as [[[d sch] off]|]; [|done].
  destruct off; [done|].
  destruct (build_trigger _ _ _ _) as [trig|]; [|done].
  match goal with |- context [add_job trig ?id (drop_job ?id ?sc)] =>
    destruct (add_after_drop trig id sc) as (sc' & -> & _) end.
  done.
Qed.

Lemma setup_scheduler_other_jobs (defaults : dict) (f : file value) s id :
  id ≠ "travel_post_job" →
  active id (setup_scheduler importable known_zone cfg defaults f s).1 = active id s.
Proof.
  intros Hne. unfold setup_scheduler. destruct importable; [|done]. cbn [negb].
  destruct (read_schedule _ _) as [[[d sch] off]|]; [|done].
  destruct off; [by apply active_drop_other|].
  destruct (build_trigger _ _ _ _) as [trig|]; [|done].
  unfold add_job. rewrite drop_job_has_job. cbn [fst active scheduler_jobs].
  rewrite filter_app, drop_job_other by done.
  rewrite filter_cons_False by (cbn; congruence).
  rewrite filter_nil, app_nil_r. by destruct s.
Qed.

Lemma setup_scheduler_twice (defaults : dict) (f : file value) s :
  setup_scheduler importable known_zone cfg defaults f
    (setup_scheduler importable known_zone cfg defaults f s).1
  = setup_scheduler importable known_zone cfg defaults f s.
Proof.
  unfold setup_scheduler. destruct importable; [|done]. cbn [negb].
  destruct (read_schedule _ _) as [[[d sch] off]|]; [|done].
  destruct off.
  { cbn [fst]. f_equal. destruct s as [sc|]; [|done]. cbn. by rewrite drop_job_idemp. }
  destruct (build_trigger _ _ _ _) as [trig|]; [|done].
  set (sc0 := match s with
              | Some sc => sc
              | None => {| scheduler_timezone := timezone trig; scheduler_jobs := [] |}
              end).
  destruct (add_after_drop trig "travel_post_job" sc0) as (sc2 & Hadd & _).
  rewrite Hadd. cbn [fst]. rewrite (drop_after_add _ _ _ _ Hadd). by rewrite Hadd.
Qed.

End Rescheduling.

(** X19. A call of [setup_scheduler] that raises (an unknown time zone, a
    time outside the clock, a malformed schedule) leaves the scheduler
    exactly as it was, so a trigger installed before stays active; and no
    call, raising or not, touches the jobs registered under another id. *)
Theorem setup_scheduler_failure_keeps_trigger (importable : bool)
    (known_zone : string → bool) (cfg : config) (defaults : dict) (f : file value)
    (s : option scheduler) :
  (∀ e, (setup_scheduler importable known_zone cfg defaults f s).2 = Raise e →
        (setup_scheduler importable known_zone cfg defaults f s).1 = s)
  ∧ (∀ id, id ≠ "travel_post_job" →
           active id (setup_scheduler importable known_zone cfg defaults f s).1
           = active id s).
Proof.
  split.
  - intros e. apply setup_scheduler_raise.
  - intros id. apply setup_scheduler_other_jobs.
Qed.

Lemma setup_scheduler_failure_keeps_trigger_witness :
  let s := (setup_scheduler true (λ _, true) sample_config (DEFAULT_SETTINGS sample_config)
              (Holds (sample_settings true "09:30" "daily")) None).1 in
  active "travel_post_job"
    (setup_scheduler true (λ _, true) sample_config (DEFAULT_SETTINGS sample_config)
       (Holds (sample_settings true "25:99" "daily")) s).1
  = [{| day_of_week := None; hour := 9; minute := 30; timezone := "Europe/Berlin" |}].
Proof.
  intros s.
  rewrite (proj1 (setup_scheduler_failure_keeps_trigger true (λ _, true) sample_config
                    (DEFAULT_SETTINGS sample_config)
                    (Holds (sample_settings true "25:99" "daily")) s) ValueError eq_refl).
  reflexivity.
Defined.

(** X20. [setup_scheduler] is idempotent: a second call against the same
    settings file gives the same scheduler and the same outcome as the
    first, whatever was installed before. Calling it again after a command
    that changed nothing is harmless. *)
Theorem setup_scheduler_idempotent (importable : bool) (known_zone : string → bool)
    (cfg : config) (defaults : dict) (f : file value) (s : option scheduler) :
  setup_scheduler importable known_zone cfg defaults f
    (setup_scheduler importable known_zone cfg defaults f s).1
  = setup_scheduler importable known_zone cfg defaults f s.
Proof. apply setup_scheduler_twice. Qed.

Section Days.

Lemma day_map_range (p : string) (d : Z) : day_map !! p = Some d → 0 ≤ d ≤ 6.
Proof.
  intros Hd. apply (elem_of_list_to_map_2 (M := gmap string)) in Hd.
  repeat (apply elem_of_cons in Hd as [[= -> ->]|Hd]; [lia|]).
  by apply elem_of_nil in Hd.
Qed.

Lemma parse_days_range (freq : string) : Forall (λ d, 0 ≤ d ≤ 6) (parse_days freq).
Proof.
  unfold parse_days.
  destruct (foldl add_day [] (re_split (lower freq))) as [|x days] eqn:Hdays.
  { repeat constructor; lia. }
  rewrite <- Hdays. apply Forall_forall. intros d Hd.
  apply collect_days_elem in Hd as [Hd|(p & _ & Hp)].
  - by apply elem_of_nil in Hd.
  - by eapply day_map_range.
Qed.

Lemma parse_days_NoDup (freq : string) : NoDup (parse_days freq).
Proof.
  unfold parse_days.
  destruct (foldl add_day [] (re_split (lower freq))) as [|x days] eqn:Hdays.
  { compute_done. }
  rewrite <- Hdays. apply collect_days_NoDup, NoDup_nil_2.
Qed.

Lemma parse_days_nonempty (freq : string) : parse_days freq ≠ [].
Proof.
  unfold parse_days. by destruct (foldl add_day [] (re_split (lower freq))).
Qed.

Lemma sorted_NoDup_strict (l : list Z) :
  StronglySorted Z.le l → NoDup l → StronglySorted Z.lt l.
Proof.
  induction 1 as [|a l Hsorted IH Hall]; intros Hnd; constructor.
  - apply IH. by apply NoDup_cons in Hnd as [_ ?].
  - apply NoDup_cons in Hnd as [Hnotin _].
    rewrite Forall_forall in Hall. apply Forall_forall. intros y Hy.
    specialize (Hall y Hy). assert (a ≠ y) by (intros ->; done). lia.
Qed.

End Days.

(** X21. The weekdays of a trigger built from any frequency string are
    never empty, all lie within 0..6 (Monday to Sunday), and are listed in
    strictly ascending order, each once; so the [day_of_week] field handed
    to the cron trigger is always a valid list of days, whatever was
    typed. *)
Theorem trigger_days_well_formed (freq : string) :
  let ds := merge_sort Z.le (parse_days freq) in
  ds ≠ []
  ∧ Forall (λ d, 0 ≤ d ≤ 6) ds
  ∧ StronglySorted Z.lt ds
  ∧ (trigger_days freq = None ↔ freq = "daily")
  ∧ ∀ dow, trigger_days freq = Some dow → dow = join_days ds.
Proof.
  intros ds.
  assert (Hperm : ds ≡ₚ parse_days freq) by apply merge_sort_Permutation.
  split_and!.
  - intros Hnil. rewrite Hnil in Hperm. symmetry in Hperm.
    apply Permutation_nil_r in Hperm. by apply parse_days_nonempty in Hperm.
  - rewrite Hperm. apply parse_days_range.
  - apply sorted_NoDup_strict.
    + apply StronglySorted_merge_sort; apply _.
    + rewrite Hperm. apply parse_days_NoDup.
  - unfold trigger_days. case_bool_decide; split; done.
  - intros dow. unfold trigger_days. case_bool_decide; [done|]. by intros [= <-].
Qed.

(** ** Commands: the posting time *)

Section TypedTimes.

Lemma typed_times_parse_all : typed_times_parse = true.
Proof. vm_compute. reflexivity. Qed.

Lemma typed_fields_parse_all : typed_fields_parse = true.
Proof. vm_compute. reflexivity. Qed.

Lemma is_digit_char (c : ascii) :
  is_digit c = true → ∃ k, (k < 10)%nat ∧ c = digit_char k.
Proof.
  unfold is_digit, digit_of. intros Hc.
  destruct ((48 <=? nat_of_ascii c)%nat && (nat_of_ascii c <=? 57)%nat) eqn:Hr; [|done].
  apply andb_prop in Hr as [Hlo Hhi].
  apply Nat.leb_le in Hlo. apply Nat.leb_le in Hhi.
  exists (nat_of_ascii c - 48)%nat. split; [lia|].
  unfold digit_char. rewrite Nat.mod_small by lia.
  replace (48 + (nat_of_ascii c - 48))%nat with (nat_of_ascii c) by lia.
  by rewrite ascii_nat_embedding.
Qed.

Lemma last_char_snoc (s : string) (c : ascii) : last_char (s +:+ String c "") = Some c.
Proof.
  induction s as [|a s IH]; [done|].
  rewrite append_cons. cbn [last_char]. rewrite IH.
  by destruct (s +:+ String c "") eqn:E; [destruct s|].
Qed.

Lemma lstrip_by_head (blank : ascii → bool) (s : string) (c : ascii) (r : string) :
  lstrip_by blank s = String c r → blank c = false.
Proof.
  induction s as [|a s IH]; [done|]. cbn [lstrip_by].
  destruct (blank a) eqn:Ha; [done|]. by intros [= <- _].
Qed.

(** What [strip] leaves does not end in a blank. *)
Lemma strip_last (s : string) (c : ascii) :
  last_char (strip s) = Some c → py_isspace c = false.
Proof.
  unfold strip, strip_by.
  destruct (lstrip_by py_isspace (String.rev (lstrip_by py_isspace s)))
    as [|c0 r0] eqn:Ht; [done|].
  rewrite rev_cons, last_char_snoc. intros [= <-].
  by eapply lstrip_by_head.
Qed.

Lemma minutes_format_typed (r : string) :
  minutes_format r = true → last_char r ≠ Some "010"%char →
  ∃ sep m1 m2,
    (sep = ":" ∨ sep = ".")%char ∧ (m1 < 10)%nat ∧ (m2 < 10)%nat
    ∧ r = String sep (String (digit_char m1) (String (digit_char m2) "")).
Proof.
  destruct r as [|sep [|c [|d rest]]]; try done. cbn [minutes_format].
  intros Hfmt Hlast.
  apply andb_prop in Hfmt as [Hfmt Hend]. apply andb_prop in Hfmt as [Hfmt Hd].
  apply andb_prop in Hfmt as [Hsep Hc].
  destruct (is_digit_char c Hc) as (m1 & Hm1 & ->).
  destruct (is_digit_char d Hd) as (m2 & Hm2 & ->).
  exists sep, m1, m2. split_and!; [|done|done|].
  - apply orb_prop in Hsep as [H|H]; apply Ascii.eqb_eq in H; auto.
  - destruct rest as [|x [|y rest]]; [done| |done].
    cbn [at_end] in Hend. apply Ascii.eqb_eq in Hend as ->. by destruct Hlast.
Qed.

(** A string the format lets through, without a final newline, is a typed
    time. *)
Lemma time_format_typed (s : string) :
  time_format s = true → last_char s ≠ Some "010"%char →
  ∃ h1 h2 sep m1 m2,
    h1 ∈ None :: (Some <$> seq 0 10) ∧ h2 ∈ seq 0 10
    ∧ sep ∈ [":"; "."]%char ∧ m1 ∈ seq 0 10 ∧ m2 ∈ seq 0 10
    ∧ s = typed_time h1 h2 sep m1 m2.
Proof.
  assert (Hseq : ∀ k, (k < 10)%nat → k ∈ seq 0 10).
  { intros k Hk. apply list_elem_of_In, in_seq. lia. }
  assert (Hsep : ∀ c, (c = ":" ∨ c = ".")%char → c ∈ [":"; "."]%char).
  { intros c [-> | ->]; [left|right; left]. }
  destruct s as [|a r]; [done|]. cbn [time_format].
  intros Hfmt Hlast. apply andb_prop in Hfmt as [Ha Hrest].
  destruct (is_digit_char a Ha) as (ka & Hka & ->).
  apply orb_prop in Hrest as [Htwo|Hone].
  - destruct r as [|b r']; [done|]. apply andb_prop in Htwo as [Hb Hmin].
    destruct (is_digit_char b Hb) as (kb & Hkb & ->).
    destruct (minutes_format_typed r' Hmin) as (sep & m1 & m2 & Hs & Hm1 & Hm2 & ->).
    { intros Hl. apply Hlast. by destruct r' as [|x r'']. }
    exists (Some ka), kb, sep, m1, m2. split_and!; auto.
    right. apply list_elem_of_fmap. eauto.
  - destruct (minutes_format_typed r Hone) as (sep & m1 & m2 & Hs & Hm1 & Hm2 & ->).
    { intros Hl. apply Hlast. by destruct r. }
    exists None, ka, sep, m1, m2. split_and!; auto. left.
Qed.

Lemma typed_hour_range (h1 : option nat) (h2 : nat) :
  h1 ∈ None :: (Some <$> seq 0 10) → h2 ∈ seq 0 10 → 0 ≤ typed_hour h1 h2 ≤ 99.
Proof.
  intros Hh1 Hh2. apply list_elem_of_In, in_seq in Hh2.
  apply elem_of_cons in Hh1 as [-> |Hh1]; cbn [typed_hour]; [lia|].
  apply list_elem_of_fmap in Hh1 as (k & -> & Hk).
  apply list_elem_of_In, in_seq in Hk. cbn [typed_hour]. lia.
Qed.

Lemma typed_time_at (h1 : option nat) (h2 : nat) (sep : ascii) (m1 m2 : nat) :
  h1 ∈ None :: (Some <$> seq 0 10) → h2 ∈ seq 0 10 → sep ∈ [":"; "."]%char →
  m1 ∈ seq 0 10 → m2 ∈ seq 0 10 →
  parse_time (VStr (str_replace "." ":" (typed_time h1 h2 sep m1 m2)))
  = (typed_hour h1 h2, 10 * Z.of_nat m1 + Z.of_nat m2).
Proof.
  intros Hh1 Hh2 Hsep Hm1 Hm2.
  generalize typed_times_parse_all. unfold typed_times_parse. intros Hall.
  rewrite forallb_forall in Hall.
  specialize (Hall h1 (proj1 (list_elem_of_In _ _) Hh1)).
  rewrite forallb_forall in Hall.
  specialize (Hall h2 (proj1 (list_elem_of_In _ _) Hh2)).
  rewrite forallb_forall in Hall.
  specialize (Hall sep (proj1 (list_elem_of_In _ _) Hsep)).
  rewrite forallb_forall in Hall.
  specialize (Hall m1 (proj1 (list_elem_of_In _ _) Hm1)).
  rewrite forallb_forall in Hall.
  specialize (Hall m2 (proj1 (list_elem_of_In _ _) Hm2)).
  cbv beta zeta in Hall. apply andb_prop in Hall as [Hparse _].
  by apply bool_decide_eq_true in Hparse.
Qed.

Lemma typed_fields_at (h1 : option nat) (h2 : nat) (sep : ascii) (m1 m2 : nat) :
  h1 ∈ None :: (Some <$> seq 0 10) → h2 ∈ seq 0 10 → sep ∈ [":"; "."]%char →
  m1 ∈ seq 0 10 → m2 ∈ seq 0 10 →
  ∃ hs ms,
    time_fields (typed_time h1 h2 sep m1 m2) = [hs; ms]
    ∧ int_of_str hs = Ok (typed_hour h1 h2)
    ∧ int_of_str ms = Ok (10 * Z.of_nat m1 + Z.of_nat m2).
Proof.
  intros Hh1 Hh2 Hsep Hm1 Hm2.
  generalize typed_fields_parse_all. unfold typed_fields_parse. intros Hall.
  rewrite forallb_forall in Hall.
  specialize (Hall h1 (proj1 (list_elem_of_In _ _) Hh1)).
  rewrite forallb_forall in Hall.
  specialize (Hall h2 (proj1 (list_elem_of_In _ _) Hh2)).
  rewrite forallb_forall in Hall.
  specialize (Hall sep (proj1 (list_elem_of_In _ _) Hsep)).
  rewrite forallb_forall in Hall.
  specialize (Hall m1 (proj1 (list_elem_of_In _ _) Hm1)).
  rewrite forallb_forall in Hall.
  specialize (Hall m2 (proj1 (list_elem_of_In _ _) Hm2)).
  destruct (time_fields (typed_time h1 h2 sep m1 m2)) as [|hs [|ms [|? ?]]] eqn:Hf;
    [discriminate Hall|discriminate Hall| |discriminate Hall].
  destruct (int_of_str hs) as [h|] eqn:Hhs; [|discriminate Hall].
  destruct (int_of_str ms) as [m|] eqn:Hms; [|discriminate Hall].
  apply andb_prop in Hall as [Hh Hm].
  apply Z.eqb_eq in Hh. apply Z.eqb_eq in Hm. subst.
  by exists hs, ms.
Qed.

(** What the posting-time command accepts is read back by the scheduler
    as typed. *)
Lemma accepted_time (a : string) :
  time_format (strip a) = true →
  ∃ hs ms h m,
    time_fields (strip a) = [hs; ms]
    ∧ int_of_str hs = Ok h ∧ int_of_str ms = Ok m
    ∧ 0 ≤ h ≤ 99 ∧ 0 ≤ m ≤ 99
    ∧ parse_time (VStr (str_replace "." ":" (strip a))) = (h, m)
    ∧ last_char (strip a) ≠ Some "010"%char.
Proof.
  intros Hfmt.
  assert (Hlast : last_char (strip a) ≠ Some "010"%char).
  { intros Hl. by apply strip_last in Hl. }
  destruct (time_format_typed (strip a) Hfmt Hlast)
    as (h1 & h2 & sep & m1 & m2 & Hh1 & Hh2 & Hsep & Hm1 & Hm2 & Htyped).
  destruct (typed_fields_at h1 h2 sep m1 m2 Hh1 Hh2 Hsep Hm1 Hm2)
    as (hs & ms & Hf & Hhs & Hms).
  pose proof (typed_time_at h1 h2 sep m1 m2 Hh1 Hh2 Hsep Hm1 Hm2) as Hparse.
  pose proof (typed_hour_range h1 h2 Hh1 Hh2) as Hrange.
  apply list_elem_of_In, in_seq in Hm1. apply list_elem_of_In, in_seq in Hm2.
  exists hs, ms, (typed_hour h1 h2), (10 * Z.of_nat m1 + Z.of_nat m2).
  rewrite Htyped in Hlast |- *. split_and!; try done; lia.
Qed.

End TypedTimes.

Section ScheduleCommands.

Variable importable : bool.
Variable known_zone : string → bool.
Variable cfg : config.

Implicit Types (b : bot) (d sch : dict).

(** The schedule the block works on and what it leaves behind. *)
Lemma edit_schedule_result (key : string) (v : value) b b' :
  edit_schedule key v b = Ok b' →
  ∃ d sch0,
    load_settings (bot_defaults b) (bot_settings_file b) = VDict d
    ∧ py_or (dict_get d "schedule") (VDict ∅) = VDict sch0
    ∧ (∀ k, is_Some (bot_defaults b !! k) → is_Some (d !! k))
    ∧ bot_settings_file b'
      = Holds (VDict (<["schedule" := VDict (<["enabled" := VBool true]> (<[key := v]> sch0))]> d))
    ∧ bot_scheduler b' = bot_scheduler b
    ∧ bot_defaults b'
      = if schedule_is_default (bot_defaults b) (bot_settings_file b)
           && truthy (dict_get d "schedule")
        then <["schedule" := VDict (<["enabled" := VBool true]> (<[key := v]> sch0))]>
               (bot_defaults b)
        else bot_defaults b.
Proof.
  unfold edit_schedule.
  destruct (load_settings (bot_defaults b) (bot_settings_file b))
    as [| | | | |d] eqn:Hload; try done.
  assert (Hkeys : ∀ k, is_Some (bot_defaults b !! k) → is_Some (d !! k)).
  { destruct (proj1 (load_settings_forms (bot_defaults b) (bot_settings_file b)))
      as [(d' & Hload' & Hkeys)|(data & _ & _ & Hload' & Hin)].
    - assert (d' = d) as -> by congruence. done.
    - assert (data = VDict d) as -> by congruence.
      intros k Hk. specialize (Hin k Hk). cbn in Hin.
      injection Hin as Hin. by apply bool_decide_eq_true in Hin. }
  cbn [py_get mbind result_bind].
  destruct (py_or (dict_get d "schedule") (VDict ∅)) as [| | | | |sch0] eqn:Hsch; try done.
  cbn [py_setitem mbind result_bind]. intros [= <-].
  exists d, sch0. by split_and!.
Qed.

(** After the block the file is complete: a load returns what it holds,
    and the scheduler reads the schedule just written. *)
Lemma load_after_edit (key : string) (v : value) b b' :
  edit_schedule key v b = Ok b' →
  ∃ d sch,
    bot_settings_file b' = Holds (VDict d)
    ∧ load_settings (bot_defaults b') (bot_settings_file b') = VDict d
    ∧ d !! "schedule" = Some (VDict sch)
    ∧ sch !! "enabled" = Some (VBool true)
    ∧ (key ≠ "enabled" → sch !! key = Some v)
    ∧ bot_scheduler b' = bot_scheduler b
    ∧ read_schedule cfg (VDict d)
      = Ok (d, sch, negb (truthy (job_chat_id cfg (dict_get d "target_chat_id"))))
    ∧ (∃ d0, load_settings (bot_defaults b) (bot_settings_file b) = VDict d0
         ∧ ∀ k, k ≠ "schedule" → d !! k = d0 !! k)
    ∧ (∀ k, is_Some (bot_defaults b' !! k) → is_Some (d !! k)).
Proof.
  intros Hedit.
  destruct (edit_schedule_result key v b b' Hedit)
    as (d & sch0 & Hload & Hsch & Hkeys & Hfile & Hsched & Hdefaults).
  set (sch := <["enabled" := VBool true]> (<[key := v]> sch0)) in *.
  exists (<["schedule" := VDict sch]> d), sch.
  assert (Hen : sch !! "enabled" = Some (VBool true)) by apply lookup_insert_eq.
  assert (Hall : ∀ k, is_Some (bot_defaults b' !! k)
                      → is_Some (<["schedule" := VDict sch]> d !! k)).
  { intros k Hk. destruct (decide (k = "schedule")) as [-> |Hne].
    + rewrite lookup_insert_eq. by eexists.
    + rewrite lookup_insert_ne by done. apply Hkeys.
      rewrite Hdefaults in Hk. destruct (_ && _); [|done].
      by rewrite lookup_insert_ne in Hk. }
  split_and!; try done.
  - rewrite Hfile, load_settings_union. f_equal. by apply union_defaults_id.
  - apply lookup_insert_eq.
  - intros Hkey. unfold sch. rewrite lookup_insert_ne by done. apply lookup_insert_eq.
  - rewrite (read_schedule_dict cfg _ sch).
    + unfold dict_get at 1. rewrite Hen. done.
    + unfold dict_get. rewrite lookup_insert_eq.
      change (default VNone (Some (VDict sch))) with (VDict sch). unfold py_or.
      cbn [truthy]. rewrite bool_decide_eq_false_2; [done|].
      intros Hempty. by rewrite Hempty, lookup_empty in Hen.
  - exists d. split; [done|]. intros k Hk. by rewrite lookup_insert_ne.
Qed.

(** The set-up call that ends both commands, on the state the block
    leaves. *)
Lemma reschedule_after_edit (key : string) (v : value) b b' d sch :
  edit_schedule key v b = Ok b' →
  load_settings (bot_defaults b') (bot_settings_file b') = VDict d →
  read_schedule cfg (VDict d)
  = Ok (d, sch, negb (truthy (job_chat_id cfg (dict_get d "target_chat_id")))) →
  truthy (job_chat_id cfg (dict_get d "target_chat_id")) = true →
  (∀ e, build_trigger known_zone cfg d sch = Raise e →
        bot_scheduler (reschedule importable known_zone cfg b') = bot_scheduler b')
  ∧ (importable = true → ∀ trig, build_trigger known_zone cfg d sch = Ok trig →
       active "travel_post_job" (bot_scheduler (reschedule importable known_zone cfg b'))
       = [trig]).
Proof.
  intros Hedit Hload Hread Htarget.
  unfold reschedule, setup_scheduler. cbn [bot_scheduler].
  rewrite Hload, Hread, Htarget. cbn [negb].
  split.
  - intros e He. rewrite He. by destruct importable.
  - intros -> trig Htrig. rewrite Htrig. cbn [negb].
    match goal with |- context [add_job trig ?id (drop_job ?id ?sc)] =>
      destruct (add_after_drop trig id sc) as (sc' & -> & Hact) end.
    done.
Qed.

Lemma build_trigger_time d sch (h m : Z) :
  parse_time (schedule_time sch) = (h, m) →
  (∀ trig, build_trigger known_zone cfg d sch = Ok trig →
           hour trig = h ∧ minute trig = m ∧ 0 ≤ h ≤ 23 ∧ 0 ≤ m ≤ 59)
  ∧ (¬ (0 ≤ h ≤ 23 ∧ 0 ≤ m ≤ 59) → ∃ e, build_trigger known_zone cfg d sch = Raise e).
Proof.
  intros Hparse. unfold build_trigger.
  destruct (pytz_timezone _ _) as [tz|]; cbn [mbind result_bind].
  2:{ split; [done|eauto]. }
  destruct (schedule_frequency sch) as [freq|]; cbn [mbind result_bind].
  2:{ split; [done|eauto]. }
  rewrite Hparse. unfold CronTrigger.
  destruct ((0 <=? h) && (h <=? 23) && (0 <=? m) && (m <=? 59)) eqn:Hrange.
  - split.
    + intros trig [= <-]. cbn. lia.
    + intros Hout. exfalso. apply Hout. lia.
  - split; [done|eauto].
Qed.

End ScheduleCommands.

(** X22. [/set_schedule] with a time its format check lets through: the
    two fields of the typed time are integer literals; the time is saved
    with [":"] and the schedule is switched on; the scheduler reads back
    exactly the typed hour and minute, never the 9:30 fallback; and the
    reply says the schedule is on. But the format lets hours up to 99 and
    minutes up to 99 through: for a time outside the clock (with a chat to
    post to) the trigger cannot be built, the error is swallowed and the
    scheduler stays as it was, whereas a trigger that is built is the only
    one for the job and fires at the typed hour and minute. *)
Theorem set_schedule_effect (importable : bool) (known_zone : string → bool)
    (cfg : config) (a : string) (rest : list string) (b b' : bot) (reply : string) :
  cmd_set_schedule importable known_zone cfg (a :: rest) b = Ok (b', reply) →
  time_format (strip a) = true →
  ∃ (d sch : dict) (hs ms : string) (h m : Z),
    time_fields (strip a) = [hs; ms]
    ∧ int_of_str hs = Ok h ∧ int_of_str ms = Ok m
    ∧ bot_settings_file b' = Holds (VDict d)
    ∧ d !! "schedule" = Some (VDict sch)
    ∧ sch !! "time" = Some (VStr (str_replace "." ":" (strip a)))
    ∧ sch !! "enabled" = Some (VBool true)
    ∧ parse_time (schedule_time sch) = (h, m)
    ∧ reply = "Время постинга: " +:+ str_replace "." ":" (strip a) +:+ ". Включено."
    ∧ (truthy (job_chat_id cfg (dict_get d "target_chat_id")) = true →
       ¬ (h ≤ 23 ∧ m ≤ 59) → bot_scheduler b' = bot_scheduler b)
    ∧ (importable = true →
       truthy (job_chat_id cfg (dict_get d "target_chat_id")) = true →
       ∀ trig, build_trigger known_zone cfg d sch = Ok trig →
         active "travel_post_job" (bot_scheduler b') = [trig]
         ∧ hour trig = h ∧ minute trig = m).
Proof.
  intros Hcmd Hfmt. unfold cmd_set_schedule in Hcmd. rewrite Hfmt in Hcmd.
  cbn [negb] in Hcmd.
  destruct (edit_schedule "time" (VStr (str_replace "." ":" (strip a))) b)
    as [b1|] eqn:Hedit; [|done].
  cbn [mbind result_bind] in Hcmd. injection Hcmd as <- <-.
  destruct (load_after_edit cfg "time" _ b b1 Hedit)
    as (d & sch & Hfile & Hload & Hsch & Hen & Htime & Hsame & Hread & _).
  specialize (Htime ltac:(done)).
  destruct (accepted_time a Hfmt)
    as (hs & ms & h & m & Hfields & Hhs & Hms & Hh & Hm & Hparse & _).
  assert (Hstored : schedule_time sch = VStr (str_replace "." ":" (strip a))).
  { unfold schedule_time, dict_get. rewrite Htime.
    change (default VNone (Some ?v)) with v. unfold py_or. cbn [truthy].
    rewrite bool_decide_eq_false_2; [done|].
    destruct (strip a); [done|]. discriminate. }
  assert (Hback : parse_time (schedule_time sch) = (h, m)) by by rewrite Hstored.
  exists d, sch, hs, ms, h, m. split_and!; try done.
  - intros Htarget Hout. cbn [bot_scheduler reschedule].
    destruct (reschedule_after_edit importable known_zone cfg "time" _ b b1 d sch
                Hedit Hload Hread Htarget) as [Hraise _].
    destruct (proj2 (build_trigger_time known_zone cfg d sch h m Hback)) as [e He].
    { intros [[_ ?] [_ ?]]. apply Hout. done. }
    specialize (Hraise e He). cbn [bot_scheduler reschedule] in Hraise. congruence.
  - intros Himp Htarget trig Htrig.
    destruct (reschedule_after_edit importable known_zone cfg "time" _ b b1 d sch
                Hedit Hload Hread Htarget) as [_ Hok].
    destruct (proj1 (build_trigger_time known_zone cfg d sch h m Hback) trig Htrig)
      as (Hhour & Hminute & _).
    split_and!; [|done|done]. by apply Hok.
Qed.

Lemma set_schedule_effect_witness :
  let b := {| bot_defaults := DEFAULT_SETTINGS sample_config;
              bot_settings_file := Holds (sample_settings false "09:30" "daily");
              bot_scheduler := None |} in
  ∃ b' reply sch,
    cmd_set_schedule true (λ _, true) sample_config ["7.05"] b = Ok (b', reply)
    ∧ sch !! "time" = Some (VStr "7:05")
    ∧ parse_time (schedule_time sch) = (7, 5).
Proof.
  intros b.
  assert (Hcmd : ∃ res, cmd_set_schedule true (λ _, true) sample_config ["7.05"] b = Ok res)
    by (eexists; vm_compute; reflexivity).
  destruct Hcmd as [[b' reply] Hcmd].
  destruct (set_schedule_effect true (λ _, true) sample_config "7.05" [] b b' reply Hcmd)
    as (d & sch & hs & ms & h & m & Hfields & Hhs & Hms & _ & _ & Htime & _ & Hparse & _).
  { reflexivity. }
  vm_compute in Hfields. injection Hfields as <- <-.
  vm_compute in Hhs. injection Hhs as <-.
  vm_compute in Hms. injection Hms as <-.
  exists b', reply, sch. split_and!; [exact Hcmd|exact Htime|exact Hparse].
Defined.

(** X23. [/set_schedule] and [/set_frequency] change the schedule dict in
    place. When that dict is the one of [DEFAULT_SETTINGS] (no settings
    file yet, an unreadable one, or one without a schedule), the command
    changes the defaults of the running process: should the settings file
    be lost afterwards, the settings come back with the schedule switched
    on and the typed value in it, not with the shipped schedule. When the
    file has a schedule of its own, the defaults stay as they were. *)
Theorem schedule_commands_change_defaults (importable : bool)
    (known_zone : string → bool) (cfg : config) (a : string) (rest : list string)
    (b b' : bot) (reply : string) :
  (cmd_set_schedule importable known_zone cfg (a :: rest) b = Ok (b', reply)
   ∧ time_format (strip a) = true)
  ∨ cmd_set_frequency importable known_zone cfg (a :: rest) b = Ok (b', reply) →
  (schedule_is_default (bot_defaults b) (bot_settings_file b) = false →
   bot_defaults b' = bot_defaults b)
  ∧ (schedule_is_default (bot_defaults b) (bot_settings_file b) = true →
     truthy (dict_get (bot_defaults b) "schedule") = true →
     ∃ sch,
       dict_get (bot_defaults b') "schedule" = VDict sch
       ∧ sch !! "enabled" = Some (VBool true)
       ∧ (sch !! "time" = Some (VStr (str_replace "." ":" (strip a)))
          ∨ sch !! "frequency" = Some (VStr (lower (strip a))))
       ∧ ∀ d, load_settings (bot_defaults b') Absent = VDict d →
              dict_get d "schedule" = VDict sch).
Proof.
  intros Hcmd.
  assert (Hedit : ∃ key v b1,
            edit_schedule key v b = Ok b1 ∧ bot_defaults b' = bot_defaults b1
            ∧ key ≠ "enabled"
            ∧ ((key = "time" ∧ v = VStr (str_replace "." ":" (strip a)))
               ∨ (key = "frequency" ∧ v = VStr (lower (strip a))))).
  { destruct Hcmd as [[Hcmd Hfmt]|Hcmd].
    - unfold cmd_set_schedule in Hcmd. rewrite Hfmt in Hcmd. cbn [negb] in Hcmd.
      destruct (edit_schedule "time" _ b) as [b1|] eqn:Hedit; [|done].
      cbn [mbind result_bind] in Hcmd. injection Hcmd as <- _.
      exists "time", (VStr (str_replace "." ":" (strip a))), b1.
      split_and!; [done|done|done|by left].
    - unfold cmd_set_frequency in Hcmd.
      destruct (edit_schedule "frequency" _ b) as [b1|] eqn:Hedit; [|done].
      cbn [mbind result_bind] in Hcmd. injection Hcmd as <- _.
      exists "frequency", (VStr (lower (strip a))), b1.
      split_and!; [done|done|done|by right]. }
  destruct Hedit as (key & v & b1 & Hedit & -> & Hkey & Hwhich).
  destruct (edit_schedule_result key v b b1 Hedit)
    as (d & sch0 & Hload & Hsch & _ & _ & _ & Hdefaults).
  rewrite Hdefaults. split.
  - by intros ->.
  - intros Hshared Htruthy. rewrite Hshared. cbn [andb].
    assert (Hsame : dict_get d "schedule" = dict_get (bot_defaults b) "schedule").
    { revert Hshared Hload. unfold schedule_is_default, load_settings.
      destruct (bot_settings_file b) as [| |data]; [by intros _ [= <-]..|].
      destruct data as [| | | | |data];
        try (destruct (backfill _ _); [done|by intros _ [= <-]]).
      intros Hnone%bool_decide_eq_true. rewrite backfill_union, list_to_map_to_list.
      intros [= <-]. unfold dict_get. by rewrite lookup_union, Hnone, (left_id_L None _). }
    rewrite Hsame, Htruthy.
    set (sch := <["enabled" := VBool true]> (<[key := v]> sch0)).
    exists sch. split_and!.
    + unfold dict_get. by rewrite lookup_insert_eq.
    + apply lookup_insert_eq.
    + assert (Hv : sch !! key = Some v).
      { unfold sch. rewrite lookup_insert_ne by done. apply lookup_insert_eq. }
      destruct Hwhich as [[-> ->]|[-> ->]]; auto.
    + intros d' [= <-]. unfold dict_get. by rewrite lookup_insert_eq.
Qed.

Lemma schedule_commands_change_defaults_witness :
  let b := {| bot_defaults := DEFAULT_SETTINGS sample_config;
              bot_settings_file := Absent;
              bot_scheduler := None |} in
  ∃ b' reply sch,
    cmd_set_frequency true (λ _, true) sample_config ["Sat,Sun"] b = Ok (b', reply)
    ∧ dict_get (bot_defaults b') "schedule" = VDict sch
    ∧ sch !! "enabled" = Some (VBool true).
Proof.
  intros b.
  assert (Hcmd : ∃ res, cmd_set_frequency true (λ _, true) sample_config ["Sat,Sun"] b
                        = Ok res)
    by (eexists; vm_compute; reflexivity).
  destruct Hcmd as [[b' reply] Hcmd].
  destruct (schedule_commands_change_defaults true (λ _, true) sample_config "Sat,Sun" []
              b b' reply (or_intror Hcmd)) as [_ Hshared].
  destruct (Hshared eq_refl eq_refl) as (sch & Hsch & Hen & _).
  exists b', reply, sch. by split_and!.
Defined.

(** ** Commands: what [strip] leaves *)

Section Stripping.

Lemma rev_snoc (s : string) (c : ascii) :
  String.rev (s +:+ String c "") = String c (String.rev s).
Proof.
  induction s as [|a s IH]; [done|].
  by rewrite append_cons, !rev_cons, IH, append_cons.
Qed.

Lemma rev_rev (s : string) : String.rev (String.rev s) = s.
Proof.
  induction s as [|a s IH]; [done|]. by rewrite rev_cons, rev_snoc, IH.
Qed.

Lemma rev_empty (s : string) : String.rev s = "" → s = "".
Proof. intros Hs. by rewrite <- (rev_rev s), Hs. Qed.

Lemma first_char_rev (s : string) : first_char (String.rev s) = last_char s.
Proof.
  induction s as [|a s IH]; [done|]. rewrite rev_cons.
  destruct s as [|b s]; [done|].
  change (last_char (String a (String b s))) with (last_char (String b s)).
  rewrite <- IH.
  destruct (String.rev (String b s)) as [|x r] eqn:Hrev; [|done].
  by apply rev_empty in Hrev.
Qed.

Lemma last_char_rev (s : string) : last_char (String.rev s) = first_char s.
Proof. by rewrite <- first_char_rev, rev_rev. Qed.

Lemma lstrip_by_fix (blank : ascii → bool) (s : string) :
  (∀ c, first_char s = Some c → blank c = false) → lstrip_by blank s = s.
Proof.
  destruct s as [|a s]; [done|]. intros Hfirst. cbn [lstrip_by].
  by rewrite (Hfirst a eq_refl).
Qed.

Lemma lstrip_by_first (blank : ascii → bool) (s : string) (c : ascii) :
  first_char (lstrip_by blank s) = Some c → blank c = false.
Proof.
  destruct (lstrip_by blank s) as [|a r] eqn:Hs; [done|].
  intros [= <-]. by eapply lstrip_by_head.
Qed.

Lemma lstrip_by_last (blank : ascii → bool) (s : string) :
  lstrip_by blank s ≠ "" → last_char (lstrip_by blank s) = last_char s.
Proof.
  induction s as [|a s IH]; [done|]. cbn [lstrip_by].
  destruct (blank a); [|done]. intros Hne. rewrite (IH Hne).
  destruct s; [done|done].
Qed.

(** [strip] leaves no blank at either end. *)
Lemma strip_trimmed (s : string) : trimmed (strip s).
Proof.
  unfold strip, strip_by.
  set (u := lstrip_by py_isspace s).
  set (v := lstrip_by py_isspace (String.rev u)).
  split; intros c.
  - rewrite first_char_rev. intros Hc.
    assert (Hv : v ≠ "") by (intros Hv; by rewrite Hv in Hc).
    unfold v in Hc. rewrite lstrip_by_last in Hc by done.
    rewrite last_char_rev in Hc. by eapply lstrip_by_first.
  - rewrite last_char_rev. apply lstrip_by_first.
Qed.

(** [strip] changes nothing in a string with no blank at either end. *)
Lemma strip_fix (s : string) : trimmed s → strip s = s.
Proof.
  intros [Hfirst Hlast]. unfold strip, strip_by.
  rewrite (lstrip_by_fix _ s Hfirst).
  rewrite lstrip_by_fix; [apply rev_rev|].
  intros c. rewrite first_char_rev. apply Hlast.
Qed.

Lemma strip_idemp (s : string) : strip (strip s) = strip s.
Proof. apply strip_fix, strip_trimmed. Qed.

Lemma py_isspace_lower_char (c : ascii) : py_isspace (lower_char c) = py_isspace c.
Proof. by destruct c as [[] [] [] [] [] [] [] []]. Qed.

Lemma lstrip_lower (s : string) :
  lstrip_by py_isspace (lower s) = lower (lstrip_by py_isspace s).
Proof.
  induction s as [|a s IH]; [done|]. cbn [lower str_map lstrip_by].
  rewrite py_isspace_lower_char. by destruct (py_isspace a).
Qed.

Lemma strip_lower (s : string) : strip (lower s) = lower (strip s).
Proof.
  unfold strip, strip_by. by rewrite lstrip_lower, rev_lower, lstrip_lower, rev_lower.
Qed.

Lemma lstrip_all (ok blank : ascii → bool) (s : string) :
  str_all ok s = true → str_all ok (lstrip_by blank s) = true.
Proof.
  induction s as [|a s IH]; [done|]. cbn [lstrip_by str_all].
  intros [Ha Hs]%andb_prop. destruct (blank a); [by apply IH|].
  cbn [str_all]. by rewrite Ha, Hs.
Qed.

Lemma strip_all (ok : ascii → bool) (s : string) :
  str_all ok s = true → str_all ok (strip s) = true.
Proof.
  intros Hs. unfold strip, strip_by.
  rewrite str_all_rev. apply lstrip_all. rewrite str_all_rev. by apply lstrip_all.
Qed.

End Stripping.

Section OneKey.

Implicit Types (b : bot) (d : dict).

(** Storing one key: the file then holds the loaded settings with that
    key set, and a load returns what the file holds. *)
Lemma store_setting_result (key : string) (v : value) b b' :
  store_setting key v b = Ok b' →
  ∃ d,
    load_settings (bot_defaults b) (bot_settings_file b) = VDict d
    ∧ bot_settings_file b' = Holds (VDict (<[key := v]> d))
    ∧ load_settings (bot_defaults b') (bot_settings_file b') = VDict (<[key := v]> d)
    ∧ bot_defaults b' = bot_defaults b
    ∧ bot_scheduler b' = bot_scheduler b.
Proof.
  unfold store_setting.
  destruct (load_settings (bot_defaults b) (bot_settings_file b))
    as [| | | | |d] eqn:Hload; try done.
  cbn [py_setitem mbind result_bind]. intros [= <-]. exists d.
  cbn [bot_settings_file bot_defaults bot_scheduler save_settings].
  split_and!; try done.
  rewrite load_settings_union. f_equal. apply union_defaults_id.
  intros k Hk.
  assert (Hd : is_Some (d !! k)).
  { destruct (proj1 (load_settings_forms (bot_defaults b) (bot_settings_file b)))
      as [(d' & Hload' & Hkeys)|(data & _ & _ & Hload' & Hin)].
    - assert (d' = d) as -> by congruence. by apply Hkeys.
    - assert (data = VDict d) as -> by congruence.
      specialize (Hin k Hk). cbn in Hin.
      injection Hin as Hin. by apply bool_decide_eq_true in Hin. }
  destruct (decide (k = key)) as [-> |Hne].
  - rewrite lookup_insert_eq. by eexists.
  - by rewrite lookup_insert_ne.
Qed.

Lemma split_constraints_clean (raw : string) :
  Forall (λ x, x ≠ "" ∧ trimmed x ∧ strip x = x
               ∧ str_all (λ c, negb (Ascii.eqb c ",")) x = true)
    (split_constraints raw).
Proof.
  unfold split_constraints. apply Forall_fmap, Forall_forall.
  intros x Hx. apply list_elem_of_filter in Hx as [Hne Hx]. cbn.
  split_and!.
  - done.
  - apply strip_trimmed.
  - apply strip_idemp.
  - apply strip_all.
    pose proof (split_go_clean "," "" raw eq_refl) as Hclean.
    rewrite Forall_forall in Hclean. by apply Hclean.
Qed.

End OneKey.

(** X24. [/set_frequency]: only the first word after the command counts.
    It is saved trimmed and in lower case and the schedule is switched on.
    What is saved is a fixed point of the scheduler's own normalisation, so
    the scheduler reads back the saved frequency as it stands (an empty one
    as ["daily"]), and a trigger built from it is the only one for the job
    and has the weekdays of that frequency. *)
Theorem set_frequency_effect (importable : bool) (known_zone : string → bool)
    (cfg : config) (a : string) (rest : list string) (b b' : bot) (reply : string) :
  cmd_set_frequency importable known_zone cfg (a :: rest) b = Ok (b', reply) →
  let freq := if bool_decide (strip a = "") then "daily" else lower (strip a) in
  ∃ (d sch : dict),
    bot_settings_file b' = Holds (VDict d)
    ∧ d !! "schedule" = Some (VDict sch)
    ∧ sch !! "frequency" = Some (VStr (lower (strip a)))
    ∧ sch !! "enabled" = Some (VBool true)
    ∧ schedule_frequency sch = Ok freq
    ∧ reply = "Частота: " +:+ lower (strip a)
    ∧ cmd_set_frequency importable known_zone cfg [a] b = Ok (b', reply)
    ∧ (importable = true →
       truthy (job_chat_id cfg (dict_get d "target_chat_id")) = true →
       ∀ trig, build_trigger known_zone cfg d sch = Ok trig →
         active "travel_post_job" (bot_scheduler b') = [trig]
         ∧ day_of_week trig = trigger_days freq).
Proof.
  intros Hcmd freq. pose proof Hcmd as Hone. unfold cmd_set_frequency in Hcmd.
  destruct (edit_schedule "frequency" (VStr (lower (strip a))) b)
    as [b1|] eqn:Hedit; [|done].
  cbn [mbind result_bind] in Hcmd. injection Hcmd as <- <-.
  destruct (load_after_edit cfg "frequency" _ b b1 Hedit)
    as (d & sch & Hfile & Hload & Hsch & Hen & Hfreq & Hsame & Hread & _).
  specialize (Hfreq ltac:(done)).
  assert (Hnorm : schedule_frequency sch = Ok freq).
  { unfold schedule_frequency, dict_get. rewrite Hfreq.
    change (default VNone (Some ?v)) with v. unfold py_or, freq. cbn [truthy].
    case_bool_decide as Hempty.
    - destruct (strip a) eqn:Hs; [|done]. done.
    - rewrite bool_decide_eq_false_2.
      + cbn [negb py_strip fmap result_fmap].
        by rewrite strip_lower, strip_idemp, lower_idemp.
      + destruct (strip a); [done|]. discriminate. }
  exists d, sch. split_and!; try done.
  intros Himp Htarget trig Htrig.
  destruct (reschedule_after_edit importable known_zone cfg "frequency" _ b b1 d sch
              Hedit Hload Hread Htarget) as [_ Hok].
  split; [by apply Hok|].
  revert Htrig. unfold build_trigger.
  destruct (pytz_timezone _ _) as [tz|]; [|done]. cbn [mbind result_bind].
  rewrite Hnorm. cbn [mbind result_bind].
  destruct (parse_time _) as [h m]. unfold CronTrigger.
  destruct (_ && _); [|done]. by intros [= <-].
Qed.

Lemma set_frequency_effect_witness :
  let b := {| bot_defaults := DEFAULT_SETTINGS sample_config;
              bot_settings_file := Holds (sample_settings false "09:30" "daily");
              bot_scheduler := None |} in
  ∃ b' reply sch,
    cmd_set_frequency true (λ _, true) sample_config ["Mon,"; "wed"] b = Ok (b', reply)
    ∧ sch !! "frequency" = Some (VStr "mon,")
    ∧ schedule_frequency sch = Ok "mon,".
Proof.
  intros b.
  assert (Hcmd : ∃ res, cmd_set_frequency true (λ _, true) sample_config ["Mon,"; "wed"] b
                        = Ok res)
    by (eexists; vm_compute; reflexivity).
  destruct Hcmd as [[b' reply] Hcmd].
  destruct (set_frequency_effect true (λ _, true) sample_config "Mon," ["wed"] b b' reply
              Hcmd) as (d & sch & _ & _ & Hfreq & _ & Hnorm & _).
  exists b', reply, sch. split_and!; [exact Hcmd|exact Hfreq|exact Hnorm].
Defined.

(** X25. [/set_constraints] joins its words with spaces and splits the
    text at commas. Every constraint it saves is non-empty, holds no comma
    and has no blank at either end (trimming it again changes nothing);
    pieces that are empty or blank are dropped; and the settings file then
    holds the loaded settings with exactly this list under
    ["constraints"], every other key as it was. *)
Theorem set_constraints_effect (container_repr : value → string) (args : list string)
    (b b' : bot) (reply : string) :
  cmd_set_constraints container_repr args b = Ok (b', reply) →
  ∃ (d : dict) (cs : list string),
    cs = split_constraints (strip (str_join " " args))
    ∧ load_settings (bot_defaults b) (bot_settings_file b) = VDict d
    ∧ bot_settings_file b' = Holds (VDict (<["constraints" := VList (VStr <$> cs)]> d))
    ∧ Forall (λ x, x ≠ "" ∧ trimmed x ∧ strip x = x
                   ∧ str_all (λ c, negb (Ascii.eqb c ",")) x = true) cs
    ∧ (∀ x, x ∈ cs ↔ ∃ p, p ∈ str_split "," (strip (str_join " " args))
                          ∧ strip p ≠ "" ∧ x = strip p)
    ∧ bot_scheduler b' = bot_scheduler b.
Proof.
  unfold cmd_set_constraints. intros Hcmd.
  destruct (store_setting "constraints" _ b) as [b1|] eqn:Hstore; [|done].
  cbn [mbind result_bind] in Hcmd. injection Hcmd as <- _.
  destruct (store_setting_result _ _ b b1 Hstore) as (d & Hload & Hfile & _ & _ & Hsched).
  exists d, (split_constraints (strip (str_join " " args))).
  split_and!; try done.
  - apply split_constraints_clean.
  - intros x. unfold split_constraints. rewrite list_elem_of_fmap. split.
    + intros (p & -> & Hp). apply list_elem_of_filter in Hp as [Hne Hp]. eauto.
    + intros (p & Hp & Hne & ->). exists p. split; [done|].
      by apply list_elem_of_filter.
Qed.

Lemma set_constraints_effect_witness :
  let b := {| bot_defaults := DEFAULT_SETTINGS sample_config;
              bot_settings_file := Absent;
              bot_scheduler := None |} in
  ∃ b' reply d,
    cmd_set_constraints (λ _, "") ["no"; "flights,"; ","; "under"; "500"; "eur"] b
    = Ok (b', reply)
    ∧ bot_settings_file b' = Holds (VDict d)
    ∧ d !! "constraints" = Some (VList [VStr "no flights"; VStr "under 500 eur"]).
Proof.
  intros b.
  assert (Hcmd : ∃ res, cmd_set_constraints (λ _, "")
                          ["no"; "flights,"; ","; "under"; "500"; "eur"] b = Ok res)
    by (eexists; vm_compute; reflexivity).
  destruct Hcmd as [[b' reply] Hcmd].
  destruct (set_constraints_effect (λ _, "") _ b b' reply Hcmd)
    as (d & cs & Hcs & _ & Hfile & _).
  vm_compute in Hcs. subst cs.
  eexists b', reply, _. split_and!; [exact Hcmd|exact Hfile|].
  by rewrite lookup_insert_eq.
Defined.

(** X26. [/set_target] saves the chat but does not call
    [setup_scheduler]. So when the posting time is set while no target
    chat is known (and the scheduler libraries are there), and the target
    is set afterwards, no trigger is active although the saved settings
    have the schedule switched on and a target chat; it takes the next
    set-up call (a restart, or another schedule command) to install the
    trigger. *)
Theorem target_after_schedule_needs_setup (importable : bool)
    (known_zone : string → bool) (cfg : config) (a : string) (rest : list string)
    (chat : Z) (b b1 b2 : bot) (r1 r2 : string) :
  importable = true →
  time_format (strip a) = true →
  (∀ d, load_settings (bot_defaults b) (bot_settings_file b) = VDict d →
        truthy (job_chat_id cfg (dict_get d "target_chat_id")) = false) →
  chat ≠ 0 →
  cmd_set_schedule importable known_zone cfg (a :: rest) b = Ok (b1, r1) →
  cmd_set_target chat b1 = Ok (b2, r2) →
  active "travel_post_job" (bot_scheduler b2) = []
  ∧ ∃ (d sch : dict),
      load_settings (bot_defaults b2) (bot_settings_file b2) = VDict d
      ∧ dict_get d "target_chat_id" = VInt chat
      ∧ d !! "schedule" = Some (VDict sch)
      ∧ sch !! "enabled" = Some (VBool true)
      ∧ ∀ trig, build_trigger known_zone cfg d sch = Ok trig →
          active "travel_post_job"
            (bot_scheduler (reschedule importable known_zone cfg b2)) = [trig].
Proof.
  intros -> Hfmt Hnone Hchat Hsched Htarget.
  unfold cmd_set_schedule in Hsched. rewrite Hfmt in Hsched. cbn [negb] in Hsched.
  destruct (edit_schedule "time" (VStr (str_replace "." ":" (strip a))) b)
    as [b0|] eqn:Hedit; [|done].
  cbn [mbind result_bind] in Hsched. injection Hsched as <- _.
  destruct (load_after_edit cfg "time" _ b b0 Hedit)
    as (d & sch & Hfile & Hload & Hsch & Hen & _ & Hsame & Hread & (d0 & Hload0 & Hkeys)
        & Hall).
  assert (Hoff : truthy (job_chat_id cfg (dict_get d "target_chat_id")) = false).
  { unfold dict_get. rewrite Hkeys by done. by apply Hnone. }
  unfold cmd_set_target in Htarget.
  destruct (store_setting "target_chat_id" (VInt chat) _) as [b3|] eqn:Hstore; [|done].
  cbn [mbind result_bind] in Htarget. injection Htarget as <- _.
  destruct (store_setting_result _ _ _ b3 Hstore)
    as (d' & Hload' & Hfile' & Hloaded & Hdefaults & Hsched').
  cbn [reschedule bot_defaults bot_settings_file] in Hload'.
  assert (d' = d) as -> by congruence.
  split.
  - rewrite Hsched'. unfold reschedule, setup_scheduler. cbn [bot_scheduler negb].
    rewrite Hload, Hread, Hoff. cbn [negb fst]. apply active_drop_job.
  - exists (<["target_chat_id" := VInt chat]> d), sch. split_and!.
    + done.
    + unfold dict_get. by rewrite lookup_insert_eq.
    + by rewrite lookup_insert_ne.
    + done.
    + intros trig Htrig. unfold reschedule, setup_scheduler. cbn [bot_scheduler negb].
      rewrite Hloaded.
      rewrite (read_schedule_dict cfg _ sch).
      2:{ unfold dict_get. rewrite lookup_insert_ne by done. rewrite Hsch.
          change (default VNone (Some (VDict sch))) with (VDict sch). unfold py_or.
          cbn [truthy]. rewrite bool_decide_eq_false_2; [done|].
          intros Hempty. by rewrite Hempty, lookup_empty in Hen. }
      assert (Hon : negb (truthy (dict_get sch "enabled"))
                    || negb (truthy (job_chat_id cfg
                                       (dict_get (<["target_chat_id" := VInt chat]> d)
                                          "target_chat_id"))) = false).
      { unfold dict_get. rewrite Hen, lookup_insert_eq.
        change (default VNone (Some ?v)) with v. unfold job_chat_id. cbn [truthy].
        destruct (chat =? 0) eqn:Hz; [apply Z.eqb_eq in Hz; done|].
        cbn [negb andb orb truthy]. by rewrite Hz. }
      rewrite Hon, Htrig.
      match goal with |- context [add_job trig ?id (drop_job ?id ?sc)] =>
        destruct (add_after_drop trig id sc) as (sc' & -> & Hact) end.
      done.
Qed.

Lemma target_after_schedule_needs_setup_witness :
  let b := {| bot_defaults := DEFAULT_SETTINGS sample_config;
              bot_settings_file := Absent;
              bot_scheduler := None |} in
  ∃ b1 r1 b2 r2,
    cmd_set_schedule true (λ _, true) sample_config ["18:00"] b = Ok (b1, r1)
    ∧ cmd_set_target (-1001) b1 = Ok (b2, r2)
    ∧ active "travel_post_job" (bot_scheduler b2) = [].
Proof.
  intros b.
  assert (H1 : ∃ res, cmd_set_schedule true (λ _, true) sample_config ["18:00"] b = Ok res)
    by (eexists; vm_compute; reflexivity).
  destruct H1 as [[b1 r1] H1].
  assert (H2 : ∃ res, cmd_set_target (-1001) b1 = Ok res).
  { revert H1. vm_compute. intros [= <- _]. eexists. reflexivity. }
  destruct H2 as [[b2 r2] H2].
  destruct (target_after_schedule_needs_setup true (λ _, true) sample_config "18:00" []
              (-1001) b b1 b2 r1 r2) as [Hnone _];
    [reflexivity|reflexivity| |done|exact H1|exact H2|].
  { intros d [= <-]. reflexivity. }
  exists b1, r1, b2, r2. split_and!; [exact H1|exact H2|exact Hnone].
Defined.

(** * The run as a whole: delivery, result, rotation *)

Section RunClaims.

Variable cfg : config.

Implicit Types (o : oracle) (d : dict) (dk : disk) (out : outcome).

Lemma deliver_calls_only o (image_url : option string) (post_text : string) :
  filter (λ ev, is_delivery ev = true) (deliver o image_url post_text).1
  = (deliver o image_url post_text).1.
Proof.
  unfold deliver, send_by_url, send_by_file, send_text.
  destruct (truthy_opt image_url); [|done].
  destruct (send_photo_url o ≫= _); [done|].
  destruct (download_image o).
  - by destruct (send_photo_file o ≫= _).
  - done.
Qed.

Lemma crosspost_no_delivery o d (post_text : string) (image_url : option string)
    (f : file (list entry)) :
  filter (λ ev, is_delivery ev = true) (crosspost cfg o d post_text image_url f).1.1 = [].
Proof.
  unfold crosspost. destruct (_ && _); [|done].
  by destruct (vk_publish_post o) as [[p|]|].
Qed.

(** The delivery of a run that gets as far as the publisher: its calls
    are those of [deliver], and its answer decides the result. *)
Lemma publish_body_delivered o d target dest rubric tone season audience constraints dk
    (gen : gen_out) :
  generate_travel_post o = Ok gen →
  publisher_init o = Ok () →
  let out := publish_body cfg o d target dest rubric tone season audience constraints dk in
  let sent := deliver o (generated_image o) (generated_text gen) in
  delivery_calls out = sent.1
  ∧ (∀ mid, sent.2 = Ok mid →
       tg_message_id (run_result out) = mid
       ∧ (ok (run_result out) = true ↔ ∃ chat, py_int target = Ok chat))
  ∧ (∀ e, sent.2 = Raise e →
       ok (run_result out) = false ∧ tg_message_id (run_result out) = None).
Proof.
  intros Hgen Hinit out sent. unfold out, sent, delivery_calls, publish_body.
  rewrite Hgen, Hinit.
  pose proof (deliver_calls_only o (generated_image o) (generated_text gen)) as Honly.
  destruct (deliver o (generated_image o) (generated_text gen)) as [tr2 [mid|e]].
  - cbn [fst snd] in Honly |- *.
    destruct (py_int target) as [chat|e] eqn:Hchat.
    + match goal with |- context [crosspost cfg o d ?t ?i ?f] =>
        pose proof (crosspost_no_delivery o d t i f) as Hvk;
        destruct (crosspost cfg o d t i f) as [[tr3 vk] log2] end.
      cbn [fst snd run_trace run_result ok tg_message_id] in Hvk |- *.
      rewrite !filter_app, Honly, Hvk, app_nil_r. split_and!.
      * done.
      * intros mid' [= <-]. split; [done|]. split; [by eexists|done].
      * done.
    + cbn [run_trace run_result failed ok tg_message_id].
      rewrite filter_app, Honly. split_and!.
      * done.
      * intros mid' [= <-]. split; [done|]. split; [done|]. by intros [chat ?].
      * done.
  - cbn [fst snd run_trace run_result failed ok tg_message_id] in Honly |- *.
    rewrite filter_app, Honly. split_and!; [done|done|]. by intros e' _.
Qed.

(** The entry a successful run leaves at the end of the log. *)
Lemma publish_body_entry o d target dest rubric tone season audience constraints dk :
  let out := publish_body cfg o d target dest rubric tone season audience constraints dk in
  ok (run_result out) = true →
  ∃ e, last (load_post_log (post_log_file (run_disk out))) = Some e
       ∧ log_tg_message_id e = Some (default 0 (tg_message_id (run_result out)))
       ∧ log_vk_post_id e = vk_post_id (run_result out)
       ∧ log_replies_count e = Some 0.
Proof.
  intros out Hok.
  destruct (publish_body_writes cfg o d target dest rubric tone season audience
              constraints dk) as [(Hno & _)|(_ & _ & _ & chat & _ & Hlog)].
  { unfold out in Hok. congruence. }
  unfold out. rewrite Hlog. cbn [load_post_log]. rewrite last_snoc.
  eexists. split; [done|]. done.
Qed.

(** The first call of the [try] block is the text generator, with the
    rubric the block was given. *)
Lemma publish_body_trace_head o d target dest rubric tone season audience constraints dk :
  ∃ rest,
    run_trace (publish_body cfg o d target dest rubric tone season audience constraints dk)
    = GenerateText rubric dest season tone audience
        (match constraints with VList _ => constraints | _ => VList [] end) :: rest.
Proof.
  unfold publish_body.
  destruct (generate_travel_post o); [|by eexists].
  destruct (publisher_init o); [|by eexists].
  destruct (deliver o _ _) as [tr2 [mid|]]; [|by eexists].
  destruct (py_int target); [|by eexists].
  destruct (crosspost _ _ _ _ _ _) as [[tr3 vk] log2]. by eexists.
Qed.

End RunClaims.

(** ** Publish pipeline: result *)

(** C2, as the code has it. For a run that returns its result: [ok] is
    true only if the text was generated and the delivery to the primary
    channel ended without an exception, and the result then carries the
    message id that delivery gave (which is null when the answer carried
    none); every successful run leaves as the last entry of the log one
    that records that id, or 0 for a null id, the VK post id of the result
    and no replies; [error] is set exactly when [ok] is false; a failing
    image generator leaves the run as a run without image; whatever VK
    answers, [ok], the message id and [error] are the same; and when VK
    gives no post id, a successful run reports no VK post id and its log
    entry keeps a null one. *)
Theorem publish_result_semantics (cfg : config) (o : oracle) (chat_id : Z)
    (settings : value) (destination_override : option string) (dk : disk)
    (out : outcome) :
  run_generate_and_publish cfg o chat_id settings destination_override dk = Ok out →
  let r := run_result out in
  (ok r = true →
     ∃ gen mid,
       generate_travel_post o = Ok gen
       ∧ (deliver o (generated_image o) (generated_text gen)).2 = Ok mid
       ∧ tg_message_id r = mid)
  ∧ (ok r = true →
     ∃ e, last (load_post_log (post_log_file (run_disk out))) = Some e
          ∧ log_tg_message_id e = Some (default 0 (tg_message_id r))
          ∧ log_vk_post_id e = vk_post_id r
          ∧ log_replies_count e = Some 0)
  ∧ (is_Some (error r) ↔ ok r = false)
  ∧ (∀ e, generate_images o = Raise e →
       run_generate_and_publish cfg (with_images (Ok []) o) chat_id settings
         destination_override dk = Ok out)
  ∧ (∀ vk, ∃ out',
       run_generate_and_publish cfg (with_vk vk o) chat_id settings
         destination_override dk = Ok out'
       ∧ ok (run_result out') = ok r
       ∧ tg_message_id (run_result out') = tg_message_id r
       ∧ error (run_result out') = error r)
  ∧ (ok r = true →
     (∀ p, vk_publish_post o ≠ Ok (Some p)) →
     vk_post_id r = None
     ∧ ∃ e, last (load_post_log (post_log_file (run_disk out))) = Some e
            ∧ log_vk_post_id e = None
            ∧ log_tg_message_id e = Some (default 0 (tg_message_id r))
            ∧ log_replies_count e = Some 0).
Proof.
  intros Hrun r.
  destruct (run_cases cfg o chat_id settings destination_override dk out Hrun)
    as [(msg & Hout & Hany) | (d & target & dest & rubric & tone & season & audience
                               & constraints & Hout & Hany)].
  - subst out r. cbn [run_result refused ok error]. split_and!.
    + done.
    + done.
    + split; [done|]. intros _. by eexists.
    + intros e _. apply Hany.
    + intros vk. eexists. split; [apply Hany|done].
    + done.
  - subst out r. split_and!.
    + apply publish_body_ok.
    + apply publish_body_entry.
    + apply publish_body_error_iff.
    + intros e Himg. rewrite Hany. f_equal.
      symmetry. by eapply publish_body_image_failure.
    + intros vk. eexists. split; [apply Hany|]. apply publish_body_vk.
    + apply publish_body_mirror_failure.
Qed.

Lemma publish_result_semantics_witness :
  ∃ out e,
    run_generate_and_publish sample_config
      (with_vk (Raise (Exception "VK is down")) sample_oracle)
      7 (VDict mirrored_settings) None sample_disk = Ok out
    ∧ crosspost_on sample_config mirrored_settings = true
    ∧ existsb calls_vk (run_trace out) = true
    ∧ ok (run_result out) = true
    ∧ vk_post_id (run_result out) = None
    ∧ last (load_post_log (post_log_file (run_disk out))) = Some e
    ∧ log_vk_post_id e = None
    ∧ log_tg_message_id e = Some 501.
Proof.
  assert (Hrun : ∃ out,
            run_generate_and_publish sample_config
              (with_vk (Raise (Exception "VK is down")) sample_oracle)
              7 (VDict mirrored_settings) None sample_disk = Ok out
            ∧ existsb calls_vk (run_trace out) = true
            ∧ ok (run_result out) = true
            ∧ tg_message_id (run_result out) = Some 501)
    by (eexists; split; [vm_compute; reflexivity|split_and!; reflexivity]).
  destruct Hrun as (out & Hrun & Hcalled & Hok & Hid).
  destruct (publish_result_semantics sample_config
              (with_vk (Raise (Exception "VK is down")) sample_oracle)
              7 (VDict mirrored_settings) None sample_disk out Hrun)
    as (_ & _ & _ & _ & _ & Hmirror).
  destruct (Hmirror Hok) as (Hvk & e & Hlast & Hnull & Hmid & _).
  { intros p. discriminate. }
  exists out, e. rewrite Hid in Hmid. by split_and!.
Defined.

(** ** Delivery within a run *)

(** C1. Delivery to the primary channel in a run of the pipeline that has
    a target chat and the key, whose text was generated and whose publisher
    was built. The delivery calls of the run are exactly these, in this
    order. With no image, the text is published and neither photo request
    is made. With an image, the photo is first sent by its URL with the
    text as caption (its first 1024 characters); only when that is not
    accepted are the bytes fetched and sent as a file with the same
    caption; only when that fails too (at the download or at the send) is
    the text published alone. The tier that succeeds first ends the
    delivery and its message id is the one the run reports; the run then
    reports success when the target chat is a number; and when the last
    tier fails the run reports failure and no message id. *)
Theorem delivery_three_tiers (cfg : config) (o : oracle) (chat_id : Z) (d : dict)
    (override : option string) (dk : disk) (out : outcome) (gen : gen_out) :
  run_generate_and_publish cfg o chat_id (VDict d) override dk = Ok out →
  truthy (dict_get d "target_chat_id") = true →
  truthy_opt (OPENAI_API_KEY cfg) = true →
  generate_travel_post o = Ok gen →
  publisher_init o = Ok () →
  let post_text := generated_text gen in
  let caption := str_take 1024 post_text in
  let text_only :=
    (λ reply : option tg_reply, reply ≫= tg_result_message_id) <$> publish_post o in
  let delivered (calls : list event) (answer : result (option Z)) :=
    delivery_calls out = calls
    ∧ (∀ mid, answer = Ok mid →
         tg_message_id (run_result out) = mid
         ∧ (ok (run_result out) = true
            ↔ ∃ chat, py_int (dict_get d "target_chat_id") = Ok chat))
    ∧ (∀ e, answer = Raise e →
         ok (run_result out) = false ∧ tg_message_id (run_result out) = None) in
  (truthy_opt (generated_image o) = false →
     delivered [PublishText post_text] text_only)
  ∧ (∀ url, generated_image o = Some url → url ≠ "" →
       (∀ mid, accepted (send_photo_url o) = Some mid →
          delivered [SendPhotoUrl url caption] (Ok mid))
       ∧ (∀ mid, accepted (send_photo_url o) = None →
            download_image o = Ok () →
            accepted (send_photo_file o) = Some mid →
            delivered [SendPhotoUrl url caption; DownloadImage url; SendPhotoFile caption]
              (Ok mid))
       ∧ (∀ e, accepted (send_photo_url o) = None →
            download_image o = Raise e →
            delivered [SendPhotoUrl url caption; DownloadImage url; PublishText post_text]
              text_only)
       ∧ (accepted (send_photo_url o) = None →
          download_image o = Ok () →
          accepted (send_photo_file o) = None →
          delivered [SendPhotoUrl url caption; DownloadImage url; SendPhotoFile caption;
                     PublishText post_text] text_only)).
Proof.
  intros Hrun Htarget Hkey Hgen Hinit post_text caption text_only delivered.
  destruct (run_on_dict cfg o chat_id d override dk out Hrun)
    as [([Hno|Hno] & _)|(_ & _ & dest & _ & ->)]; [congruence|congruence|].
  pose proof (publish_body_delivered cfg o d (dict_get d "target_chat_id") dest
                (rubric_in_use d) (py_or (dict_get d "tone") (VStr "FRIENDLY"))
                (dict_get d "season") (dict_get d "audience")
                (py_or (dict_get d "constraints") (VList [])) dk gen Hgen Hinit)
    as Hsent.
  cbv zeta in Hsent. fold post_text in Hsent.
  destruct (deliver_tiers o (generated_image o) post_text) as [Hplain Himage].
  fold caption text_only in Hplain, Himage.
  unfold delivered. split.
  - intros Hnone. by rewrite (Hplain Hnone) in Hsent.
  - intros url Hurl Hne.
    destruct (Himage url Hurl Hne) as (Ha & Hb & Hc & Hd). split_and!.
    + intros mid Hacc. by rewrite (Ha mid Hacc) in Hsent.
    + intros mid Hrej Hdl Hacc. by rewrite (Hb mid Hrej Hdl Hacc) in Hsent.
    + intros e Hrej Hdl. by rewrite (Hc e Hrej Hdl) in Hsent.
    + intros Hrej Hdl Hrej2. by rewrite (Hd Hrej Hdl Hrej2) in Hsent.
Qed.

Lemma delivery_three_tiers_witness :
  ∃ out,
    run_generate_and_publish sample_config sample_oracle_photo_refused 7
      (sample_settings true "09:30" "daily") None sample_disk = Ok out
    ∧ delivery_calls out
      = [SendPhotoUrl "https://img.example/1.png" "Seven hills, one tram.";
         DownloadImage "https://img.example/1.png";
         SendPhotoFile "Seven hills, one tram.";
         PublishText "Seven hills, one tram."]
    ∧ tg_message_id (run_result out) = Some 503
    ∧ ok (run_result out) = true.
Proof.
  assert (Hrun : ∃ out,
            run_generate_and_publish sample_config sample_oracle_photo_refused 7
              (sample_settings true "09:30" "daily") None sample_disk = Ok out)
    by (eexists; vm_compute; reflexivity).
  destruct Hrun as [out Hrun].
  destruct (delivery_three_tiers sample_config sample_oracle_photo_refused 7
              {[ "target_chat_id" := VInt 7; "destination" := VStr "Lisbon";
                 "schedule" := VDict {[ "enabled" := VBool true; "time" := VStr "09:30";
                                        "frequency" := VStr "daily" ]} ]}
              None sample_disk out
              {| out_post_text := Some "Seven hills, one tram.";
                 out_image_prompt := Some "tram 28 at dusk" |}
              Hrun eq_refl eq_refl eq_refl eq_refl) as [_ Himage].
  destruct (Himage "https://img.example/1.png" eq_refl ltac:(discriminate))
    as (_ & _ & _ & Hfour).
  destruct (Hfour eq_refl eq_refl eq_refl) as (Hcalls & Hanswer & _).
  destruct (Hanswer (Some 503) eq_refl) as [Hid Hok].
  exists out. split_and!; [exact Hrun|exact Hcalls|exact Hid|].
  apply Hok. by exists 7.
Defined.

(** ** Consecutive scheduled runs *)

(** C3. The scheduled job, when it has a chat to publish to and the rubric
    the rotator resolves equals the rubric recorded in [last_used]: the job
    returns, having taken one of the two fixed alternates, TIPS or FOOD, by
    a fixed rule; that rubric differs from the previous run's; the job has
    saved it in the settings file; every text the job has generated was
    asked for with it; and when the settings name the target chat and the
    key is set, the first call of the job is the text generator with that
    rubric. *)
Theorem consecutive_runs_differ (container_repr : value → string) (cfg : config)
    (o : oracle) (defaults : dict) (dk : disk) (d : dict) (chat : Z)
    (rubric : string) (prev_rubric : value) :
  load_settings defaults (settings_file dk) = VDict d →
  truthy (job_chat_id cfg (dict_get d "target_chat_id")) = true →
  py_int (job_chat_id cfg (dict_get d "target_chat_id")) = Ok chat →
  (∀ v, d !! "destination" = Some v → v = VNone ∨ ∃ s, v = VStr s) →
  let last := py_or (dict_get d "last_used") (VDict ∅) in
  let content_plan := py_or (dict_get d "content_plan") (VDict ∅) in
  get_rubric_for_weekday container_repr (now o) (now_weekday o) last content_plan
  = Ok rubric →
  py_get last "rubric" = Ok prev_rubric →
  str_eq rubric prev_rubric = true →
  ∃ (used : string) (dk' : disk) (tr : list event),
    scheduled_job_standalone container_repr cfg o defaults dk = Ok (dk', tr)
    ∧ used = (if bool_decide (rubric = "TIPS") then "FOOD" else "TIPS")
    ∧ str_eq used prev_rubric = false
    ∧ (∃ saved, settings_file dk' = Holds (VDict saved)
                ∧ saved !! "rubric" = Some (VStr used))
    ∧ (∀ ev r, ev ∈ tr → text_rubric ev = Some r → r = VStr used)
    ∧ (truthy (dict_get d "target_chat_id") = true →
       truthy_opt (OPENAI_API_KEY cfg) = true →
       ∃ dest season tone audience constraints rest,
         tr = GenerateText (VStr used) dest season tone audience constraints :: rest).
Proof.
  intros Hload Hchat Hint Hdest last content_plan Hrot Hprev Heq.
  assert (Hstr : ∃ s, py_or (dict_get d "destination") (VStr "") = VStr s).
  { unfold py_or, dict_get. destruct (d !! "destination") as [v|] eqn:Hv; cbn.
    - destruct (Hdest v eq_refl) as [-> |[s ->]]; cbn; [by eexists|].
      case_match; by eexists.
    - by eexists. }
  destruct Hstr as [s Hs].
  set (d1 := pick_destination o d (strip s)).
  assert (Hframe : ∀ k, k ≠ "destination" → dict_get d1 k = dict_get d k).
  { intros k Hk. unfold dict_get, d1. by rewrite pick_destination_frame. }
  destruct (rotation_step container_repr o d1 dk rubric prev_rubric)
    as (used & Hchoose & Hused & Hdiff & Hd2 & Huse & Hfile & Htext).
  { by rewrite !Hframe. }
  { by rewrite Hframe. }
  { done. }
  set (ctx := resolve_context container_repr o d1 dk) in *.
  assert (Hdest2 : ∀ v, ctx.1 !! "destination" = Some v → v = VNone ∨ ∃ t, v = VStr t).
  { intros v. rewrite Hd2, lookup_insert_ne by done. unfold d1, pick_destination.
    destruct (DEFAULT_DESTINATIONS !! _) as [pick|]; [|apply Hdest].
    destruct (negb _); [|apply Hdest].
    rewrite lookup_insert_eq. intros [= <-]. right. by eexists. }
  destruct (run_generate_and_publish_returns cfg o chat ctx.1 None ctx.2 Hdest2)
    as [out Hrun].
  set (tr := run_trace out
             ++ (if ok (run_result out) then []
                 else [SendErrorNotice (error (run_result out))])).
  assert (Hjob : scheduled_job_standalone container_repr cfg o defaults dk
                 = Ok (run_disk out, tr)).
  { unfold scheduled_job_standalone. rewrite Hload. cbn [py_get mbind result_bind].
    rewrite Hchat. cbn [negb]. rewrite Hs. cbn [py_strip mbind result_bind].
    fold (pick_destination o d (strip s)). fold d1. fold ctx.
    destruct ctx as [d2 dk2]. cbn [fst snd] in Hrun.
    rewrite Hint. cbn [mbind result_bind]. rewrite Hrun. cbn [mbind result_bind].
    unfold tr. destruct (ok (run_result out)); cbn [negb]; [|done].
    by rewrite app_nil_r. }
  exists used, (run_disk out), tr. split_and!; [done..| | |].
  - destruct (run_settings_file cfg o chat ctx.1 None ctx.2 out Hrun)
      as [Hsame|[dest Hnew]].
    + exists ctx.1. split; [by rewrite Hsame, Hfile, Hd2|].
      rewrite Hd2. apply lookup_insert_eq.
    + eexists. split; [exact Hnew|]. unfold record_last_used.
      rewrite lookup_insert_ne by done. rewrite Hd2. apply lookup_insert_eq.
  - intros ev r Hin Hev. unfold tr in Hin. apply elem_of_app in Hin as [Hin|Hin].
    + by eapply Htext.
    + destruct (ok (run_result out)); [by apply elem_of_nil in Hin|].
      apply list_elem_of_singleton in Hin as ->. done.
  - intros Htarget Hkey.
    destruct (run_on_dict cfg o chat ctx.1 None ctx.2 out Hrun)
      as [([Hno|Hno] & _)|(_ & _ & dest & _ & Hout)].
    + exfalso. revert Hno. rewrite Hd2. unfold dict_get.
      rewrite lookup_insert_ne by done. fold (dict_get d1 "target_chat_id").
      rewrite Hframe by done. congruence.
    + congruence.
    + destruct (publish_body_trace_head cfg o ctx.1 (dict_get ctx.1 "target_chat_id") dest
                  (rubric_in_use ctx.1) (py_or (dict_get ctx.1 "tone") (VStr "FRIENDLY"))
                  (dict_get ctx.1 "season") (dict_get ctx.1 "audience")
                  (py_or (dict_get ctx.1 "constraints") (VList [])) ctx.2)
        as [rest Hhead].
      unfold tr. rewrite Hout, Hhead, Huse. by eexists _, _, _, _, _, _.
Qed.

Lemma consecutive_runs_differ_witness :
  let dk := {| settings_file := Holds (VDict {[
                 "target_chat_id" := VInt 7;
                 "destination" := VStr "Lisbon";
                 "last_used" := VDict {[ "rubric" := VStr "TIPS";
                                         "date" := VStr "2026-10-30" ]} ]});
               post_log_file := Absent |} in
  ∃ dk' tr dest season tone audience constraints rest,
    scheduled_job_standalone (λ _, "") sample_config sample_oracle ∅ dk = Ok (dk', tr)
    ∧ tr = GenerateText (VStr "FOOD") dest season tone audience constraints :: rest.
Proof.
  intros dk.
  destruct (consecutive_runs_differ (λ _, "") sample_config sample_oracle ∅ dk
              {[ "target_chat_id" := VInt 7; "destination" := VStr "Lisbon";
                 "last_used" := VDict {[ "rubric" := VStr "TIPS";
                                         "date" := VStr "2026-10-30" ]} ]}
              7 "TIPS" (VStr "TIPS"))
    as (used & dk' & tr & Hjob & Hused & _ & _ & _ & Hfirst).
  - reflexivity.
  - reflexivity.
  - reflexivity.
  - intros v Hv. right. exists "Lisbon". vm_compute in Hv. by injection Hv as <-.
  - reflexivity.
  - reflexivity.
  - reflexivity.
  - destruct (Hfirst eq_refl eq_refl)
      as (dest & season & tone & audience & constraints & rest & Htr).
    subst used.
    exists dk', tr, dest, season, tone, audience, constraints, rest.
    split; [exact Hjob|exact Htr].
Defined.
